(** * AI Billing Concierge: the bill-intelligence pipeline

    A shallow embedding of the analyzers of [src/services] and of the batch
    upload route of [src/routes/advancedBillingAPI.js], with the properties
    of the specification stated and settled against them.

    JavaScript numbers are IEEE-754 binary64 values: they are modelled by
    Rocq's primitive [float], whose operations are the hardware ones and
    whose specification ([FloatAxioms], over [SpecFloat]) is the library's.
    A property access on [undefined] or [null] raises a [TypeError]; code
    that can raise lives in the [result] monad. *)

From Stdlib Require Import Floats ZArith List String Bool Lia Sorted.
From Stdlib Require Import Permutation.
Import ListNotations.

Set Warnings "-inexact-float".

(* ================================================================= *)
(** ** JavaScript values and built-ins *)

Module JS.

(** A property of a JSON-like object: missing or [undefined], [null], or a
    value of the expected kind.  A numeric property holds a number, a text
    property a string, a sub-object an object: values of another kind are
    outside the model. *)
Inductive Field (A : Type) : Type :=
| undefined
| null
| defined (a : A).
Arguments undefined {A}.
Arguments null {A}.
Arguments defined {A} a.

(** A numeric property. *)
Definition value := Field float.
Definition number (x : float) : value := defined x.

(** [ToNumber]: [undefined] is [NaN], [null] is [+0]. *)
Definition ToNumber (v : value) : float :=
  match v with
  | undefined => nan
  | null => 0%float
  | defined x => x
  end.

(** [ToBoolean] of a numeric property: [0], [-0] and [NaN] are falsy. *)
Definition ToBoolean (v : value) : bool :=
  match v with
  | defined x => negb (x =? 0)%float && negb (is_nan x)
  | _ => false
  end.

(** [ToBoolean] of a property that holds an object, an array or a
    non-empty string: truthy exactly when present. *)
Definition present {A} (f : Field A) : bool :=
  match f with
  | defined _ => true
  | _ => false
  end.

(** [a || b] on numeric properties. *)
Definition or (a b : value) : value := if ToBoolean a then a else b.

(** Thrown values. *)
Inductive Error : Type :=
| TypeError (message : string)
| GenericError (message : string).

Definition message (e : Error) : string :=
  match e with
  | TypeError m => m
  | GenericError m => m
  end.

Inductive result (A : Type) : Type :=
| Ok (a : A)
| Throw (e : Error).
Arguments Ok {A} a.
Arguments Throw {A} e.

Definition bind {A B} (r : result A) (k : A -> result B) : result B :=
  match r with
  | Ok a => k a
  | Throw e => Throw e
  end.

(** [o.p] where [o] is itself the property [f] of another object:
    reading a property of [undefined] or [null] throws. *)
Definition get {A} (f : Field A) : result A :=
  match f with
  | defined a => Ok a
  | undefined => Throw (TypeError "Cannot read properties of undefined")
  | null => Throw (TypeError "Cannot read properties of null")
  end.

(** [o?.p], and [o.p] behind a guard that [o] is present, for a numeric
    property [p]. *)
Definition opt {A} (f : Field A) (p : A -> value) : value :=
  match f with
  | defined a => p a
  | _ => undefined
  end.

(** The same for a property that holds an object. *)
Definition opt_obj {A B} (f : Field A) (p : A -> Field B) : Field B :=
  match f with
  | defined a => p a
  | _ => undefined
  end.

(** [Math.round]: the integer nearest to [x], ties towards +infinity;
    [NaN], the infinities and the zeros are returned unchanged, and a
    result of zero keeps the sign of [x].  With [x = n * 2^e] and [e < 0]
    the result is [floor ((2 n + 2^-e) / 2^(1-e))]. *)
Definition Math_round (x : float) : float :=
  match Prim2SF x with
  | S754_finite s m e =>
      if (0 <=? e)%Z then x
      else
        let n := if s then Z.neg m else Z.pos m in
        let q := ((2 * n + 2 ^ (- e)) / 2 ^ (1 - e))%Z in
        if (q =? 0)%Z then (if s then neg_zero else zero)
        else SF2Prim (binary_normalize prec emax q 0 false)
  | _ => x
  end.

Definition Math_abs (x : float) : float := abs x.

(** [Number.isFinite]: neither [NaN] nor an infinity. *)
Definition isFinite (x : float) : bool := (abs x <? infinity)%float.

(** Text built by template literals.  [x.toFixed(1)] is kept symbolic. *)
Inductive Text : Type :=
| Str (s : string)
| ToFixed1 (x : float)
| Cat (a b : Text).

(** [Array.prototype.sort(compareFn)]: a stable sort; a comparator result
    of [NaN] counts as [+0].  For a consistent comparator every stable
    algorithm returns the list computed here, by insertion from the right:
    an element moves behind exactly the elements the comparator puts
    strictly before it. *)
Fixpoint insert {A} (compareFn : A -> A -> float) (x : A) (l : list A) : list A :=
  match l with
  | [] => [x]
  | y :: l' =>
      if (0 <? compareFn x y)%float then y :: insert compareFn x l'
      else x :: l
  end.

Definition Array_sort {A} (compareFn : A -> A -> float) (l : list A) : list A :=
  fold_right (insert compareFn) [] l.

End JS.

Export JS.

Notation "x <- e ;; k" := (bind e (fun x => k))
  (at level 61, e at next level, right associativity).

(* ================================================================= *)
(** ** The bill record *)

Record AccountInfo := {
  accountNumber : Field string;
  customerName : Field string;
  serviceAddress : Field string;
  billingAddress : Field string
}.

Record BillingPeriod := {
  startDate : Field string;
  endDate : Field string;
  daysInPeriod : value
}.

Record Charges := {
  totalAmount : value;
  baseCharge : value;
  energyCharges : value;
  deliveryCharges : value;
  taxes : value;
  fees : value;
  adjustments : value
}.

Record Usage := {
  totalKwh : value;
  peakKwh : value;
  offPeakKwh : value;
  demandKw : value
}.

Record Rates := {
  energyRate : value;
  peakRate : value;
  offPeakRate : value;
  demandRate : value
}.

(** A comparison snapshot, [{usage, amount}]. *)
Module Snapshot.
Record t := { usage : value; amount : value }.
End Snapshot.

Record Comparisons := {
  previousMonth : Field Snapshot.t;
  yearAgo : Field Snapshot.t
}.

Record BillData := {
  accountInfo : Field AccountInfo;
  billingPeriod : Field BillingPeriod;
  charges : Field Charges;
  usage : Field Usage;
  rates : Field Rates;
  comparisons : Field Comparisons;
  validationWarnings : Field (list string)
}.

(* ================================================================= *)
(** ** services/anomalyDetector.js *)

Inductive Severity := severe | moderate | mild.

Inductive AnomalyType := usage_anomaly | cost_anomaly | peak_usage_anomaly.

Module Anomaly.
Record t := {
  type : AnomalyType;
  severity : Severity;
  title : string;
  description : Text;
  impact : float;
  recommendations : list string
}.
End Anomaly.

Module AnomalyDetector.
Local Open Scope string_scope.
Local Open Scope float_scope.

(** One row of [this.thresholds]. *)
Module Thresholds.
Record t := { mild : float; moderate : float; severe : float }.
End Thresholds.

Definition thresholds_usage : Thresholds.t :=
  {| Thresholds.mild := 15; Thresholds.moderate := 25; Thresholds.severe := 40 |}.
Definition thresholds_cost : Thresholds.t :=
  {| Thresholds.mild := 20; Thresholds.moderate := 35; Thresholds.severe := 50 |}.
Definition thresholds_efficiency : Thresholds.t :=
  {| Thresholds.mild := 10; Thresholds.moderate := 20; Thresholds.severe := 30 |}.

Definition getSeverity (v : float) (thresholds : Thresholds.t) : Severity :=
  if Thresholds.severe thresholds <=? v then severe
  else if Thresholds.moderate thresholds <=? v then moderate
  else mild.

Definition getUsageRecommendations (change : float) : list string :=
  if 0 <? change then
    [ "Check for malfunctioning appliances";
      "Review HVAC system efficiency";
      "Monitor daily usage patterns";
      "Consider energy audit" ]
  else
    [ "Great job on reducing consumption!";
      "Continue current practices";
      "Monitor for any service issues" ].

Definition getCostRecommendations (change : float) : list string :=
  if 0 <? change then
    [ "Review rate changes";
      "Analyze usage patterns";
      "Check for billing errors";
      "Consider dispute if necessary" ]
  else
    [ "Excellent cost management!";
      "Review what caused the decrease";
      "Apply successful strategies consistently" ].

Definition getPeakRecommendations : list string :=
  [ "Shift appliance usage to off-peak hours";
    "Use programmable timers";
    "Consider time-of-use rate plans";
    "Optimize heating/cooling schedules" ].

(** The percentage change of [current] against [previous]. *)
Definition percentChange (current previous : value) : float :=
  ((ToNumber current - ToNumber previous) / ToNumber previous) * 100.

(** The constant [previous] of [detectUsageAnomalies]. *)
Definition usagePrevious (u : Usage) (c : Comparisons) : value :=
  or (opt (previousMonth c) Snapshot.usage) (totalKwh u).

Definition usageChange (u : Usage) (c : Comparisons) : float :=
  percentChange (totalKwh u) (usagePrevious u c).

Definition detectUsageAnomalies (billData : BillData) : result (list Anomaly.t) :=
  u <- get (usage billData) ;;
  c <- get (comparisons billData) ;;
  let change := usageChange u c in
  Ok (if Thresholds.mild thresholds_usage <? Math_abs change then
        [ {| Anomaly.type := usage_anomaly;
             Anomaly.severity := getSeverity (Math_abs change) thresholds_usage;
             Anomaly.title := (if 0 <? change then "Increased" else "Decreased")
                      ++ " Usage Pattern";
             Anomaly.description :=
               Cat (Str ("Energy usage "
                         ++ (if 0 <? change then "increased" else "decreased")
                         ++ " by "))
                   (Cat (ToFixed1 (Math_abs change)) (Str "%"));
             Anomaly.impact := Math_abs change;
             Anomaly.recommendations := getUsageRecommendations change |} ]
      else []).

(** The constant [previous] of [detectCostAnomalies]. *)
Definition costPrevious (ch : Charges) (c : Comparisons) : value :=
  or (opt (previousMonth c) Snapshot.amount) (totalAmount ch).

Definition costChange (ch : Charges) (c : Comparisons) : float :=
  percentChange (totalAmount ch) (costPrevious ch c).

Definition detectCostAnomalies (billData : BillData) : result (list Anomaly.t) :=
  ch <- get (charges billData) ;;
  c <- get (comparisons billData) ;;
  let change := costChange ch c in
  Ok (if Thresholds.mild thresholds_cost <? Math_abs change then
        [ {| Anomaly.type := cost_anomaly;
             Anomaly.severity := getSeverity (Math_abs change) thresholds_cost;
             Anomaly.title := (if 0 <? change then "Higher" else "Lower")
                      ++ " Bill Amount";
             Anomaly.description :=
               Cat (Str ("Total bill "
                         ++ (if 0 <? change then "increased" else "decreased")
                         ++ " by "))
                   (Cat (ToFixed1 (Math_abs change)) (Str "%"));
             Anomaly.impact := Math_abs change;
             Anomaly.recommendations := getCostRecommendations change |} ]
      else []).

Definition detectPatternAnomalies (billData : BillData) : result (list Anomaly.t) :=
  u <- get (usage billData) ;;
  Ok (if ToBoolean (peakKwh u) && ToBoolean (totalKwh u) then
        let peakRatio := (ToNumber (peakKwh u) / ToNumber (totalKwh u)) * 100 in
        if 40 <? peakRatio then
          [ {| Anomaly.type := peak_usage_anomaly;
               Anomaly.severity := if 50 <? peakRatio then severe else moderate;
               Anomaly.title := "High Peak Usage Pattern";
               Anomaly.description :=
                 Cat (Str "Peak usage represents ")
                     (Cat (ToFixed1 peakRatio) (Str "% of total consumption"));
               Anomaly.impact := peakRatio;
               Anomaly.recommendations := getPeakRecommendations |} ]
        else []
      else []).

Definition severityOrder (s : Severity) : float :=
  match s with
  | severe => 3
  | moderate => 2
  | mild => 1
  end.

Definition prioritizeAnomalies (anomalies : list Anomaly.t) : list Anomaly.t :=
  Array_sort
    (fun a b => severityOrder (Anomaly.severity b) - severityOrder (Anomaly.severity a))
    anomalies.

Definition detectAnomalies (billData : BillData) : result (list Anomaly.t) :=
  let anomalies := [] in
  anomalies <-
    (if present (usage billData) && present (comparisons billData) then
       usageAnomalies <- detectUsageAnomalies billData ;;
       Ok (anomalies ++ usageAnomalies)%list
     else Ok anomalies) ;;
  anomalies <-
    (if present (charges billData) && present (comparisons billData) then
       costAnomalies <- detectCostAnomalies billData ;;
       Ok (anomalies ++ costAnomalies)%list
     else Ok anomalies) ;;
  patternAnomalies <- detectPatternAnomalies billData ;;
  Ok (prioritizeAnomalies (anomalies ++ patternAnomalies)%list).

End AnomalyDetector.


(* ================================================================= *)
(** ** services/predictiveAnalyzer.js *)

Module NextMonth.
Record t := {
  usage : value;
  amount : value;
  confidence : value;
  factors : list string
}.
End NextMonth.

Module Quarter.
Record t := { month : Z; usage : value; amount : value }.
End Quarter.

Module Annual.
Record t := {
  estimatedTotal : value;
  energy : value;
  delivery : value;
  fees : value;
  confidence : value
}.
End Annual.

Module Seasonal.
Record t := { season : string; factor : value; estimatedAmount : value }.
End Seasonal.

Record Predictions := {
  nextMonth : Field NextMonth.t;
  quarterly : Field (list Quarter.t);
  annual : Field Annual.t;
  seasonal : Field (list Seasonal.t)
}.

Module PredictiveAnalyzer.
Local Open Scope string_scope.
Local Open Scope float_scope.

(** [this.seasonalFactors]. *)
Definition seasonalFactors (season : string) : value :=
  if String.eqb season "winter" then number 1.3
  else if String.eqb season "spring" then number 0.9
  else if String.eqb season "summer" then number 1.4
  else if String.eqb season "fall" then number 1.0
  else undefined.

Definition calculateTrend (billData : BillData) : result float :=
  if negb (present (comparisons billData))
     || negb (present (opt_obj (comparisons billData) previousMonth))
  then Ok 0.02
  else
    ch <- get (charges billData) ;;
    c <- get (comparisons billData) ;;
    pm <- get (previousMonth c) ;;
    let current := totalAmount ch in
    let previous := Snapshot.amount pm in
    Ok ((ToNumber current - ToNumber previous) / ToNumber previous).

Definition predictNextMonth (billData : BillData) : result NextMonth.t :=
  u <- get (usage billData) ;;
  let currentUsage := totalKwh u in
  ch <- get (charges billData) ;;
  let currentAmount := totalAmount ch in
  trend <- calculateTrend billData ;;
  let predictedUsage := ToNumber currentUsage * (1 + trend) in
  let predictedAmount := ToNumber currentAmount * (1 + trend) in
  Ok {| NextMonth.usage := number (Math_round predictedUsage);
        NextMonth.amount := number (Math_round (predictedAmount * 100) / 100);
        NextMonth.confidence := number 0.85;
        NextMonth.factors :=
          [ "historical trend"; "seasonal adjustment"; "usage patterns" ] |}.

(** [currentMonth] is [new Date().getMonth()], in [0..11]. *)
Definition getSeasonalFactor (currentMonth monthsAhead : Z) : value :=
  let futureMonth := ((currentMonth + monthsAhead) mod 12)%Z in
  if ((11 <=? futureMonth) || (futureMonth <=? 1))%Z then seasonalFactors "winter"
  else if ((2 <=? futureMonth) && (futureMonth <=? 4))%Z then seasonalFactors "spring"
  else if ((5 <=? futureMonth) && (futureMonth <=? 8))%Z then seasonalFactors "summer"
  else seasonalFactors "fall".

Definition predictQuarterly (currentMonth : Z) (billData : BillData)
  : result (list Quarter.t) :=
  u <- get (usage billData) ;;
  let baseUsage := ToNumber (totalKwh u) in
  ch <- get (charges billData) ;;
  let baseAmount := ToNumber (totalAmount ch) in
  Ok (map (fun i =>
             let seasonalFactor := getSeasonalFactor currentMonth i in
             {| Quarter.month := i;
                Quarter.usage :=
                  number (Math_round (baseUsage * ToNumber seasonalFactor));
                Quarter.amount :=
                  number (Math_round (baseAmount * ToNumber seasonalFactor * 100)
                          / 100) |})
          [1; 2; 3]%Z).

Definition predictAnnual (billData : BillData) : result Annual.t :=
  ch <- get (charges billData) ;;
  let monthlyAverage := ToNumber (totalAmount ch) in
  let annualEstimate := monthlyAverage * 12 in
  Ok {| Annual.estimatedTotal := number (Math_round (annualEstimate * 100) / 100);
        Annual.energy := number (Math_round (annualEstimate * 0.7 * 100) / 100);
        Annual.delivery := number (Math_round (annualEstimate * 0.15 * 100) / 100);
        Annual.fees := number (Math_round (annualEstimate * 0.15 * 100) / 100);
        Annual.confidence := number 0.75 |}.

Definition predictSeasonal (billData : BillData) : result (list Seasonal.t) :=
  let seasons := [ "winter"; "spring"; "summer"; "fall" ] in
  ch <- get (charges billData) ;;
  let baseAmount := ToNumber (totalAmount ch) in
  Ok (map (fun season =>
             {| Seasonal.season := season;
                Seasonal.factor := seasonalFactors season;
                Seasonal.estimatedAmount :=
                  number
                    (Math_round
                       (baseAmount * ToNumber (seasonalFactors season) * 100)
                     / 100) |})
          seasons).

Definition generatePredictions (currentMonth : Z) (billData : BillData)
  : result Predictions :=
  nm <- predictNextMonth billData ;;
  q <- predictQuarterly currentMonth billData ;;
  a <- predictAnnual billData ;;
  s <- predictSeasonal billData ;;
  Ok {| nextMonth := defined nm;
        quarterly := defined q;
        annual := defined a;
        seasonal := defined s |}.

End PredictiveAnalyzer.

(* ================================================================= *)
(** ** services/patternAnalyzer.js *)

Module PatternAnalyzer.
Local Open Scope string_scope.
Local Open Scope float_scope.

(** [calculateEfficiency] returns its argument unchanged when it is not a
    bill with a [usage] object. *)
Inductive Efficiency : Type :=
| EfficiencyNumber (x : float)
| EfficiencyArgument (billData : BillData).

Module UsagePatterns.
Record t := {
  totalUsage : value;
  peakRatio : float;
  offPeakRatio : float;
  dailyAverage : float;
  efficiency : Efficiency;
  trend : float;
  classification : string;
  recommendations : list string
}.
End UsagePatterns.

Definition calculateEfficiency (billData : BillData) : result Efficiency :=
  if present (usage billData) then
    ch <- get (charges billData) ;;
    u <- get (usage billData) ;;
    Ok (EfficiencyNumber (ToNumber (totalAmount ch) / ToNumber (totalKwh u)))
  else Ok (EfficiencyArgument billData).

Definition calculateUsageTrend (billData : BillData) : result float :=
  if negb (present (comparisons billData))
     || negb (present (opt_obj (comparisons billData) previousMonth))
  then Ok 0
  else
    u <- get (usage billData) ;;
    c <- get (comparisons billData) ;;
    pm <- get (previousMonth c) ;;
    let current := ToNumber (totalKwh u) in
    let previous := ToNumber (Snapshot.usage pm) in
    Ok (((current - previous) / previous) * 100).

Definition classifyUsagePattern (usage : value) : string :=
  if ToNumber usage <? 600 then "low"
  else if ToNumber usage <? 1000 then "average"
  else if ToNumber usage <? 1500 then "high"
  else "very_high".

Definition getUsagePatternRecommendations (usage : value) (peakRatio : float)
  : list string :=
  ((if 1200 <? ToNumber usage
    then [ "Consider energy audit for high usage" ] else [])
   ++
   (if 0.4 <? peakRatio
    then [ "Shift usage to off-peak hours" ] else []))%list.

Definition analyzeUsagePatterns (billData : BillData) : result UsagePatterns.t :=
  u <- get (usage billData) ;;
  let usage := totalKwh u in
  let peakUsage := or (peakKwh u) (number 0) in
  let offPeakUsage :=
    or (offPeakKwh u) (number (ToNumber usage - ToNumber peakUsage)) in
  efficiency <- calculateEfficiency billData ;;
  trend <- calculateUsageTrend billData ;;
  Ok {| UsagePatterns.totalUsage := usage;
        UsagePatterns.peakRatio := (ToNumber peakUsage / ToNumber usage) * 100;
        UsagePatterns.offPeakRatio := (ToNumber offPeakUsage / ToNumber usage) * 100;
        UsagePatterns.dailyAverage := ToNumber usage / 30;
        UsagePatterns.efficiency := efficiency;
        UsagePatterns.trend := trend;
        UsagePatterns.classification := classifyUsagePattern usage;
        UsagePatterns.recommendations :=
          getUsagePatternRecommendations usage
            (ToNumber peakUsage / ToNumber usage) |}.

End PatternAnalyzer.

(* ================================================================= *)
(** ** services/recommendationEngine.js *)

(** The [priority] of a recommendation: one of the engine's own three
    levels, or the [severity] an anomaly recommendation inherits. *)
Inductive Priority := high | medium | low | inherited (s : Severity).

Module Recommendation.
Record t := {
  title : string;
  description : Text;
  category : string;
  priority : Priority;
  savings : float;
  actions : list string;
  timeline : string;
  impact : string
}.
End Recommendation.

Record Recommendations := {
  immediate : list Recommendation.t;
  shortTerm : list Recommendation.t;
  longTerm : list Recommendation.t
}.

Module RecommendationEngine.
Local Open Scope string_scope.
Local Open Scope float_scope.

(** [x || y] on numbers. *)
Definition or_number (x y : float) : float := ToNumber (or (number x) (number y)).

(** [savingsMultiplier[key]]; the table has the three severities and the
    three priority levels, and an anomaly has no [priority] property. *)
Definition savingsMultiplier (key : Field Priority) : value :=
  match key with
  | defined (inherited severe) => number 0.25
  | defined (inherited moderate) => number 0.15
  | defined (inherited mild) => number 0.05
  | defined high => number 0.2
  | defined medium => number 0.1
  | defined low => number 0.05
  | _ => undefined
  end.

Definition calculateSavings (anomaly : Anomaly.t) : float :=
  let multiplier :=
    or (savingsMultiplier (defined (inherited (Anomaly.severity anomaly))))
       (or (savingsMultiplier undefined) (number 0.1)) in
  or_number (Anomaly.impact anomaly) 100 * ToNumber multiplier.

Definition generateAnomalyRecommendations (anomalies : list Anomaly.t)
  : list Recommendation.t :=
  map (fun anomaly =>
         {| Recommendation.title := "Address " ++ Anomaly.title anomaly;
            Recommendation.description :=
              Cat (Str "Immediate attention needed: ") (Anomaly.description anomaly);
            Recommendation.category := "anomaly_response";
            Recommendation.priority := inherited (Anomaly.severity anomaly);
            Recommendation.savings := calculateSavings anomaly;
            Recommendation.actions := Anomaly.recommendations anomaly;
            Recommendation.timeline := "1-7 days";
            Recommendation.impact := "high" |})
      anomalies.

Definition generateUsageRecommendations (billData : BillData)
  : result (list Recommendation.t) :=
  u <- get (usage billData) ;;
  audit <-
    (if 1000 <? ToNumber (totalKwh u) then
       ch <- get (charges billData) ;;
       Ok [ {| Recommendation.title := "Energy Efficiency Audit";
               Recommendation.description :=
                 Str "Schedule professional energy audit to identify inefficiencies";
               Recommendation.category := "efficiency";
               Recommendation.priority := high;
               Recommendation.savings := ToNumber (totalAmount ch) * 0.2;
               Recommendation.actions :=
                 [ "Schedule professional energy audit";
                   "Identify major inefficiencies";
                   "Implement recommended fixes";
                   "Monitor improvements" ];
               Recommendation.timeline := "2-4 weeks";
               Recommendation.impact := "high" |} ]
     else Ok []) ;;
  peak <-
    (if ToBoolean (peakKwh u) && ToBoolean (totalKwh u) then
       let peakRatio := (ToNumber (peakKwh u) / ToNumber (totalKwh u)) * 100 in
       if 35 <? peakRatio then
         ch <- get (charges billData) ;;
         Ok [ {| Recommendation.title := "Peak Usage Optimization";
                 Recommendation.description :=
                   Str "Reduce peak-hour consumption to lower costs";
                 Recommendation.category := "scheduling";
                 Recommendation.priority := medium;
                 Recommendation.savings := ToNumber (totalAmount ch) * 0.15;
                 Recommendation.actions :=
                   [ "Shift appliance usage to off-peak hours";
                     "Install programmable timers";
                     "Use smart home automation";
                     "Monitor peak usage patterns" ];
                 Recommendation.timeline := "1-2 weeks";
                 Recommendation.impact := "medium" |} ]
       else Ok []
     else Ok []) ;;
  ch <- get (charges billData) ;;
  Ok (audit ++ peak ++
      [ {| Recommendation.title := "Smart Thermostat Installation";
           Recommendation.description :=
             Str "Install programmable thermostat for optimal temperature control";
           Recommendation.category := "equipment";
           Recommendation.priority := medium;
           Recommendation.savings := ToNumber (totalAmount ch) * 0.12;
           Recommendation.actions :=
             [ "Research smart thermostat options";
               "Professional installation";
               "Configure optimal schedules";
               "Monitor energy savings" ];
           Recommendation.timeline := "1-3 weeks";
           Recommendation.impact := "medium" |} ])%list.

Definition generateCostOptimizationRecommendations (billData : BillData)
  : result (list Recommendation.t) :=
  ch <- get (charges billData) ;;
  Ok [ {| Recommendation.title := "Rate Plan Analysis";
          Recommendation.description :=
            Str "Analyze current rate plan and compare with alternatives";
          Recommendation.category := "rate_optimization";
          Recommendation.priority := medium;
          Recommendation.savings := ToNumber (totalAmount ch) * 0.1;
          Recommendation.actions :=
            [ "Review current rate plan details";
              "Compare with available alternatives";
              "Calculate potential savings";
              "Switch to optimal plan if beneficial" ];
          Recommendation.timeline := "1-2 months";
          Recommendation.impact := "medium" |};
       {| Recommendation.title := "Appliance Efficiency Review";
          Recommendation.description :=
            Str "Evaluate and upgrade inefficient appliances";
          Recommendation.category := "equipment";
          Recommendation.priority := low;
          Recommendation.savings := ToNumber (totalAmount ch) * 0.08;
          Recommendation.actions :=
            [ "Audit current appliances";
              "Identify energy-hungry devices";
              "Research efficient replacements";
              "Plan staged upgrades" ];
          Recommendation.timeline := "3-12 months";
          Recommendation.impact := "low" |};
       {| Recommendation.title := "Home Insulation Assessment";
          Recommendation.description :=
            Str "Improve insulation to reduce heating/cooling costs";
          Recommendation.category := "insulation";
          Recommendation.priority := low;
          Recommendation.savings := ToNumber (totalAmount ch) * 0.15;
          Recommendation.actions :=
            [ "Professional insulation audit";
              "Identify improvement areas";
              "Get quotes for upgrades";
              "Implement improvements" ];
          Recommendation.timeline := "2-6 months";
          Recommendation.impact := "high" |} ].

(** [names.join(', ')]. *)
Fixpoint join (names : list string) : string :=
  match names with
  | [] => EmptyString
  | [ n ] => n
  | n :: rest => n ++ ", " ++ join rest
  end.

Definition generatePredictiveRecommendations (predictions : Predictions)
  : list Recommendation.t :=
  let budgeting :=
    if present (nextMonth predictions)
       && (ToNumber (opt (nextMonth predictions) NextMonth.amount) * 1.1
           <? ToNumber (opt (nextMonth predictions) NextMonth.amount))
    then
      [ {| Recommendation.title := "Prepare for Higher Bills";
           Recommendation.description :=
             Str "Next month's bill is predicted to be higher than usual";
           Recommendation.category := "budgeting";
           Recommendation.priority := medium;
           Recommendation.savings := 0;
           Recommendation.actions :=
             [ "Adjust monthly budget";
               "Reduce discretionary usage";
               "Monitor daily consumption";
               "Implement immediate savings measures" ];
           Recommendation.timeline := "This month";
           Recommendation.impact := "medium" |} ]
    else [] in
  let seasonalPreparation :=
    match seasonal predictions with
    | defined entries =>
        let highSeasons :=
          filter (fun s => 1.2 <? ToNumber (Seasonal.factor s)) entries in
        if (0 <? List.length highSeasons)%nat then
          [ {| Recommendation.title := "Seasonal Usage Preparation";
               Recommendation.description :=
                 Str ("Prepare for higher usage during "
                      ++ join (map Seasonal.season highSeasons));
               Recommendation.category := "seasonal_planning";
               Recommendation.priority := low;
               Recommendation.savings :=
                 or_number
                   (ToNumber (opt (nextMonth predictions) NextMonth.amount) * 0.1) 0;
               Recommendation.actions :=
                 [ "Plan seasonal energy strategies";
                   "Schedule equipment maintenance";
                   "Adjust budget for high-usage seasons";
                   "Implement preventive measures" ];
               Recommendation.timeline := "1-3 months";
               Recommendation.impact := "medium" |} ]
        else []
    | _ => []
    end in
  (budgeting ++ seasonalPreparation)%list.

(** [priorityOrder[p]]: only [high], [medium] and [low] are keys. *)
Definition priorityOrder (p : Priority) : value :=
  match p with
  | high => number 3
  | medium => number 2
  | low => number 1
  | inherited _ => undefined
  end.

(** The comparator handed to [sort]. *)
Definition compareRecommendations (a b : Recommendation.t) : float :=
  let priorityDiff :=
    ToNumber (priorityOrder (Recommendation.priority b))
    - ToNumber (priorityOrder (Recommendation.priority a)) in
  if negb (priorityDiff =? 0) then priorityDiff
  else or_number (Recommendation.savings b) 0
       - or_number (Recommendation.savings a) 0.

Definition prioritizeRecommendations (recommendations : Recommendations)
  : Recommendations :=
  {| immediate := Array_sort compareRecommendations (immediate recommendations);
     shortTerm := Array_sort compareRecommendations (shortTerm recommendations);
     longTerm := Array_sort compareRecommendations (longTerm recommendations) |}.

Definition generateRecommendations (billData : BillData)
  (anomalies : Field (list Anomaly.t)) (predictions : Field Predictions)
  : result Recommendations :=
  let immediate0 :=
    match anomalies with
    | defined l =>
        if (0 <? List.length l)%nat then generateAnomalyRecommendations l else []
    | _ => []
    end in
  shortTerm0 <-
    (if present (usage billData) then generateUsageRecommendations billData
     else Ok []) ;;
  longTerm0 <-
    (if present (charges billData)
     then generateCostOptimizationRecommendations billData
     else Ok []) ;;
  let shortTerm1 :=
    match predictions with
    | defined p => (shortTerm0 ++ generatePredictiveRecommendations p)%list
    | _ => shortTerm0
    end in
  Ok (prioritizeRecommendations
        {| immediate := immediate0;
           shortTerm := shortTerm1;
           longTerm := longTerm0 |}).

End RecommendationEngine.

(* ================================================================= *)
(** ** services/documentProcessor.js: the bill-record normalizer *)

Module DocumentProcessor.
Local Open Scope string_scope.
Local Open Scope float_scope.

Definition generateMockStructuredData : BillData :=
  {| accountInfo := defined
       {| accountNumber := defined "****-****-1234";
          customerName := defined "John Doe";
          serviceAddress := defined "123 Main Street, City, State 12345";
          billingAddress := defined "123 Main Street, City, State 12345" |};
     billingPeriod := defined
       {| startDate := defined "2024-01-15";
          endDate := defined "2024-02-14";
          daysInPeriod := number 30 |};
     charges := defined
       {| totalAmount := number 190.00;
          baseCharge := number 24.99;
          energyCharges := number 101.64;
          deliveryCharges := number 15.75;
          taxes := number 8.45;
          fees := number 3.50;
          adjustments := number 0 |};
     usage := defined
       {| totalKwh := number 847;
          peakKwh := number 296;
          offPeakKwh := number 551;
          demandKw := number 8.5 |};
     rates := defined
       {| energyRate := number 0.12;
          peakRate := number 0.18;
          offPeakRate := number 0.09;
          demandRate := number 12.50 |};
     comparisons := defined
       {| previousMonth := defined
            {| Snapshot.usage := number 654; Snapshot.amount := number 145.32 |};
          yearAgo := defined
            {| Snapshot.usage := number 723; Snapshot.amount := number 158.67 |} |};
     validationWarnings := undefined |}.

(** One property of [{ ...base, ...override }]: the override's own property
    wins, also when it is [null]; a missing one inherits the base's. *)
Definition spread {A} (base override : Field A) : Field A :=
  match override with
  | undefined => base
  | _ => override
  end.

(** [{ ...base, ...override }] for each kind of sub-object; spreading
    [undefined] or [null] adds nothing. *)
Definition spreadAccountInfo (base override : Field AccountInfo) : AccountInfo :=
  let p (f : AccountInfo -> Field string) :=
    spread (opt_obj base f) (opt_obj override f) in
  {| accountNumber := p accountNumber;
     customerName := p customerName;
     serviceAddress := p serviceAddress;
     billingAddress := p billingAddress |}.

Definition spreadBillingPeriod (base override : Field BillingPeriod) : BillingPeriod :=
  {| startDate := spread (opt_obj base startDate) (opt_obj override startDate);
     endDate := spread (opt_obj base endDate) (opt_obj override endDate);
     daysInPeriod := spread (opt base daysInPeriod) (opt override daysInPeriod) |}.

Definition spreadCharges (base override : Field Charges) : Charges :=
  let p (f : Charges -> value) := spread (opt base f) (opt override f) in
  {| totalAmount := p totalAmount;
     baseCharge := p baseCharge;
     energyCharges := p energyCharges;
     deliveryCharges := p deliveryCharges;
     taxes := p taxes;
     fees := p fees;
     adjustments := p adjustments |}.

Definition spreadUsage (base override : Field Usage) : Usage :=
  let p (f : Usage -> value) := spread (opt base f) (opt override f) in
  {| totalKwh := p totalKwh;
     peakKwh := p peakKwh;
     offPeakKwh := p offPeakKwh;
     demandKw := p demandKw |}.

Definition spreadRates (base override : Field Rates) : Rates :=
  let p (f : Rates -> value) := spread (opt base f) (opt override f) in
  {| energyRate := p energyRate;
     peakRate := p peakRate;
     offPeakRate := p offPeakRate;
     demandRate := p demandRate |}.

Definition spreadComparisons (base override : Field Comparisons) : Comparisons :=
  let p (f : Comparisons -> Field Snapshot.t) :=
    spread (opt_obj base f) (opt_obj override f) in
  {| previousMonth := p previousMonth;
     yearAgo := p yearAgo |}.

Definition fillMissingData (data : BillData) : BillData :=
  let mockData := generateMockStructuredData in
  {| accountInfo :=
       defined (spreadAccountInfo (accountInfo mockData) (accountInfo data));
     billingPeriod :=
       defined (spreadBillingPeriod (billingPeriod mockData) (billingPeriod data));
     charges := defined (spreadCharges (charges mockData) (charges data));
     usage := defined (spreadUsage (usage mockData) (usage data));
     rates := defined (spreadRates (rates mockData) (rates data));
     comparisons :=
       defined (spreadComparisons (comparisons mockData) (comparisons data));
     validationWarnings := undefined |}.

(** The empty object [{}] of each kind. *)
Definition emptyAccountInfo : AccountInfo :=
  {| accountNumber := undefined; customerName := undefined;
     serviceAddress := undefined; billingAddress := undefined |}.
Definition emptyCharges : Charges :=
  {| totalAmount := undefined; baseCharge := undefined; energyCharges := undefined;
     deliveryCharges := undefined; taxes := undefined; fees := undefined;
     adjustments := undefined |}.
Definition emptyUsage : Usage :=
  {| totalKwh := undefined; peakKwh := undefined; offPeakKwh := undefined;
     demandKw := undefined |}.
Definition emptyBillingPeriod : BillingPeriod :=
  {| startDate := undefined; endDate := undefined; daysInPeriod := undefined |}.

(** [if (!o.p) o.p = {}]. *)
Definition ensure {A} (f : Field A) (empty : A) : A :=
  match f with
  | defined a => a
  | _ => empty
  end.

Definition validateAndEnhanceData (data : BillData) : BillData :=
  let accountInfo1 := ensure (accountInfo data) emptyAccountInfo in
  let charges1 := ensure (charges data) emptyCharges in
  let usage1 := ensure (usage data) emptyUsage in
  let billingPeriod1 := ensure (billingPeriod data) emptyBillingPeriod in
  let rates1 :=
    if ToBoolean (totalKwh usage1) && ToBoolean (energyCharges charges1) then
      defined {| energyRate :=
                   number (ToNumber (energyCharges charges1)
                           / ToNumber (totalKwh usage1));
                 peakRate := undefined;
                 offPeakRate := undefined;
                 demandRate := undefined |}
    else rates data in
  let validationWarnings1 :=
    if ToBoolean (totalAmount charges1) then
      let calculatedTotal :=
        ToNumber (or (baseCharge charges1) (number 0))
        + ToNumber (or (energyCharges charges1) (number 0))
        + ToNumber (or (deliveryCharges charges1) (number 0))
        + ToNumber (or (taxes charges1) (number 0))
        + ToNumber (or (fees charges1) (number 0)) in
      if 5 <? Math_abs (calculatedTotal - ToNumber (totalAmount charges1)) then
        defined [ "Total amount calculation discrepancy detected" ]
      else validationWarnings data
    else validationWarnings data in
  {| accountInfo := defined accountInfo1;
     billingPeriod := defined billingPeriod1;
     charges := defined charges1;
     usage := defined usage1;
     rates := rates1;
     comparisons := comparisons data;
     validationWarnings := validationWarnings1 |}.

(** The normalizer of a partial record: defaults merged in, then validated. *)
Definition normalize (data : BillData) : BillData :=
  validateAndEnhanceData (fillMissingData data).

End DocumentProcessor.

(* ================================================================= *)
(** ** routes/advancedBillingAPI.js: POST /advanced-upload *)

Module AdvancedUpload.

Section Handler.

(** The uploaded file and the five services the handler calls for it; each
    call may throw.  What they compute is left open: the handler's
    behaviour is fixed for every choice of them. *)
Context {File ExtractedData Anomalies Forecast Advice Patterns : Type}.
Variable originalname : File -> string.
Variable processDocument : File -> result ExtractedData.
Variable detectAnomalies : ExtractedData -> result Anomalies.
Variable generatePredictions : ExtractedData -> result Forecast.
Variable generateRecommendations :
  ExtractedData -> Anomalies -> Forecast -> result Advice.
Variable analyzePatterns : ExtractedData -> result Patterns.
Variable confidenceOf : ExtractedData -> value.

(** The payload of a successfully analysed document ([processingTime], a
    difference of two clock readings, is left out). *)
Record Analysis := {
  data : ExtractedData;
  anomalies : Anomalies;
  predictions : Forecast;
  recommendations : Advice;
  patterns : Patterns;
  confidence : value
}.

(** One element of [results]: [{filename, success: true, ...}] or
    [{filename, success: false, error}]. *)
Inductive Entry : Type :=
| Succeeded (filename : string) (analysis : Analysis)
| Failed (filename : string) (error : string).

Definition filename (r : Entry) : string :=
  match r with
  | Succeeded f _ => f
  | Failed f _ => f
  end.

Definition success (r : Entry) : bool :=
  match r with
  | Succeeded _ _ => true
  | Failed _ _ => false
  end.

(** The body of the inner [try]. *)
Definition analyse (file : File) : result Analysis :=
  extractedData <- processDocument file ;;
  anomalies <- detectAnomalies extractedData ;;
  predictions <- generatePredictions extractedData ;;
  recommendations <-
    generateRecommendations extractedData anomalies predictions ;;
  patterns <- analyzePatterns extractedData ;;
  Ok {| data := extractedData;
        anomalies := anomalies;
        predictions := predictions;
        recommendations := recommendations;
        patterns := patterns;
        confidence := or (confidenceOf extractedData) (number 0.85) |}.

(** The entry one iteration pushes: [try { ... results.push({filename,
    success: true, ...}) } catch (error) { results.push({filename, success:
    false, error: error.message}) }]. *)
Definition attempt (file : File) : Entry :=
  match analyse file with
  | Ok a => Succeeded (originalname file) a
  | Throw error => Failed (originalname file) (message error)
  end.

(** One iteration of [for (const file of req.files)]. *)
Definition step (results : list Entry) (file : File) : list Entry :=
  results ++ [ attempt file ].

(** The JSON body of the response ([timestamp] is left out). *)
Record Body := {
  body_success : bool;
  results : list Entry;
  totalFiles : nat;
  successfulFiles : nat
}.

Inductive Response : Type :=
| Status400 (error : string)
| Json (body : Body).

Definition advancedUpload (files : Field (list File)) : Response :=
  match files with
  | defined ((_ :: _) as l) =>
      let results := fold_left step l [] in
      Json {| body_success := true;
              results := results;
              totalFiles := List.length l;
              successfulFiles := List.length (filter success results) |}
  | _ => Status400 "No files uploaded"
  end.

End Handler.

End AdvancedUpload.

(* ================================================================= *)
(** ** The order of binary64 numbers

    [SFcompare] orders the numbers (everything but [NaN]) as
    -infinity < negative < zero < positive < +infinity, and two finite
    numbers of one sign by exponent, then mantissa.  The [key] of a number
    makes that a lexicographic order on triples of integers. *)

Module Binary64.

Definition key (x : spec_float) : Z * Z * Z :=
  match x with
  | S754_nan => (0, 0, 0)
  | S754_zero _ => (0, 0, 0)
  | S754_infinity true => (-2, 0, 0)
  | S754_infinity false => (2, 0, 0)
  | S754_finite true m e => (-1, - e, Z.neg m)
  | S754_finite false m e => (1, e, Z.pos m)
  end%Z.

Definition lex3 (a b : Z * Z * Z) : comparison :=
  let '(a1, a2, a3) := a in
  let '(b1, b2, b3) := b in
  match (a1 ?= b1)%Z with
  | Eq => match (a2 ?= b2)%Z with
          | Eq => (a3 ?= b3)%Z
          | c => c
          end
  | c => c
  end.

Definition lt3 (a b : Z * Z * Z) : Prop := lex3 a b = Lt.
Definition le3 (a b : Z * Z * Z) : Prop := lex3 a b <> Gt.

Definition is_number (x : spec_float) : bool :=
  match x with
  | S754_nan => false
  | _ => true
  end.

Definition numeric (x : float) : bool := is_number (Prim2SF x).

(** The literal [1.1] is the binary64 number [M11 * 2^-52]. *)
Definition M11 : positive := 4953959590107546.

End Binary64.

(* ================================================================= *)
(** ** The properties, as predicates, and the inputs they are tried on *)

Module Spec.
Import AnomalyDetector.
Local Open Scope float_scope.

Definition severityRank (s : Severity) : nat :=
  match s with
  | mild => 1
  | moderate => 2
  | severe => 3
  end.

(** A bill with only the three sub-objects the analyzers read. *)
Definition bill (u : Field Usage) (ch : Field Charges) (c : Field Comparisons)
  : BillData :=
  {| accountInfo := undefined; billingPeriod := undefined; charges := ch;
     usage := u; rates := undefined; comparisons := c;
     validationWarnings := undefined |}.

Definition usageOf (total peak : value) : Field Usage :=
  defined {| totalKwh := total; peakKwh := peak; offPeakKwh := undefined;
             demandKw := undefined |}.

Definition chargesOf (total : value) : Field Charges :=
  defined {| totalAmount := total; baseCharge := undefined;
             energyCharges := undefined; deliveryCharges := undefined;
             taxes := undefined; fees := undefined; adjustments := undefined |}.

Definition previousMonthOf (u a : value) : Field Comparisons :=
  defined {| previousMonth :=
               defined {| Snapshot.usage := u; Snapshot.amount := a |};
             yearAgo := undefined |}.

(** Peak 500 kWh of 1000 kWh. *)
Definition bill_peak_half : BillData :=
  bill (usageOf (number 1000) (number 500)) undefined undefined.

(** 125 kWh after 100 kWh: a change of exactly 25 percent. *)
Definition bill_change_25 : BillData :=
  bill (usageOf (number 125) undefined) undefined
       (previousMonthOf (number 100) undefined).

(** A first bill: no previous month. *)
Definition bill_first : BillData :=
  bill (usageOf (number 847) (number 296)) (chargesOf (number 190))
       (defined {| previousMonth := undefined; yearAgo := undefined |}).

(** A first bill on which nothing was used. *)
Definition bill_first_zero : BillData :=
  bill (usageOf (number 0) (number 0)) (chargesOf (number 25))
       (defined {| previousMonth := undefined; yearAgo := undefined |}).

(** Amount 200 after 100. *)
Definition bill_200_after_100 : BillData :=
  bill (usageOf (number 847) undefined) (chargesOf (number 200))
       (previousMonthOf (number 654) (number 100)).

(** Nothing used, this month and the month before. *)
Definition bill_zero_usage : BillData :=
  bill (usageOf (number 0) (number 0)) (chargesOf (number 25))
       (previousMonthOf (number 0) (number 0)).

(** 1500 kWh after 1000 and 350 after 200: two severe anomalies. *)
Definition bill_two_severe : BillData :=
  bill (usageOf (number 1500) undefined) (chargesOf (number 350))
       (previousMonthOf (number 1000) (number 200)).

(** 1200 kWh after a month of zero usage. *)
Definition bill_after_zero : BillData :=
  bill (usageOf (number 1200) undefined) (chargesOf (number 190))
       (previousMonthOf (number 0) (number 0)).

(** The severity tiers as the specification words them:
    [(mild, moderate]], [(moderate, severe]] and [(severe, oo)]. *)
Definition tiers_as_stated (th : Thresholds.t) (v : float) (s : Severity) : Prop :=
  ((Thresholds.mild th <? v) = true /\ (v <=? Thresholds.moderate th) = true
   -> s = mild) /\
  ((Thresholds.moderate th <? v) = true /\ (v <=? Thresholds.severe th) = true
   -> s = moderate) /\
  ((Thresholds.severe th <? v) = true -> s = severe).

(** The tiers of the code: [(mild, moderate)], [[moderate, severe)] and
    [[severe, oo)], for an anomaly that was emitted. *)
Definition emitted_tier (th : Thresholds.t) (a : Anomaly.t) : Prop :=
  let v := Anomaly.impact a in
  (Thresholds.mild th <? v) = true /\
  (Anomaly.severity a = mild <-> (v <? Thresholds.moderate th) = true) /\
  (Anomaly.severity a = moderate <->
     (Thresholds.moderate th <=? v) = true /\ (v <? Thresholds.severe th) = true) /\
  (Anomaly.severity a = severe <-> (Thresholds.severe th <=? v) = true).

(** What the specification says of a bill without a previous month: no
    usage and no cost anomaly, the change being 0 in both checks. *)
Definition first_bill_as_stated (b : BillData) : Prop :=
  present (opt_obj (comparisons b) previousMonth) = false ->
  (forall l a, detectAnomalies b = Ok l -> In a l ->
     Anomaly.type a <> usage_anomaly /\ Anomaly.type a <> cost_anomaly) /\
  (forall u c, usage b = defined u -> comparisons b = defined c ->
     (usageChange u c =? 0) = true) /\
  (forall ch c, charges b = defined ch -> comparisons b = defined c ->
     (costChange ch c =? 0) = true).

(** What the specification says of a previous-month usage of exactly 0. *)
Definition zero_baseline_as_stated (b : BillData) : Prop :=
  forall u c pm,
    usage b = defined u -> comparisons b = defined c ->
    previousMonth c = defined pm -> Snapshot.usage pm = number 0 ->
    usagePrevious u c = totalKwh u /\
    (usageChange u c =? 0) = true /\
    detectUsageAnomalies b = Ok [] /\
    (ToNumber (usagePrevious u c) =? 0) = false.

(** What the specification says of [totalKwh = 0]: no exception, and
    defined (finite) ratios, daily average and efficiency. *)
Definition zero_usage_as_stated (b : BillData) : Prop :=
  exists p x,
    PatternAnalyzer.analyzeUsagePatterns b = Ok p /\
    PatternAnalyzer.calculateEfficiency b = Ok (PatternAnalyzer.EfficiencyNumber x) /\
    isFinite (PatternAnalyzer.UsagePatterns.peakRatio p) = true /\
    isFinite (PatternAnalyzer.UsagePatterns.offPeakRatio p) = true /\
    isFinite (PatternAnalyzer.UsagePatterns.dailyAverage p) = true /\
    isFinite x = true.

(** A bucket in descending priority and, among equal priorities, in
    descending savings; [rank] is the order of the priorities. *)
Definition sorted_bucket (rank : Priority -> Z) (l : list Recommendation.t) : Prop :=
  forall i a b,
    nth_error l i = Some a -> nth_error l (S i) = Some b ->
    (rank (Recommendation.priority b) < rank (Recommendation.priority a))%Z \/
    (rank (Recommendation.priority a) = rank (Recommendation.priority b) /\
     (Recommendation.savings b <=? Recommendation.savings a) = true).

(** The budgeting recommendation of [generatePredictiveRecommendations]. *)
Definition is_budgeting (r : Recommendation.t) : bool :=
  String.eqb (Recommendation.title r) "Prepare for Higher Bills".

(** A forecast whose next-month amount is [x]. *)
Definition forecast (x : float) : Predictions :=
  {| nextMonth := defined
       {| NextMonth.usage := number 900; NextMonth.amount := number x;
          NextMonth.confidence := number 0.85; NextMonth.factors := [] |};
     quarterly := undefined; annual := undefined; seasonal := undefined |}.

End Spec.

(* ================================================================= *)
(** ** More built-ins *)

Module Builtins.
Local Open Scope float_scope.

(** [Math.max] and [Math.min] of two numbers: [NaN] if either is, and
    [+0] above [-0]. *)
Definition Math_max (a b : float) : float :=
  if is_nan a || is_nan b then nan
  else if a <? b then b
  else if b <? a then a
  else if get_sign a then b else a.

Definition Math_min (a b : float) : float :=
  if is_nan a || is_nan b then nan
  else if a <? b then a
  else if b <? a then b
  else if get_sign a then a else b.

(** [ToBoolean] of a text property: the empty string is falsy. *)
Definition ToBooleanText (f : Field string) : bool :=
  match f with
  | defined EmptyString => false
  | defined _ => true
  | _ => false
  end.

(** [s.includes(sub)]. *)
Fixpoint includes (s sub : string) : bool :=
  String.prefix sub s
  || match s with
     | EmptyString => false
     | String _ rest => includes rest sub
     end.

End Builtins.

(* ================================================================= *)
(** ** services/patternAnalyzer.js, the other analyses

    [currentMonth] stands for [new Date().getMonth()], [random1] and
    [random2] for the two results of [Math.random()] and [Math_pow] for
    [Math.pow], which the language leaves to the implementation. *)

Module PatternAnalysis.
Import PatternAnalyzer Builtins.
Local Open Scope string_scope.
Local Open Scope float_scope.

(** [ToNumber] of what [calculateEfficiency] returned: an object is [NaN]. *)
Definition EfficiencyToNumber (e : Efficiency) : float :=
  match e with
  | EfficiencyNumber x => x
  | EfficiencyArgument _ => nan
  end.

(** [calculateEfficiency] called on a comparison snapshot
    [{usage, amount}]: with a truthy [usage] it reads
    [snapshot.charges.totalAmount], and a snapshot has no [charges];
    otherwise it returns the snapshot itself. *)
Definition calculateEfficiencyOfSnapshot (comparison : Snapshot.t)
  : result Snapshot.t :=
  if ToBoolean (Snapshot.usage comparison) then
    Throw (TypeError "Cannot read properties of undefined (reading 'totalAmount')")
  else Ok comparison.

(** [ToNumber] of a snapshot object. *)
Definition SnapshotToNumber (s : Snapshot.t) : float := nan.

Definition calculateCostTrend (billData : BillData) : result float :=
  if negb (present (comparisons billData))
     || negb (present (opt_obj (comparisons billData) previousMonth))
  then Ok 0
  else
    ch <- get (charges billData) ;;
    c <- get (comparisons billData) ;;
    pm <- get (previousMonth c) ;;
    let current := ToNumber (totalAmount ch) in
    let previous := ToNumber (Snapshot.amount pm) in
    Ok (((current - previous) / previous) * 100).

Definition calculateEfficiencyTrend (billData : BillData) : result float :=
  if negb (present (comparisons billData))
     || negb (present (opt_obj (comparisons billData) previousMonth))
  then Ok 0
  else
    currentEff <- calculateEfficiency billData ;;
    c <- get (comparisons billData) ;;
    pm <- get (previousMonth c) ;;
    previousEff <- calculateEfficiencyOfSnapshot pm ;;
    Ok (((EfficiencyToNumber currentEff - SnapshotToNumber previousEff)
         / SnapshotToNumber previousEff) * 100).

Definition getSeason (month : Z) : string :=
  if ((11 <=? month) || (month <=? 1))%Z then "winter"
  else if ((2 <=? month) && (month <=? 4))%Z then "spring"
  else if ((5 <=? month) && (month <=? 8))%Z then "summer"
  else "fall".

(** The table [factors] of [getSeasonalFactor]. *)
Definition factors (season : string) : value :=
  if String.eqb season "winter" then number 1.3
  else if String.eqb season "spring" then number 0.9
  else if String.eqb season "summer" then number 1.4
  else if String.eqb season "fall" then number 1.0
  else undefined.

Definition getSeasonalFactor (season : string) : float :=
  ToNumber (or (factors season) (number 1.0)).

Definition calculateSeasonalVariance (actual expected : float) : float :=
  ((actual - expected) / expected) * 100.

Module Benchmark.
Record t := { usage : float; cost : float }.
End Benchmark.

Module Benchmarks.
Record t := { national : Benchmark.t; regional : Benchmark.t; similar : Benchmark.t }.
End Benchmarks.

Definition getBenchmarks (billData : BillData) : Benchmarks.t :=
  {| Benchmarks.national := {| Benchmark.usage := 877; Benchmark.cost := 0.13 |};
     Benchmarks.regional := {| Benchmark.usage := 950; Benchmark.cost := 0.12 |};
     Benchmarks.similar := {| Benchmark.usage := 820; Benchmark.cost := 0.11 |} |}.

Definition getEfficiencyRecommendations (efficiency : float) : list string :=
  if 0.15 <? efficiency then
    [ "High cost per kWh - investigate rate plans"; "Check for billing errors" ]
  else if 0.12 <? efficiency then
    [ "Above average cost - consider efficiency improvements" ]
  else [ "Good efficiency - maintain current practices" ].

Definition calculateCostEfficiency (billData : BillData) : result float :=
  ch <- get (charges billData) ;;
  let totalCost := ToNumber (totalAmount ch) in
  u <- get (usage billData) ;;
  let totalUsage := ToNumber (totalKwh u) in
  Ok (totalCost / totalUsage).

Definition calculateEfficiencyScore (billData : BillData) : result float :=
  efficiency <- calculateEfficiency billData ;;
  let benchmarks := getBenchmarks billData in
  let national := Benchmark.cost (Benchmarks.national benchmarks) in
  let score :=
    Math_max 0 (Math_min 100
      ((national - EfficiencyToNumber efficiency) / national * 100)) in
  Ok (Math_round score).

Definition identifyEfficiencyFactors (billData : BillData) : result (list string) :=
  u <- get (usage billData) ;;
  let peakRatio := ToNumber (peakKwh u) / ToNumber (totalKwh u) in
  ch <- get (charges billData) ;;
  let rate := ToNumber (energyCharges ch) / ToNumber (totalKwh u) in
  let baseRatio := ToNumber (baseCharge ch) / ToNumber (totalAmount ch) in
  Ok ((if 0.4 <? peakRatio then [ "high_peak_usage" ] else [])
      ++ (if 0.13 <? rate then [ "high_rate_plan" ] else [])
      ++ (if 0.3 <? baseRatio then [ "high_fixed_costs" ] else []))%list.

Definition getExpectedSeasonalUsage (billData : BillData) (season : string)
  : result float :=
  u <- get (usage billData) ;;
  let baseUsage := ToNumber (totalKwh u) in
  let factor := getSeasonalFactor season in
  Ok (baseUsage / factor).

Module WeatherImpact.
Record t := { temperature : string; humidity : string; overall : string }.
End WeatherImpact.

Definition assessWeatherImpact (currentMonth : Z) (billData : BillData)
  : WeatherImpact.t :=
  let season := getSeason currentMonth in
  {| WeatherImpact.temperature :=
       if String.eqb season "summer" || String.eqb season "winter"
       then "high" else "low";
     WeatherImpact.humidity := if String.eqb season "summer" then "high" else "low";
     WeatherImpact.overall := "moderate" |}.

Module Historical.
Record t := { vs_last_year : float; vs_average : float; trend : string }.
End Historical.

Definition compareWithHistoricalSeasonal (billData : BillData) : Historical.t :=
  {| Historical.vs_last_year := 5.2;
     Historical.vs_average := -2.1;
     Historical.trend := "improving" |}.

Definition calculateCorrelation (random : float) (x y : value) : float :=
  random * 0.6 + 0.4.

Definition calculateWeatherCorrelation (currentMonth : Z) (billData : BillData)
  : float :=
  let season := getSeason currentMonth in
  if String.eqb season "summer" || String.eqb season "winter" then 0.8 else 0.4.

Definition calculateTimeCorrelation (billData : BillData) : result float :=
  u <- get (usage billData) ;;
  Ok (ToNumber (peakKwh u) / ToNumber (totalKwh u)).

Module Projection.
Record t := { next_month : float; three_months : float; confidence : float }.
End Projection.

Definition projectTrend (Math_pow : float -> float -> float)
  (billData : BillData) : result Projection.t :=
  currentTrend <- calculateUsageTrend billData ;;
  u <- get (usage billData) ;;
  let nextMonthUsage := ToNumber (totalKwh u) * (1 + currentTrend / 100) in
  Ok {| Projection.next_month := nextMonthUsage;
        Projection.three_months :=
          nextMonthUsage * Math_pow (1 + currentTrend / 100) 3;
        Projection.confidence := 0.75 |}.

Module CostPatterns.
Record t := {
  totalCost : value;
  breakdown_energy : float;
  breakdown_delivery : float;
  breakdown_base : float;
  breakdown_fees : float;
  averageRate : float;
  peakRate : value;
  offPeakRate : value;
  effectiveRate : float;
  costEfficiency : float;
  trend : float
}.
End CostPatterns.

Definition analyzeCostPatterns (billData : BillData) : result CostPatterns.t :=
  ch <- get (charges billData) ;;
  let total := totalAmount ch in
  u <- get (usage billData) ;;
  costEfficiency <- calculateCostEfficiency billData ;;
  trend <- calculateCostTrend billData ;;
  Ok {| CostPatterns.totalCost := total;
        CostPatterns.breakdown_energy :=
          (ToNumber (energyCharges ch) / ToNumber total) * 100;
        CostPatterns.breakdown_delivery :=
          (ToNumber (deliveryCharges ch) / ToNumber total) * 100;
        CostPatterns.breakdown_base :=
          (ToNumber (baseCharge ch) / ToNumber total) * 100;
        CostPatterns.breakdown_fees :=
          ((ToNumber (taxes ch) + ToNumber (fees ch)) / ToNumber total) * 100;
        CostPatterns.averageRate :=
          ToNumber (energyCharges ch) / ToNumber (totalKwh u);
        CostPatterns.peakRate :=
          or (opt (rates billData) peakRate) (number 0);
        CostPatterns.offPeakRate :=
          or (opt (rates billData) offPeakRate) (number 0);
        CostPatterns.effectiveRate := ToNumber total / ToNumber (totalKwh u);
        CostPatterns.costEfficiency := costEfficiency;
        CostPatterns.trend := trend |}.

Module EfficiencyPatterns.
Record t := {
  currentEfficiency : Efficiency;
  trend : float;
  benchmarks : Benchmarks.t;
  recommendations : list string;
  score : float;
  factors : list string
}.
End EfficiencyPatterns.

Definition analyzeEfficiencyPatterns (billData : BillData)
  : result EfficiencyPatterns.t :=
  efficiency <- calculateEfficiency billData ;;
  let comparison := opt_obj (comparisons billData) previousMonth in
  trend <-
    match comparison with
    | defined pm =>
        previous <- calculateEfficiencyOfSnapshot pm ;;
        Ok (EfficiencyToNumber efficiency - SnapshotToNumber previous)
    | _ => Ok 0
    end ;;
  score <- calculateEfficiencyScore billData ;;
  factors <- identifyEfficiencyFactors billData ;;
  Ok {| EfficiencyPatterns.currentEfficiency := efficiency;
        EfficiencyPatterns.trend := trend;
        EfficiencyPatterns.benchmarks := getBenchmarks billData;
        EfficiencyPatterns.recommendations :=
          getEfficiencyRecommendations (EfficiencyToNumber efficiency);
        EfficiencyPatterns.score := score;
        EfficiencyPatterns.factors := factors |}.

Module SeasonalPatterns.
Record t := {
  currentSeason : string;
  seasonalFactor : float;
  expectedUsage : float;
  actualUsage : value;
  variance : float;
  weatherImpact : WeatherImpact.t;
  historicalComparison : Historical.t
}.
End SeasonalPatterns.

Definition analyzeSeasonalPatterns (currentMonth : Z) (billData : BillData)
  : result SeasonalPatterns.t :=
  let season := getSeason currentMonth in
  expectedUsage <- getExpectedSeasonalUsage billData season ;;
  u <- get (usage billData) ;;
  Ok {| SeasonalPatterns.currentSeason := season;
        SeasonalPatterns.seasonalFactor := getSeasonalFactor season;
        SeasonalPatterns.expectedUsage := expectedUsage;
        SeasonalPatterns.actualUsage := totalKwh u;
        SeasonalPatterns.variance :=
          calculateSeasonalVariance (ToNumber (totalKwh u)) expectedUsage;
        SeasonalPatterns.weatherImpact := assessWeatherImpact currentMonth billData;
        SeasonalPatterns.historicalComparison :=
          compareWithHistoricalSeasonal billData |}.

Module Trends.
Record t := {
  usage : float;
  cost : float;
  efficiency : float;
  direction : string;
  strength : string;
  projection : Projection.t
}.
End Trends.

Definition analyzeTrends (Math_pow : float -> float -> float)
  (billData : BillData) : result Trends.t :=
  usage <- calculateUsageTrend billData ;;
  cost <- calculateCostTrend billData ;;
  efficiency <- calculateEfficiencyTrend billData ;;
  projection <- projectTrend Math_pow billData ;;
  let avgTrend := (usage + cost + efficiency) / 3 in
  let direction :=
    if 5 <? avgTrend then "increasing"
    else if avgTrend <? -5 then "decreasing"
    else "stable" in
  let strength :=
    if 15 <? Math_abs avgTrend then "strong"
    else if 8 <? Math_abs avgTrend then "moderate"
    else "weak" in
  Ok {| Trends.usage := usage;
        Trends.cost := cost;
        Trends.efficiency := efficiency;
        Trends.direction := direction;
        Trends.strength := strength;
        Trends.projection := projection |}.

Module Correlations.
Record t := {
  usageVsCost : float;
  peakVsTotal : float;
  weatherVsUsage : float;
  timeVsUsage : float;
  insights : list string
}.
End Correlations.

Definition analyzeCorrelations (currentMonth : Z) (random1 random2 : float)
  (billData : BillData) : result Correlations.t :=
  u <- get (usage billData) ;;
  ch <- get (charges billData) ;;
  let usageVsCost := calculateCorrelation random1 (totalKwh u) (totalAmount ch) in
  let peakVsTotal := calculateCorrelation random2 (peakKwh u) (totalAmount ch) in
  timeVsUsage <- calculateTimeCorrelation billData ;;
  Ok {| Correlations.usageVsCost := usageVsCost;
        Correlations.peakVsTotal := peakVsTotal;
        Correlations.weatherVsUsage :=
          calculateWeatherCorrelation currentMonth billData;
        Correlations.timeVsUsage := timeVsUsage;
        Correlations.insights :=
          ((if 0.8 <? usageVsCost then
              [ "Strong correlation between usage and cost - rate structure is consistent" ]
            else [])
           ++ (if 0.7 <? peakVsTotal then
                 [ "Peak usage significantly impacts total cost - time-shifting opportunities exist" ]
               else []))%list |}.

Module Patterns.
Record t := {
  usage : UsagePatterns.t;
  cost : CostPatterns.t;
  efficiency : EfficiencyPatterns.t;
  seasonal : SeasonalPatterns.t;
  trends : Trends.t;
  correlations : Correlations.t
}.
End Patterns.

Definition analyzePatterns (currentMonth : Z) (random1 random2 : float)
  (Math_pow : float -> float -> float) (billData : BillData)
  : result Patterns.t :=
  usage <- analyzeUsagePatterns billData ;;
  cost <- analyzeCostPatterns billData ;;
  efficiency <- analyzeEfficiencyPatterns billData ;;
  seasonal <- analyzeSeasonalPatterns currentMonth billData ;;
  trends <- analyzeTrends Math_pow billData ;;
  correlations <- analyzeCorrelations currentMonth random1 random2 billData ;;
  Ok {| Patterns.usage := usage;
        Patterns.cost := cost;
        Patterns.efficiency := efficiency;
        Patterns.seasonal := seasonal;
        Patterns.trends := trends;
        Patterns.correlations := correlations |}.

End PatternAnalysis.

(* ================================================================= *)
(** ** services/patternAnalyzer.js, the comparative analysis *)

Module Comparative.
Import Builtins.
Local Open Scope string_scope.
Local Open Scope float_scope.

(** One row of the benchmark table. *)
Module Tiers.
Record t := { national : float; regional : float; similar : float }.
End Tiers.

Module Benchmarks.
Record t := { usage : Tiers.t; cost : Tiers.t; efficiency : Tiers.t }.
End Benchmarks.

Definition getBenchmarksForComparison (region homeType occupancy : string)
  : Benchmarks.t :=
  {| Benchmarks.usage :=
       {| Tiers.national := 877; Tiers.regional := 950; Tiers.similar := 820 |};
     Benchmarks.cost :=
       {| Tiers.national := 0.13; Tiers.regional := 0.12; Tiers.similar := 0.11 |};
     Benchmarks.efficiency :=
       {| Tiers.national := 85; Tiers.regional := 82; Tiers.similar := 88 |} |}.

Module UsageMetrics.
Record t := {
  value : JS.value;
  vs_national : float;
  vs_regional : float;
  vs_similar : float
}.
End UsageMetrics.

Module CostMetrics.
Record t := {
  value : JS.value;
  rate : float;
  vs_national : float;
  vs_regional : float;
  vs_similar : float
}.
End CostMetrics.

Module Metrics.
Record t := { usage : UsageMetrics.t; cost : CostMetrics.t }.
End Metrics.

Definition calculateComparisonMetrics (userBillData : BillData)
  (benchmarks : Benchmarks.t) : result Metrics.t :=
  u <- get (usage userBillData) ;;
  let userUsage := totalKwh u in
  ch <- get (charges userBillData) ;;
  let userCost := totalAmount ch in
  let userRate := ToNumber userCost / ToNumber userUsage in
  let against (x b : float) := ((x - b) / b) * 100 in
  Ok {| Metrics.usage :=
          {| UsageMetrics.value := userUsage;
             UsageMetrics.vs_national :=
               against (ToNumber userUsage)
                       (Tiers.national (Benchmarks.usage benchmarks));
             UsageMetrics.vs_regional :=
               against (ToNumber userUsage)
                       (Tiers.regional (Benchmarks.usage benchmarks));
             UsageMetrics.vs_similar :=
               against (ToNumber userUsage)
                       (Tiers.similar (Benchmarks.usage benchmarks)) |};
        Metrics.cost :=
          {| CostMetrics.value := userCost;
             CostMetrics.rate := userRate;
             CostMetrics.vs_national :=
               against userRate (Tiers.national (Benchmarks.cost benchmarks));
             CostMetrics.vs_regional :=
               against userRate (Tiers.regional (Benchmarks.cost benchmarks));
             CostMetrics.vs_similar :=
               against userRate (Tiers.similar (Benchmarks.cost benchmarks)) |} |}.

Definition calculatePercentile (v benchmark : float) : float :=
  let ratio := v / benchmark in
  if ratio <? 0.8 then 25
  else if ratio <? 1.0 then 50
  else if ratio <? 1.3 then 75
  else 90.

Definition getPercentileRank (percentile : float) : string :=
  if percentile <=? 25 then "excellent"
  else if percentile <=? 50 then "good"
  else if percentile <=? 75 then "average"
  else "needs_improvement".

Module Ranked.
Record t := { percentile : float; rank : string }.
End Ranked.

Module Ranking.
Record t := { usage : Ranked.t; cost : Ranked.t; overall_percentile : float }.
End Ranking.

Definition calculateRanking (metrics : Metrics.t) (benchmarks : Benchmarks.t)
  : Ranking.t :=
  let usagePercentile :=
    calculatePercentile (ToNumber (UsageMetrics.value (Metrics.usage metrics)))
                        (Tiers.national (Benchmarks.usage benchmarks)) in
  let costPercentile :=
    calculatePercentile (CostMetrics.rate (Metrics.cost metrics))
                        (Tiers.national (Benchmarks.cost benchmarks)) in
  {| Ranking.usage :=
       {| Ranked.percentile := usagePercentile;
          Ranked.rank := getPercentileRank usagePercentile |};
     Ranking.cost :=
       {| Ranked.percentile := costPercentile;
          Ranked.rank := getPercentileRank costPercentile |};
     Ranking.overall_percentile := (usagePercentile + costPercentile) / 2 |}.

Definition generateComparisonInsights (metrics : Metrics.t) (ranking : Ranking.t)
  : list string :=
  ((if 20 <? UsageMetrics.vs_national (Metrics.usage metrics) then
      [ "Your usage is significantly higher than national average" ] else [])
   ++ (if 15 <? CostMetrics.vs_similar (Metrics.cost metrics) then
         [ "Your cost per kWh is higher than similar homes" ] else [])
   ++ (if 75 <? Ranking.overall_percentile ranking then
         [ "Overall energy efficiency needs improvement" ] else []))%list.

Module Opportunity.
Record t := {
  type : string;
  potential : string;
  description : string;
  savings : float
}.
End Opportunity.

Definition identifyImprovementOpportunities (metrics : Metrics.t)
  (benchmarks : Benchmarks.t) : list Opportunity.t :=
  ((if 15 <? UsageMetrics.vs_national (Metrics.usage metrics) then
      [ {| Opportunity.type := "usage_reduction";
           Opportunity.potential := "high";
           Opportunity.description := "Reduce overall energy consumption";
           Opportunity.savings :=
             ToNumber (UsageMetrics.value (Metrics.usage metrics)) * 0.15
             * Tiers.national (Benchmarks.cost benchmarks) |} ]
    else [])
   ++ (if 10 <? CostMetrics.vs_similar (Metrics.cost metrics) then
         [ {| Opportunity.type := "rate_optimization";
              Opportunity.potential := "medium";
              Opportunity.description := "Optimize rate plan or supplier";
              Opportunity.savings :=
                ToNumber (CostMetrics.value (Metrics.cost metrics)) * 0.1 |} ]
       else []))%list.

Module Comparison.
Record t := {
  metrics : Metrics.t;
  ranking : Ranking.t;
  insights : list string;
  opportunities : list Opportunity.t;
  benchmarks : Benchmarks.t
}.
End Comparison.

Definition generateComparativeAnalysis (userBillData : BillData)
  (region homeType occupancy : string) : result Comparison.t :=
  let benchmarks := getBenchmarksForComparison region homeType occupancy in
  metrics <- calculateComparisonMetrics userBillData benchmarks ;;
  let ranking := calculateRanking metrics benchmarks in
  Ok {| Comparison.metrics := metrics;
        Comparison.ranking := ranking;
        Comparison.insights := generateComparisonInsights metrics ranking;
        Comparison.opportunities :=
          identifyImprovementOpportunities metrics benchmarks;
        Comparison.benchmarks := benchmarks |}.

End Comparative.

(* ================================================================= *)
(** ** services/recommendationEngine.js, the optimization plan *)

Module Action.
Record t := {
  title : string;
  description : string;
  cost : value;
  savings : float;
  timeframe : string
}.
End Action.

Module Optimization.
Import RecommendationEngine Builtins.
Local Open Scope string_scope.
Local Open Scope float_scope.

Record Constraints := { budget : value }.

(** [billData.charges?.totalAmount * k || 0]. *)
Definition share (billData : BillData) (k : float) : float :=
  or_number (ToNumber (opt (charges billData) totalAmount) * k) 0.

Definition generateImmediateActions {P} (billData : BillData) (preferences : P)
  : list Action.t :=
  [ {| Action.title := "Adjust Thermostat Settings";
       Action.description := "Optimize heating/cooling schedules";
       Action.cost := number 0;
       Action.savings := share billData 0.05;
       Action.timeframe := "1 day" |};
    {| Action.title := "Unplug Unused Devices";
       Action.description := "Eliminate phantom power consumption";
       Action.cost := number 0;
       Action.savings := share billData 0.03;
       Action.timeframe := "1 day" |} ].

Definition generateLongTermStrategy (billData : BillData)
  (constraints : Constraints) : list Action.t :=
  ((if negb (ToBoolean (budget constraints))
       || (500 <? ToNumber (budget constraints)) then
      [ {| Action.title := "LED Lighting Conversion";
           Action.description := "Replace all incandescent bulbs with LED";
           Action.cost := number 200;
           Action.savings := share billData 0.08;
           Action.timeframe := "1 month" |} ]
    else [])
   ++ (if negb (ToBoolean (budget constraints))
          || (2000 <? ToNumber (budget constraints)) then
         [ {| Action.title := "Energy-Efficient Appliances";
              Action.description := "Upgrade to ENERGY STAR appliances";
              Action.cost := number 2000;
              Action.savings := share billData 0.20;
              Action.timeframe := "6 months" |} ]
       else []))%list.

Module Savings.
Record t := {
  total : float;
  breakdown_immediate : float;
  breakdown_longTerm : float;
  breakdown_percentage : float
}.
End Savings.

Definition sumSavings (actions : list Action.t) : float :=
  fold_left (fun sum action => sum + or_number (Action.savings action) 0)
            actions 0.

Definition calculateTotalSavings (immediate longTerm : list Action.t)
  (currentCost : float) : Savings.t :=
  let immediateSavings := sumSavings immediate in
  let longTermSavings := sumSavings longTerm in
  {| Savings.total := immediateSavings + longTermSavings;
     Savings.breakdown_immediate := immediateSavings;
     Savings.breakdown_longTerm := longTermSavings;
     Savings.breakdown_percentage :=
       ((immediateSavings + longTermSavings) / currentCost) * 100 |}.

Module Phase.
Record t := {
  name : string;
  duration : string;
  actions : list Action.t;
  priority : string
}.
End Phase.

Module Implementation.
Record t := { phases : list Phase.t; timeline : string; totalActions : nat }.
End Implementation.

Definition createImplementationPlan (immediate longTerm : list Action.t)
  : Implementation.t :=
  {| Implementation.phases :=
       [ {| Phase.name := "Phase 1: Immediate Actions";
            Phase.duration := "1 week";
            Phase.actions := immediate;
            Phase.priority := "high" |};
         {| Phase.name := "Phase 2: Short-term Improvements";
            Phase.duration := "1-3 months";
            Phase.actions :=
              filter (fun action => ToNumber (Action.cost action) <? 500) longTerm;
            Phase.priority := "medium" |};
         {| Phase.name := "Phase 3: Long-term Investments";
            Phase.duration := "3-12 months";
            Phase.actions :=
              filter (fun action => 500 <=? ToNumber (Action.cost action)) longTerm;
            Phase.priority := "low" |} ];
     Implementation.timeline := "12 months";
     Implementation.totalActions := List.length immediate + List.length longTerm |}.

Module Prioritization.
Record t := { high : list Action.t; medium : list Action.t; low : list Action.t }.
End Prioritization.

(** [action.cost === 0]. *)
Definition costIsZero (action : Action.t) : bool :=
  match Action.cost action with
  | defined c => c =? 0
  | _ => false
  end.

(** The return on investment [prioritizeActions] computes. *)
Definition roi (action : Action.t) : float :=
  Action.savings action / ToNumber (or (Action.cost action) (number 1)).

Definition prioritizeActions (actions : list Action.t) : Prioritization.t :=
  fold_left
    (fun prioritization action =>
       if (0.5 <? roi action) || costIsZero action then
         {| Prioritization.high := Prioritization.high prioritization ++ [ action ];
            Prioritization.medium := Prioritization.medium prioritization;
            Prioritization.low := Prioritization.low prioritization |}
       else if 0.2 <? roi action then
         {| Prioritization.high := Prioritization.high prioritization;
            Prioritization.medium := Prioritization.medium prioritization ++ [ action ];
            Prioritization.low := Prioritization.low prioritization |}
       else
         {| Prioritization.high := Prioritization.high prioritization;
            Prioritization.medium := Prioritization.medium prioritization;
            Prioritization.low := Prioritization.low prioritization ++ [ action ] |})
    actions
    {| Prioritization.high := []; Prioritization.medium := [];
       Prioritization.low := [] |}.

Module Risk.
Record t := {
  type : string;
  level : string;
  description : string;
  mitigation : string
}.
End Risk.

Definition totalCost (actions : list Action.t) : float :=
  fold_left (fun sum action => sum + ToNumber (or (Action.cost action) (number 0)))
            actions 0.

Definition assessImplementationRisks (immediate longTerm : list Action.t)
  : list Risk.t :=
  let techActions :=
    filter (fun action =>
              includes (Action.title action) "Smart"
              || includes (Action.title action) "Technology")
           (immediate ++ longTerm) in
  ((if 1000 <? totalCost (immediate ++ longTerm) then
      [ {| Risk.type := "budget";
           Risk.level := "medium";
           Risk.description := "High upfront investment required";
           Risk.mitigation := "Consider phased implementation" |} ]
    else [])
   ++ (if (2 <? List.length techActions)%nat then
         [ {| Risk.type := "technology";
              Risk.level := "low";
              Risk.description := "Multiple technology implementations";
              Risk.mitigation := "Ensure proper training and support" |} ]
       else []))%list.

Module Plan.
Record t := {
  immediate : list Action.t;
  longTerm : list Action.t;
  savings : Savings.t;
  implementation : Implementation.t;
  prioritization : Prioritization.t;
  risks : list Risk.t
}.
End Plan.

Definition generateOptimizationPlan {P} (billData : BillData) (preferences : P)
  (constraints : Constraints) : Plan.t :=
  let currentCost := ToNumber (or (opt (charges billData) totalAmount) (number 0)) in
  let immediate := generateImmediateActions billData preferences in
  let longTerm := generateLongTermStrategy billData constraints in
  {| Plan.immediate := immediate;
     Plan.longTerm := longTerm;
     Plan.savings := calculateTotalSavings immediate longTerm currentCost;
     Plan.implementation := createImplementationPlan immediate longTerm;
     Plan.prioritization := prioritizeActions (immediate ++ longTerm);
     Plan.risks := assessImplementationRisks immediate longTerm |}.

End Optimization.

(* ================================================================= *)
(** ** services/documentProcessor.js, confidence and the document pipeline *)

Module Processing.
Import DocumentProcessor Builtins.
Local Open Scope string_scope.
Local Open Scope float_scope.

Definition calculateConfidence (data : BillData) (rawText : string) : float :=
  let confidence := 0.5 in
  let confidence :=
    if ToBooleanText (opt_obj (accountInfo data) accountNumber)
    then confidence + 0.1 else confidence in
  let confidence :=
    if ToBoolean (opt (charges data) totalAmount)
    then confidence + 0.1 else confidence in
  let confidence :=
    if ToBoolean (opt (usage data) totalKwh)
    then confidence + 0.1 else confidence in
  let confidence :=
    if ToBooleanText (opt_obj (billingPeriod data) startDate)
    then confidence + 0.1 else confidence in
  let confidence :=
    if includes rawText "Mock Bill Data"
    then confidence - 0.3 else confidence in
  let confidence :=
    if negb (present (validationWarnings data))
       || match validationWarnings data with
          | defined [] => true
          | _ => false
          end
    then confidence + 0.1 else confidence in
  Math_max 0.1 (Math_min 1.0 confidence).

(** What [processDocument] returns: the validated record and, beside it,
    the confidence, the raw text and the file name (the size and the
    processing date are left out). *)
Module Processed.
Record t := {
  data : BillData;
  confidence : float;
  rawText : string;
  fileName : string
}.
End Processed.

(** [processDocument], over its two collaborators: the text extraction and
    the structured-data parser, each of which catches its own errors. *)
Definition processDocument {File} (originalname : File -> string)
  (extractText : File -> string)
  (parseStructuredData : string -> string -> BillData) (file : File)
  : result Processed.t :=
  let extractedText := extractText file in
  let structuredData := parseStructuredData extractedText (originalname file) in
  let validatedData := validateAndEnhanceData structuredData in
  let confidence := calculateConfidence validatedData extractedText in
  Ok {| Processed.data := validatedData;
        Processed.confidence := confidence;
        Processed.rawText := extractedText;
        Processed.fileName := originalname file |}.

(** The end of [parseWithRegex]: what the patterns matched goes through
    [fillMissingData].  The patterns only ever fill [accountInfo],
    [billingPeriod], [usage] and [charges]. *)
Definition regexOutput (matched : BillData) : bool :=
  negb (present (rates matched)) && negb (present (comparisons matched))
  && negb (present (validationWarnings matched)).

End Processing.

(* ================================================================= *)
(** ** The upload route over the services of this repository *)

Module Pipeline.
Import Processing.

Section Services.

Context {File : Type}.
Variable originalname : File -> string.
Variable extractText : File -> string.
Variable parseStructuredData : string -> string -> BillData.
(** The clock and the random numbers the analyzers read for a document. *)
Variable currentMonth : Processed.t -> Z.
Variable random1 random2 : Processed.t -> float.
Variable Math_pow : float -> float -> float.

Definition upload : Field (list File) -> AdvancedUpload.Response :=
  AdvancedUpload.advancedUpload originalname
    (processDocument originalname extractText parseStructuredData)
    (fun e => AnomalyDetector.detectAnomalies (Processed.data e))
    (fun e => PredictiveAnalyzer.generatePredictions (currentMonth e)
                (Processed.data e))
    (fun e anomalies predictions =>
       RecommendationEngine.generateRecommendations (Processed.data e)
         (defined anomalies) (defined predictions))
    (fun e => PatternAnalysis.analyzePatterns (currentMonth e) (random1 e)
                (random2 e) Math_pow (Processed.data e))
    (fun e => number (Processed.confidence e)).

End Services.

End Pipeline.

(* ================================================================= *)
(** ** Predicates used to state the properties of the pipeline *)

Module Props.

Definition Severity_eqb (a b : Severity) : bool :=
  match a, b with
  | severe, severe | moderate, moderate | mild, mild => true
  | _, _ => false
  end.

(** [billData.comparisons?.previousMonth?.usage]. *)
Definition previousUsage (billData : BillData) : value :=
  opt (opt_obj (comparisons billData) previousMonth) Snapshot.usage.

(** [billData.comparisons?.previousMonth?.amount]. *)
Definition previousAmount (billData : BillData) : value :=
  opt (opt_obj (comparisons billData) previousMonth) Snapshot.amount.

(** The message of the [TypeError] raised when [calculateEfficiency] is
    handed a comparison snapshot. *)
Definition snapshotError : string :=
  "Cannot read properties of undefined (reading 'totalAmount')".

(** An object with none of its properties set. *)
Definition emptyBill : BillData :=
  {| accountInfo := undefined; billingPeriod := undefined; charges := undefined;
     usage := undefined; rates := undefined; comparisons := undefined;
     validationWarnings := undefined |}.

(** The three classes of [prioritizeActions], as tests on one action. *)
Definition isHigh (action : Action.t) : bool :=
  ((0.5 <? Optimization.roi action)%float || Optimization.costIsZero action)%bool.
Definition isMedium (action : Action.t) : bool :=
  (negb (isHigh action) && (0.2 <? Optimization.roi action)%float)%bool.
Definition isLow (action : Action.t) : bool :=
  (negb (isHigh action) && negb (0.2 <? Optimization.roi action)%float)%bool.

(** The three verdicts on the pair of percentile ranks for which the
    overall percentile is above 75. *)
Definition poorRanks (usageRank costRank : string) : bool :=
  (String.eqb usageRank "needs_improvement"
   && (String.eqb costRank "average" || String.eqb costRank "needs_improvement"))
  || (String.eqb usageRank "average" && String.eqb costRank "needs_improvement").

End Props.

(* ================================================================= *)
(** * Theorems *)

(** ** Binary64 arithmetic *)

Import Binary64.

Lemma SFcompare_key x y :
  is_number x = true -> is_number y = true ->
  SFcompare x y = Some (lex3 (key x) (key y)).
Proof.
  destruct x as [sx|sx| |sx mx ex], y as [sy|sy| |sy my ey];
    try discriminate; intros _ _.
  all: try (destruct sx; reflexivity).
  all: try (destruct sy; reflexivity).
  all: try (destruct sx, sy; reflexivity).
  destruct sx, sy; try reflexivity; cbn -[Z.compare Pos.compare_cont].
  change (-1 ?= -1)%Z with Eq; cbv iota.
  rewrite Z.compare_opp, (Z.compare_antisym ex ey).
  destruct (ex ?= ey)%Z; reflexivity.
Qed.

(** Order facts on lexicographic triples. *)

Lemma lex3_spec a b :
  let '(a1, a2, a3) := a in
  let '(b1, b2, b3) := b in
  match lex3 a b with
  | Lt => (a1 < b1 \/ (a1 = b1 /\ (a2 < b2 \/ (a2 = b2 /\ a3 < b3))))%Z
  | Eq => a = b
  | Gt => (b1 < a1 \/ (a1 = b1 /\ (b2 < a2 \/ (a2 = b2 /\ b3 < a3))))%Z
  end.
Proof.
  destruct a as [[a1 a2] a3], b as [[b1 b2] b3]; unfold lex3.
  destruct (Z.compare_spec a1 b1), (Z.compare_spec a2 b2),
    (Z.compare_spec a3 b3); subst; auto; lia.
Qed.

Lemma le3_trans a b c : le3 a b -> le3 b c -> le3 a c.
Proof.
  unfold le3. intros H1 H2.
  pose proof (lex3_spec a b) as Sab. pose proof (lex3_spec b c) as Sbc.
  pose proof (lex3_spec a c) as Sac.
  destruct a as [[a1 a2] a3], b as [[b1 b2] b3], c as [[c1 c2] c3].
  destruct (lex3 (a1, a2, a3) (b1, b2, b3)); try congruence;
  destruct (lex3 (b1, b2, b3) (c1, c2, c3)); try congruence;
  destruct (lex3 (a1, a2, a3) (c1, c2, c3)); try congruence;
  try (inversion Sab; subst); try (inversion Sbc; subst); lia.
Qed.

Lemma lex3_antisym a b : lex3 b a = CompOpp (lex3 a b).
Proof.
  destruct a as [[a1 a2] a3], b as [[b1 b2] b3]; unfold lex3.
  rewrite (Z.compare_antisym a1 b1), (Z.compare_antisym a2 b2),
    (Z.compare_antisym a3 b3).
  destruct (a1 ?= b1)%Z, (a2 ?= b2)%Z, (a3 ?= b3)%Z; reflexivity.
Qed.

(** The comparisons of binary64 numbers, through the key. *)

Lemma leb_key x y : numeric x = true -> numeric y = true ->
  (x <=? y)%float = true <-> le3 (key (Prim2SF x)) (key (Prim2SF y)).
Proof.
  intros Hx Hy. rewrite leb_spec. unfold SFleb, le3.
  rewrite (SFcompare_key _ _ Hx Hy).
  destruct (lex3 _ _); split; congruence.
Qed.

Lemma ltb_key x y : numeric x = true -> numeric y = true ->
  (x <? y)%float = true <-> lt3 (key (Prim2SF x)) (key (Prim2SF y)).
Proof.
  intros Hx Hy. rewrite ltb_spec. unfold SFltb, lt3.
  rewrite (SFcompare_key _ _ Hx Hy).
  destruct (lex3 _ _); split; congruence.
Qed.

Lemma ltb_numeric x y : (x <? y)%float = true -> numeric x = true /\ numeric y = true.
Proof.
  rewrite ltb_spec. unfold SFltb, numeric.
  destruct (Prim2SF x), (Prim2SF y); simpl; try discriminate; auto.
Qed.

Lemma leb_numeric x y : (x <=? y)%float = true -> numeric x = true /\ numeric y = true.
Proof.
  rewrite leb_spec. unfold SFleb, numeric.
  destruct (Prim2SF x), (Prim2SF y); simpl; try discriminate; auto.
Qed.

Lemma leb_trans x y z :
  (x <=? y)%float = true -> (y <=? z)%float = true -> (x <=? z)%float = true.
Proof.
  intros H1 H2.
  destruct (leb_numeric _ _ H1) as [Nx Ny], (leb_numeric _ _ H2) as [_ Nz].
  rewrite leb_key in * by assumption. eapply le3_trans; eassumption.
Qed.

Lemma ltb_not_leb x y : (x <? y)%float = true -> (y <=? x)%float = false.
Proof.
  intros H. destruct (ltb_numeric _ _ H) as [Nx Ny].
  apply ltb_key in H; trivial. unfold lt3 in H.
  destruct (y <=? x)%float eqn:E; trivial.
  apply leb_key in E; trivial. unfold le3 in E.
  rewrite lex3_antisym, H in E. now elim E.
Qed.

Lemma not_leb_ltb x y : numeric x = true -> numeric y = true ->
  (y <=? x)%float = false -> (x <? y)%float = true.
Proof.
  intros Nx Ny H. apply ltb_key; trivial. unfold lt3.
  destruct (lex3 (key (Prim2SF x)) (key (Prim2SF y))) eqn:E; trivial; exfalso.
  - assert ((y <=? x)%float = true); [|congruence].
    apply leb_key; trivial. unfold le3. rewrite lex3_antisym, E. discriminate.
  - assert ((y <=? x)%float = true); [|congruence].
    apply leb_key; trivial. unfold le3. rewrite lex3_antisym, E. discriminate.
Qed.

(** *** Rounding: what a multiplication by [1.1] does

    [SFmul] rounds the exact product [m * M11 * 2^(e-52)] in three steps:
    it shifts the mantissa right until it fits the format, rounds to
    nearest-even on the bits shifted out, and shifts once more if the
    rounding carried.  Each step is bounded from below here, which is
    enough to compare the result with [m * 2^e]. *)

Section Rounding.
Local Open Scope Z_scope.

(** One shift halves a non-negative mantissa. *)
Lemma shr_1_m r : 0 <= shr_m r -> shr_m (shr_1 r) = Z.div2 (shr_m r).
Proof.
  destruct r as [m r s]; simpl.
  destruct m as [|[p|p|]|p]; intros H; try reflexivity; lia.
Qed.

Lemma pow2_xI p : 2 ^ Z.pos p~1 = 2 * (2 ^ Z.pos p * 2 ^ Z.pos p).
Proof.
  replace (Z.pos p~1) with (Z.pos p + Z.pos p + 1) by lia.
  rewrite !Z.pow_add_r by lia. lia.
Qed.

Lemma pow2_xO p : 2 ^ Z.pos p~0 = 2 ^ Z.pos p * 2 ^ Z.pos p.
Proof.
  replace (Z.pos p~0) with (Z.pos p + Z.pos p) by lia.
  rewrite Z.pow_add_r by lia. lia.
Qed.

(** [p] shifts divide it by [2^p]. *)
Lemma iter_pos_shr_m p : forall r, 0 <= shr_m r ->
  shr_m (SpecFloat.iter_pos shr_1 p r) = shr_m r / 2 ^ Z.pos p.
Proof.
  assert (step : forall r, 0 <= shr_m r ->
            shr_m (shr_1 r) = shr_m r / 2 /\ 0 <= shr_m (shr_1 r)).
  { intros r H. rewrite shr_1_m, Z.div2_div by trivial. split; trivial.
    apply Z.div_pos; lia. }
  assert (pw : forall q, 0 < 2 ^ Z.pos q)
    by (intros; apply Z.pow_pos_nonneg; lia).
  induction p as [p IH|p IH|]; intros r H; cbn [SpecFloat.iter_pos].
  - destruct (step r H) as [E1 P1].
    assert (0 <= shr_m (SpecFloat.iter_pos shr_1 p (shr_1 r))).
    { rewrite IH by trivial. apply Z.div_pos; auto. }
    rewrite IH, IH, E1 by trivial.
    rewrite !Z.div_div by (pose proof (pw p); lia).
    f_equal. rewrite pow2_xI. lia.
  - assert (0 <= shr_m (SpecFloat.iter_pos shr_1 p r)).
    { rewrite IH by trivial. apply Z.div_pos; auto. }
    rewrite IH, IH by trivial.
    rewrite !Z.div_div by (pose proof (pw p); lia).
    f_equal. rewrite pow2_xO. lia.
  - destruct (step r H) as [E1 _]. rewrite E1. reflexivity.
Qed.

Lemma shr_record_of_loc_m m l : shr_m (shr_record_of_loc m l) = m.
Proof. destruct l as [|[]]; reflexivity. Qed.

(** What [shr_fexp] does to a non-negative mantissa: it drops the [n] low
    bits that the format has no room for. *)
Lemma shr_fexp_m m e l :
  0 <= m ->
  let n := fexp prec emax (Zdigits2 m + e) - e in
  shr_m (fst (shr_fexp prec emax m e l)) = (if 0 <? n then m / 2 ^ n else m) /\
  snd (shr_fexp prec emax m e l) = (if 0 <? n then e + n else e).
Proof.
  intros Hm n. unfold shr_fexp. fold n. unfold shr.
  destruct n as [|p|p]; cbn [fst snd Z.ltb Z.compare].
  - now rewrite shr_record_of_loc_m.
  - rewrite iter_pos_shr_m by now rewrite shr_record_of_loc_m.
    now rewrite shr_record_of_loc_m.
  - now rewrite shr_record_of_loc_m.
Qed.

Lemma round_nearest_even_bounds m l :
  m <= round_nearest_even m l <= m + 1.
Proof. destruct l as [|[]]; simpl; try destruct (Z.even m); lia. Qed.

(** The number of binary digits of a mantissa, through [Z.log2]. *)
Lemma digits2_pos_size p : digits2_pos p = Pos.size p.
Proof. induction p; simpl; congruence. Qed.

Lemma Zdigits2_log2 p : Zdigits2 (Z.pos p) = Z.log2 (Z.pos p) + 1.
Proof.
  simpl. rewrite digits2_pos_size. destruct p; simpl; lia.
Qed.

Lemma Zdigits2_bounds p :
  2 ^ (Zdigits2 (Z.pos p) - 1) <= Z.pos p < 2 ^ Zdigits2 (Z.pos p).
Proof.
  rewrite Zdigits2_log2.
  replace (Z.log2 (Z.pos p) + 1 - 1) with (Z.log2 (Z.pos p)) by lia.
  apply Z.log2_spec. lia.
Qed.

Lemma SFltb_finite_ge pv e2 m e :
  e < e2 \/ (e2 = e /\ Z.pos m <= Z.pos pv) ->
  SFltb (S754_finite false pv e2) (S754_finite false m e) = false.
Proof.
  intros H. unfold SFltb, SFcompare.
  destruct (Z.compare_spec e2 e); try reflexivity; try lia.
  change (Pos.compare_cont Eq pv m) with (Pos.compare pv m).
  destruct (Pos.compare_spec pv m); try reflexivity; lia.
Qed.

(** The product of a positive binary64 number and [1.1], rounded, is not
    below the number: it overflows to +infinity, or has a larger exponent,
    or the same exponent and a mantissa at least as large. *)
Lemma mul11_not_less m e :
  bounded prec emax m e = true ->
  SFltb (SFmul prec emax (S754_finite false m e) (S754_finite false M11 (-52)))
        (S754_finite false m e) = false.
Proof.
  intros B. unfold bounded, canonical_mantissa in B.
  apply andb_prop in B as [C Emax].
  apply Z.eqb_eq in C. apply Z.leb_le in Emax.
  unfold SFmul. cbn [xorb]. unfold binary_round_aux.
  set (P := (m * M11)%positive). set (E := e + -52).
  (* the sizes of the operands and of the exact product *)
  pose proof (Zdigits2_bounds m) as Dm. pose proof (Zdigits2_bounds P) as DP.
  assert (DPm : Zdigits2 (Z.pos m) + 52 <= Zdigits2 (Z.pos P)
                <= Zdigits2 (Z.pos m) + 53).
  { rewrite !Zdigits2_log2. unfold P. rewrite Pos2Z.inj_mul.
    pose proof (Z.log2_mul_below (Z.pos m) (Z.pos M11) ltac:(lia) ltac:(lia)).
    pose proof (Z.log2_mul_above (Z.pos m) (Z.pos M11) ltac:(lia) ltac:(lia)).
    change (Z.log2 (Z.pos M11)) with 52 in *. lia. }
  set (dm := Zdigits2 (Z.pos m)) in *. set (dP := Zdigits2 (Z.pos P)) in *.
  change (Z.pos (digits2_pos m)) with dm in C.
  unfold fexp, emin, prec, emax in C, Emax.
  (* first shift *)
  pose proof (shr_fexp_m (Z.pos P) E loc_Exact ltac:(lia)) as [S1m S1e].
  cbv zeta in S1m, S1e. fold dP in S1m, S1e.
  destruct (shr_fexp prec emax (Z.pos P) E loc_Exact) as [mrs' e'].
  cbn [fst snd] in S1m, S1e.
  unfold fexp, emin, prec, emax in S1m, S1e.
  set (n1 := Z.max (dP + E - 53) (3 - 1024 - 53) - E) in *.
  assert (N1 : n1 = 52 \/ (n1 = 53 /\ dP = 106)) by (unfold n1, E; lia).
  assert (M1 : 0 < shr_m mrs' /\
               (e < e' \/ (e' = e /\ Z.pos m <= shr_m mrs'))).
  { destruct N1 as [N1|[N1 D]]; rewrite N1 in S1m, S1e;
      cbn [Z.ltb Z.compare] in S1m, S1e.
    - assert (Z.pos m <= Z.pos P / 2 ^ 52).
      { apply Z.div_le_lower_bound; [reflexivity|].
        unfold P. rewrite Pos2Z.inj_mul. change (2 ^ 52) with 4503599627370496.
        unfold M11. lia. }
      rewrite S1m, S1e. unfold E. split; [lia|right; split; [lia|trivial]].
    - assert (2 ^ 52 <= Z.pos P / 2 ^ 53).
      { apply Z.div_le_lower_bound; [reflexivity|].
        rewrite D in DP.
        change (2 ^ (106 - 1)) with (2 ^ 53 * 2 ^ 52) in DP. lia. }
      rewrite S1m, S1e. unfold E. change (2 ^ 52) with 4503599627370496 in *.
      split; [lia|left; lia]. }
  (* rounding to nearest *)
  pose proof (round_nearest_even_bounds (shr_m mrs')
                (loc_of_shr_record mrs')) as R.
  set (mr := round_nearest_even (shr_m mrs') (loc_of_shr_record mrs')) in *.
  (* second shift *)
  pose proof (shr_fexp_m mr e' loc_Exact ltac:(lia)) as [S2m S2e].
  cbv zeta in S2m, S2e.
  destruct (shr_fexp prec emax mr e' loc_Exact) as [mrs'' e''].
  cbn [fst snd] in S2m, S2e.
  unfold fexp, emin, prec, emax in S2m, S2e.
  destruct mr as [|pr|pr] eqn:Emr; try lia.
  pose proof (Zdigits2_bounds pr) as Dr.
  set (d2 := Zdigits2 (Z.pos pr)) in *.
  set (n2 := Z.max (d2 + e' - 53) (3 - 1024 - 53) - e') in *.
  assert (M2 : 0 < shr_m mrs'' /\
               (e < e'' \/ (e'' = e /\ Z.pos m <= shr_m mrs''))).
  { destruct (Z.ltb_spec 0 n2) as [Hn|Hn].
    - assert (n2 = d2 - 53) by (unfold n2 in *; lia).
      assert (2 ^ n2 <= Z.pos pr).
      { transitivity (2 ^ (d2 - 1)); [|lia]. apply Z.pow_le_mono_r; lia. }
      assert (0 < 2 ^ n2) by (apply Z.pow_pos_nonneg; lia).
      rewrite S2m, S2e. split; [apply Z.div_str_pos; lia|left; lia].
    - rewrite S2m, S2e. split; [lia|]. lia. }
  destruct (shr_m mrs'') as [|pv|pv]; try lia.
  destruct (e'' <=? emax - prec); [|reflexivity].
  apply SFltb_finite_ge. lia.
Qed.

End Rounding.

(** *** Facts on primitive floats *)

Section Floats.
Local Open Scope float_scope.

Lemma Prim2SF_11 : Prim2SF 1.1 = S754_finite false M11 (-52).
Proof. reflexivity. Qed.

Lemma nonneg_finite_cases x :
  (0 <=? x) = true -> isFinite x = true ->
  (exists s, Prim2SF x = S754_zero s) \/
  (exists m e, Prim2SF x = S754_finite false m e).
Proof.
  unfold isFinite. rewrite leb_spec, ltb_spec, abs_spec.
  destruct (Prim2SF x) as [s|s| |s m e]; try discriminate; eauto.
  destruct s; try discriminate; eauto.
Qed.

(** For a finite [x >= 0], [x > x * 1.1] is false. *)
Lemma mul_11_not_less x :
  (0 <=? x) = true -> isFinite x = true -> (x * 1.1 <? x) = false.
Proof.
  intros H0 Hf. rewrite ltb_spec, mul_spec, Prim2SF_11.
  pose proof (Prim2SF_valid x) as V.
  destruct (nonneg_finite_cases x H0 Hf) as [[s E]|[m [e E]]]; rewrite E in *.
  - destruct s; reflexivity.
  - apply mul11_not_less. exact V.
Qed.

Lemma sub_self_sf s :
  SF64sub s s =
  match s with
  | S754_zero _ | S754_finite _ _ _ => S754_zero false
  | _ => S754_nan
  end.
Proof.
  destruct s as [b|b| |b m e]; try (destruct b; reflexivity); try reflexivity.
  unfold SF64sub, SFsub. rewrite Z.sub_diag. reflexivity.
Qed.

(** The percentage change of a value against itself: zero for a non-zero
    finite value, [NaN] otherwise. *)
Lemma self_change_sf c :
  Prim2SF (((c - c) / c) * 100) =
  match Prim2SF c with
  | S754_finite s _ _ => S754_zero s
  | _ => S754_nan
  end.
Proof.
  rewrite mul_spec, div_spec, sub_spec, sub_self_sf.
  destruct (Prim2SF c) as [b|b| |b m e]; try reflexivity.
  destruct b; reflexivity.
Qed.

Lemma self_change_not_above t c :
  (0 <=? t) = true -> (t <? abs (((c - c) / c) * 100)) = false.
Proof.
  rewrite leb_spec, ltb_spec, abs_spec, self_change_sf.
  change (Prim2SF 0) with (S754_zero false).
  destruct (Prim2SF c) as [b|b| |b m e]; try (now destruct (Prim2SF t)).
  destruct (Prim2SF t) as [b'|b'| |b' m' e']; try reflexivity; try discriminate.
  - destruct b'; try reflexivity. discriminate.
  - destruct b'; try reflexivity. discriminate.
Qed.

Lemma finite_nonzero_sf c :
  isFinite c = true -> (c =? 0) = false ->
  exists s m e, Prim2SF c = S754_finite s m e.
Proof.
  unfold isFinite. rewrite ltb_spec, abs_spec, FloatAxioms.eqb_spec.
  destruct (Prim2SF c) as [b|b| |b m e]; try discriminate; eauto.
Qed.

Lemma self_change_zero c :
  isFinite c = true -> (c =? 0) = false -> (((c - c) / c) * 100 =? 0) = true.
Proof.
  intros Hf Hz. destruct (finite_nonzero_sf c Hf Hz) as (s & m & e & E).
  rewrite FloatAxioms.eqb_spec, self_change_sf, E. reflexivity.
Qed.

Lemma eqb_zero_sf z : (z =? 0) = true -> exists s, Prim2SF z = S754_zero s.
Proof.
  rewrite FloatAxioms.eqb_spec. change (Prim2SF 0) with (S754_zero false).
  destruct (Prim2SF z) as [b|b| |b m e]; try discriminate; eauto;
    destruct b; discriminate.
Qed.

(** A division by zero is [NaN] or an infinity, and stays so when
    multiplied by 100; zero divided by 30 is zero. *)
Lemma div_zero_not_finite x z : (z =? 0) = true -> isFinite (x / z) = false.
Proof.
  intros Hz. destruct (eqb_zero_sf z Hz) as [s E].
  unfold isFinite. rewrite ltb_spec, abs_spec, div_spec, E.
  destruct (Prim2SF x) as [b|b| |b m e]; reflexivity.
Qed.

Lemma div_zero_percent_not_finite x z :
  (z =? 0) = true -> isFinite ((x / z) * 100) = false.
Proof.
  intros Hz. destruct (eqb_zero_sf z Hz) as [s E].
  unfold isFinite. rewrite ltb_spec, abs_spec, mul_spec, div_spec, E.
  destruct (Prim2SF x) as [b|b| |b m e]; reflexivity.
Qed.

Lemma zero_div_30 z : (z =? 0) = true -> (z / 30 =? 0) = true.
Proof.
  intros Hz. destruct (eqb_zero_sf z Hz) as [s E].
  rewrite FloatAxioms.eqb_spec, div_spec, E. destruct s; reflexivity.
Qed.

Lemma sub_nan_sf s :
  SF64sub s S754_nan = S754_nan /\ SF64sub S754_nan s = S754_nan.
Proof. destruct s; split; reflexivity. Qed.

(** A difference with a [NaN] operand is neither positive nor equal to 0. *)
Lemma sub_nan_r_unordered x : (0 <? x - nan) = false /\ (x - nan =? 0) = false.
Proof.
  rewrite ltb_spec, FloatAxioms.eqb_spec, sub_spec.
  change (Prim2SF nan) with S754_nan. rewrite (proj1 (sub_nan_sf _)).
  split; reflexivity.
Qed.

Lemma sub_nan_l_unordered x : (0 <? nan - x) = false /\ (nan - x =? 0) = false.
Proof.
  rewrite ltb_spec, FloatAxioms.eqb_spec, sub_spec.
  change (Prim2SF nan) with S754_nan. rewrite (proj2 (sub_nan_sf _)).
  split; reflexivity.
Qed.

End Floats.

(* ================================================================= *)
(** ** The batch upload *)

Section Upload.
Import AdvancedUpload.

Context {File ExtractedData Anomalies Forecast Advice Patterns : Type}.
Variable originalname : File -> string.
Variable processDocument : File -> result ExtractedData.
Variable detectAnomalies : ExtractedData -> result Anomalies.
Variable generatePredictions : ExtractedData -> result Forecast.
Variable generateRecommendations :
  ExtractedData -> Anomalies -> Forecast -> result Advice.
Variable analyzePatterns : ExtractedData -> result Patterns.
Variable confidenceOf : ExtractedData -> value.

Let analysis :=
  analyse processDocument detectAnomalies generatePredictions
    generateRecommendations analyzePatterns confidenceOf.
Let entry :=
  attempt originalname processDocument detectAnomalies generatePredictions
    generateRecommendations analyzePatterns confidenceOf.
Let next :=
  step originalname processDocument detectAnomalies generatePredictions
    generateRecommendations analyzePatterns confidenceOf.
Let upload :=
  advancedUpload originalname processDocument detectAnomalies
    generatePredictions generateRecommendations analyzePatterns confidenceOf.

(** The loop appends one entry per file, whatever happened to the files
    before it. *)
Lemma upload_loop (files : list File) : forall acc,
  fold_left next files acc = acc ++ map entry files.
Proof.
  induction files as [|file files IH]; intros acc; simpl.
  - now rewrite app_nil_r.
  - rewrite IH. unfold next, step, entry. now rewrite <- app_assoc.
Qed.

(** C7.  In a batch upload every submitted file gets exactly one entry, in
    order: [{filename, success: false, error}] with the message of the
    error when any stage of its analysis throws, the successful analysis
    otherwise; a failure does not stop the files after it.  [totalFiles]
    counts the submitted files and [successfulFiles] the entries with
    [success] true. *)
Theorem batch_upload_isolates_failures (file : File) (files : list File) :
  exists body,
    upload (defined (file :: files)) = Json body /\
    body_success body = true /\
    totalFiles body = List.length (file :: files) /\
    List.length (results body) = List.length (file :: files) /\
    successfulFiles body = List.length (filter success (results body)) /\
    forall i f, nth_error (file :: files) i = Some f ->
      exists r,
        nth_error (results body) i = Some r /\
        filename r = originalname f /\
        success r = match analysis f with Ok _ => true | Throw _ => false end /\
        (forall e, analysis f = Throw e ->
           r = Failed (originalname f) (message e)) /\
        (forall a, analysis f = Ok a -> r = Succeeded (originalname f) a).
Proof.
  eexists. split; [reflexivity|].
  cbn [body_success totalFiles results successfulFiles].
  pose proof (upload_loop (file :: files) []) as L. cbn [app] in L.
  unfold next in L. rewrite L. clear L.
  repeat split.
  - now rewrite length_map.
  - intros i f Hi. rewrite nth_error_map, Hi. cbn [option_map].
    eexists. split; [reflexivity|]. unfold entry, attempt. fold (analysis f).
    destruct (analysis f) as [a|e]; cbn; repeat split; congruence.
Qed.

End Upload.

(* ================================================================= *)
(** ** The normalizer *)

Section Normalizer.
Import DocumentProcessor.

Lemma spread_idempotent {A} (base override : Field A) :
  spread base (spread base override) = spread base override.
Proof. destruct override; simpl; trivial; destruct base; reflexivity. Qed.

Lemma spreadAccountInfo_idempotent base override :
  spreadAccountInfo base (defined (spreadAccountInfo base override))
  = spreadAccountInfo base override.
Proof. unfold spreadAccountInfo; simpl; f_equal; apply spread_idempotent. Qed.

Lemma spreadBillingPeriod_idempotent base override :
  spreadBillingPeriod base (defined (spreadBillingPeriod base override))
  = spreadBillingPeriod base override.
Proof. unfold spreadBillingPeriod; simpl; f_equal; apply spread_idempotent. Qed.

Lemma spreadCharges_idempotent base override :
  spreadCharges base (defined (spreadCharges base override))
  = spreadCharges base override.
Proof. unfold spreadCharges; simpl; f_equal; apply spread_idempotent. Qed.

Lemma spreadUsage_idempotent base override :
  spreadUsage base (defined (spreadUsage base override))
  = spreadUsage base override.
Proof. unfold spreadUsage; simpl; f_equal; apply spread_idempotent. Qed.

Lemma spreadRates_idempotent base override :
  spreadRates base (defined (spreadRates base override))
  = spreadRates base override.
Proof. unfold spreadRates; simpl; f_equal; apply spread_idempotent. Qed.

Lemma spreadComparisons_idempotent base override :
  spreadComparisons base (defined (spreadComparisons base override))
  = spreadComparisons base override.
Proof. unfold spreadComparisons; simpl; f_equal; apply spread_idempotent. Qed.

Lemma fillMissingData_idempotent data :
  fillMissingData (fillMissingData data) = fillMissingData data.
Proof.
  unfold fillMissingData.
  cbn [accountInfo billingPeriod charges usage rates comparisons].
  now rewrite spreadAccountInfo_idempotent, spreadBillingPeriod_idempotent,
    spreadCharges_idempotent, spreadUsage_idempotent, spreadRates_idempotent,
    spreadComparisons_idempotent.
Qed.

Lemma validateAndEnhanceData_idempotent data :
  validateAndEnhanceData (validateAndEnhanceData data)
  = validateAndEnhanceData data.
Proof.
  unfold validateAndEnhanceData.
  cbn [accountInfo billingPeriod charges usage rates comparisons
       validationWarnings ensure].
  destruct (ToBoolean (totalKwh _) && ToBoolean (energyCharges _))%bool;
    destruct (ToBoolean (totalAmount _)); try reflexivity;
    destruct (_ <? _)%float; reflexivity.
Qed.

(** Merging the defaults into a validated record only touches [rates] and
    drops the warnings, and validation restores both.  Stated for a record
    [filled] that the merge leaves alone. *)
Lemma validate_fill_validate_filled a bp ch u r c :
  let mock := generateMockStructuredData in
  spreadAccountInfo (accountInfo mock) (defined a) = a ->
  spreadBillingPeriod (billingPeriod mock) (defined bp) = bp ->
  spreadCharges (charges mock) (defined ch) = ch ->
  spreadUsage (usage mock) (defined u) = u ->
  spreadRates (rates mock) (defined r) = r ->
  spreadComparisons (comparisons mock) (defined c) = c ->
  let filled :=
    {| accountInfo := defined a; billingPeriod := defined bp;
       charges := defined ch; usage := defined u; rates := defined r;
       comparisons := defined c; validationWarnings := undefined |} in
  validateAndEnhanceData (fillMissingData (validateAndEnhanceData filled))
  = validateAndEnhanceData filled.
Proof.
  intros mock Ha Hbp Hch Hu Hr Hc filled.
  unfold validateAndEnhanceData at 2. unfold fillMissingData. fold mock.
  cbn [filled accountInfo billingPeriod charges usage rates comparisons
       validationWarnings ensure].
  rewrite Ha, Hbp, Hch, Hu, Hc.
  unfold validateAndEnhanceData.
  cbn [filled accountInfo billingPeriod charges usage rates comparisons
       validationWarnings ensure].
  destruct (ToBoolean (totalKwh u) && ToBoolean (energyCharges ch))%bool.
  - reflexivity.
  - now rewrite Hr.
Qed.

Lemma validate_fill_validate data :
  validateAndEnhanceData
    (fillMissingData (validateAndEnhanceData (fillMissingData data)))
  = validateAndEnhanceData (fillMissingData data).
Proof.
  apply validate_fill_validate_filled.
  - apply spreadAccountInfo_idempotent.
  - apply spreadBillingPeriod_idempotent.
  - apply spreadCharges_idempotent.
  - apply spreadUsage_idempotent.
  - apply spreadRates_idempotent.
  - apply spreadComparisons_idempotent.
Qed.

(** C8.  Normalization is idempotent: the merge of the defaults
    ([fillMissingData]), the validation pass ([validateAndEnhanceData]) and
    their composition each return their own output unchanged. *)
Theorem normalizer_idempotent (r : BillData) :
  fillMissingData (fillMissingData r) = fillMissingData r /\
  validateAndEnhanceData (validateAndEnhanceData r) = validateAndEnhanceData r /\
  normalize (normalize r) = normalize r.
Proof.
  split; [apply fillMissingData_idempotent|].
  split; [apply validateAndEnhanceData_idempotent|].
  apply validate_fill_validate.
Qed.

End Normalizer.

(* ================================================================= *)
(** ** The anomaly detector *)

Section Detector.
Import AnomalyDetector Spec.
Local Open Scope float_scope.

(** [sort] permutes: it neither drops nor invents an element. *)
Lemma In_insert {A} (cmp : A -> A -> float) (a x : A) (l : list A) :
  In a (insert cmp x l) <-> a = x \/ In a l.
Proof.
  induction l as [|y l IH]; simpl.
  - intuition.
  - destruct (0 <? cmp x y); simpl; rewrite ?IH; intuition.
Qed.

Lemma In_Array_sort {A} (cmp : A -> A -> float) (a : A) (l : list A) :
  In a (Array_sort cmp l) <-> In a l.
Proof.
  induction l as [|x l IH]; simpl; [tauto|].
  rewrite In_insert, IH. intuition.
Qed.

(** The comparator of [prioritizeAnomalies] puts [a] strictly after [b]
    exactly when [b] is the more severe, and the result is in descending
    severity. *)
Lemma severity_comparator (a b : Severity) :
  (0 <? severityOrder b - severityOrder a)
  = (severityRank a <? severityRank b)%nat.
Proof. destruct a, b; reflexivity. Qed.

Lemma prioritizeAnomalies_sorted (l : list Anomaly.t) :
  StronglySorted
    (fun a b => (severityRank (Anomaly.severity b)
                 <= severityRank (Anomaly.severity a))%nat)
    (prioritizeAnomalies l).
Proof.
  unfold prioritizeAnomalies.
  induction l as [|x l IH]; simpl; [constructor|].
  induction IH as [|y s Hs IHs Hy]; simpl; [repeat constructor|].
  rewrite severity_comparator.
  destruct (Nat.ltb_spec (severityRank (Anomaly.severity x))
                         (severityRank (Anomaly.severity y))) as [Lt|Ge].
  - constructor; [exact IHs|].
    apply Forall_forall. intros z Hz. apply In_insert in Hz as [->|Hz].
    + lia.
    + rewrite Forall_forall in Hy. now apply Hy.
  - constructor; [now constructor|].
    constructor; [exact Ge|].
    rewrite Forall_forall in Hy |- *. intros z Hz.
    specialize (Hy z Hz). cbv beta in *. lia.
Qed.

(** What an emitted usage anomaly is. *)
Lemma detectUsageAnomalies_inv b l a :
  detectUsageAnomalies b = Ok l -> In a l ->
  exists u c,
    usage b = defined u /\ comparisons b = defined c /\
    (15 <? abs (usageChange u c)) = true /\
    Anomaly.type a = usage_anomaly /\
    Anomaly.severity a = getSeverity (abs (usageChange u c)) thresholds_usage /\
    Anomaly.impact a = abs (usageChange u c).
Proof.
  unfold detectUsageAnomalies.
  destruct (usage b) as [| |u]; try discriminate.
  destruct (comparisons b) as [| |c]; try discriminate.
  cbn [get bind]. intros [= <-].
  change (Thresholds.mild thresholds_usage) with 15. unfold Math_abs.
  destruct (15 <? abs (usageChange u c)) eqn:E; [|intros []].
  intros [<-|[]]. exists u, c.
  cbn [Anomaly.type Anomaly.severity Anomaly.impact]. repeat split; trivial.
Qed.

Lemma detectCostAnomalies_inv b l a :
  detectCostAnomalies b = Ok l -> In a l ->
  exists ch c,
    charges b = defined ch /\ comparisons b = defined c /\
    (20 <? abs (costChange ch c)) = true /\
    Anomaly.type a = cost_anomaly /\
    Anomaly.severity a = getSeverity (abs (costChange ch c)) thresholds_cost /\
    Anomaly.impact a = abs (costChange ch c).
Proof.
  unfold detectCostAnomalies.
  destruct (charges b) as [| |ch]; try discriminate.
  destruct (comparisons b) as [| |c]; try discriminate.
  cbn [get bind]. intros [= <-].
  change (Thresholds.mild thresholds_cost) with 20. unfold Math_abs.
  destruct (20 <? abs (costChange ch c)) eqn:E; [|intros []].
  intros [<-|[]]. exists ch, c.
  cbn [Anomaly.type Anomaly.severity Anomaly.impact]. repeat split; trivial.
Qed.

Lemma detectPatternAnomalies_inv b l a :
  detectPatternAnomalies b = Ok l -> In a l ->
  exists u,
    usage b = defined u /\
    let peakRatio := (ToNumber (peakKwh u) / ToNumber (totalKwh u)) * 100 in
    (40 <? peakRatio) = true /\
    Anomaly.type a = peak_usage_anomaly /\
    Anomaly.severity a = (if 50 <? peakRatio then severe else moderate) /\
    Anomaly.impact a = peakRatio.
Proof.
  unfold detectPatternAnomalies.
  destruct (usage b) as [| |u]; try discriminate.
  cbn [get bind]. intros [= <-].
  destruct (ToBoolean (peakKwh u) && ToBoolean (totalKwh u))%bool; [|intros []].
  destruct (40 <? _) eqn:E; [|intros []].
  intros [<-|[]]. exists u. cbn [Anomaly.type Anomaly.severity Anomaly.impact].
  repeat split; trivial.
Qed.

(** [detectAnomalies] returns exactly when the bill has a [usage] object,
    and then returns the anomalies of the three checks. *)
Lemma detectAnomalies_Ok b u :
  usage b = defined u ->
  exists lu lc lp,
    (if present (comparisons b) then detectUsageAnomalies b = Ok lu else lu = []) /\
    (if (present (charges b) && present (comparisons b))%bool
     then detectCostAnomalies b = Ok lc else lc = []) /\
    detectPatternAnomalies b = Ok lp /\
    detectAnomalies b = Ok (prioritizeAnomalies (lu ++ lc ++ lp)).
Proof.
  intros Hu. unfold detectAnomalies.
  unfold detectUsageAnomalies, detectCostAnomalies, detectPatternAnomalies.
  rewrite Hu. cbn [present get bind andb app].
  destruct (comparisons b) as [| |c]; cbn [present get bind andb app].
  1,2: rewrite andb_false_r; cbn [bind app];
       do 3 eexists; repeat split; reflexivity.
  destruct (charges b) as [| |ch]; cbn [present get bind andb app].
  1,2: do 3 eexists; repeat split; try reflexivity;
       now rewrite app_nil_r.
  do 3 eexists. repeat split; try reflexivity. now rewrite app_assoc.
Qed.

Lemma detectAnomalies_Throw b :
  present (usage b) = false -> exists e, detectAnomalies b = Throw e.
Proof.
  intros Hu. unfold detectAnomalies, detectCostAnomalies, detectPatternAnomalies.
  destruct (usage b) as [| |u]; try discriminate; cbn [present get bind andb];
    destruct (present (charges b) && present (comparisons b))%bool eqn:E;
    cbn [bind]; eauto;
    apply andb_prop in E as [E1 E2];
    destruct (charges b); try discriminate; destruct (comparisons b);
    try discriminate; cbn [get bind]; eauto.
Qed.

Lemma detectAnomalies_In b l a :
  detectAnomalies b = Ok l -> In a l ->
  (exists lu, detectUsageAnomalies b = Ok lu /\ In a lu) \/
  (exists lc, detectCostAnomalies b = Ok lc /\ In a lc) \/
  (exists lp, detectPatternAnomalies b = Ok lp /\ In a lp).
Proof.
  intros H Ha.
  destruct (usage b) as [| |u] eqn:Hu.
  1,2: destruct (detectAnomalies_Throw b) as [e He];
       [now rewrite Hu | congruence].
  destruct (detectAnomalies_Ok b u Hu) as (lu & lc & lp & H1 & H2 & H3 & H4).
  rewrite H4 in H. injection H as <-.
  unfold prioritizeAnomalies in Ha. rewrite In_Array_sort, !in_app_iff in Ha.
  destruct Ha as [Ha|[Ha|Ha]].
  - left. destruct (present (comparisons b)); [eauto|subst; destruct Ha].
  - right; left. destruct (present (charges b) && present (comparisons b))%bool;
      [eauto|subst; destruct Ha].
  - right; right; eauto.
Qed.

(** *** Peak usage *)

(** C1, as the code has it.  For a bill with [usage.peakKwh = 500] and
    [usage.totalKwh = 1000] the peak ratio is exactly 50, and
    [detectAnomalies] returns a peak-usage anomaly of severity [moderate]:
    [severe] needs a ratio strictly above 50.  No peak-usage anomaly of
    another severity is returned. *)
Theorem peak_half_is_moderate (b : BillData) (u : Usage) :
  usage b = defined u ->
  peakKwh u = number 500 -> totalKwh u = number 1000 ->
  exists l,
    detectAnomalies b = Ok l /\
    (exists a, In a l /\ Anomaly.type a = peak_usage_anomaly /\
               Anomaly.severity a = moderate /\ Anomaly.impact a = 50) /\
    (forall a, In a l -> Anomaly.type a = peak_usage_anomaly ->
               Anomaly.severity a = moderate).
Proof.
  intros Hu Hp Ht.
  destruct (detectAnomalies_Ok b u Hu) as (lu & lc & lp & H1 & H2 & H3 & H4).
  assert (P : detectPatternAnomalies b
              = Ok [ {| Anomaly.type := peak_usage_anomaly;
                        Anomaly.severity := moderate;
                        Anomaly.title := "High Peak Usage Pattern";
                        Anomaly.description :=
                          Cat (Str "Peak usage represents ")
                              (Cat (ToFixed1 50) (Str "% of total consumption"));
                        Anomaly.impact := 50;
                        Anomaly.recommendations := getPeakRecommendations |} ]).
  { unfold detectPatternAnomalies. rewrite Hu. cbn [get bind].
    rewrite Hp, Ht. reflexivity. }
  exists (prioritizeAnomalies (lu ++ lc ++ lp)). split; [exact H4|]. split.
  - rewrite P in H3. injection H3 as <-.
    eexists. split.
    + unfold prioritizeAnomalies. rewrite In_Array_sort, !in_app_iff.
      right; right. left; reflexivity.
    + cbn; repeat split; reflexivity.
  - intros a Ha Hty.
    destruct (detectAnomalies_In b _ a H4 Ha)
      as [(l' & Hl & Hin)|[(l' & Hl & Hin)|(l' & Hl & Hin)]].
    + destruct (detectUsageAnomalies_inv _ _ _ Hl Hin)
        as (? & ? & _ & _ & _ & T & _).
      congruence.
    + destruct (detectCostAnomalies_inv _ _ _ Hl Hin)
        as (? & ? & _ & _ & _ & T & _).
      congruence.
    + rewrite P in Hl. injection Hl as <-. destruct Hin as [<-|[]].
      reflexivity.
Qed.

Lemma peak_half_is_moderate_witness :
  exists l,
    detectAnomalies bill_peak_half = Ok l /\
    (exists a, In a l /\ Anomaly.type a = peak_usage_anomaly /\
               Anomaly.severity a = moderate /\ Anomaly.impact a = 50) /\
    (forall a, In a l -> Anomaly.type a = peak_usage_anomaly ->
               Anomaly.severity a = moderate).
Proof.
  apply (peak_half_is_moderate bill_peak_half
           {| totalKwh := number 1000; peakKwh := number 500;
              offPeakKwh := undefined; demandKw := undefined |});
    reflexivity.
Defined.

(** C1 as stated fails: at peak 500 of total 1000 the detector returns no
    peak-usage anomaly of severity [severe]. *)
Lemma peak_half_is_not_severe :
  exists l,
    detectAnomalies bill_peak_half = Ok l /\
    ~ exists a, In a l /\ Anomaly.type a = peak_usage_anomaly /\
                Anomaly.severity a = severe.
Proof.
  eexists. split; [vm_compute; reflexivity|].
  intros (a & [<-|[]] & _ & H). discriminate H.
Qed.

(** *** Severity tiers *)

Lemma getSeverity_tiers (th : Thresholds.t) (v : float) :
  (Thresholds.moderate th <=? Thresholds.severe th) = true ->
  numeric v = true ->
  (getSeverity v th = mild <-> (v <? Thresholds.moderate th) = true) /\
  (getSeverity v th = moderate <->
     (Thresholds.moderate th <=? v) = true /\ (v <? Thresholds.severe th) = true) /\
  (getSeverity v th = severe <-> (Thresholds.severe th <=? v) = true).
Proof.
  intros Hth Nv. destruct (leb_numeric _ _ Hth) as [Nm Ns].
  unfold getSeverity.
  destruct (Thresholds.severe th <=? v) eqn:Es.
  - pose proof (leb_trans _ _ _ Hth Es) as Em.
    repeat split; try discriminate; trivial.
    + intros H. apply ltb_not_leb in H. congruence.
    + intros [_ H]. apply ltb_not_leb in H. congruence.
  - pose proof (not_leb_ltb _ _ Nv Ns Es) as Ls.
    destruct (Thresholds.moderate th <=? v) eqn:Em.
    + repeat split; try discriminate; trivial.
      intros H. apply ltb_not_leb in H. congruence.
    + pose proof (not_leb_ltb _ _ Nv Nm Em) as Lm.
      repeat split; try discriminate; trivial.
      intros [H _]. discriminate.
Qed.

Lemma getSeverity_monotone (th : Thresholds.t) (v w : float) :
  (Thresholds.moderate th <=? Thresholds.severe th) = true ->
  (v <=? w) = true ->
  (severityRank (getSeverity v th) <= severityRank (getSeverity w th))%nat.
Proof.
  intros Hth Hvw. unfold getSeverity.
  destruct (Thresholds.severe th <=? v) eqn:Es.
  - rewrite (leb_trans _ _ _ Es Hvw). simpl. lia.
  - destruct (Thresholds.moderate th <=? v) eqn:Em.
    + rewrite (leb_trans _ _ _ Em Hvw).
      destruct (Thresholds.severe th <=? w); simpl; lia.
    + destruct (Thresholds.severe th <=? w), (Thresholds.moderate th <=? w);
        simpl; lia.
Qed.

(** C2, as the code has it.  The severity of every emitted usage anomaly is
    a non-decreasing function of |change%|, and the three tiers partition
    the emission range (15, oo) as (15, 25) [mild], [25, 40) [moderate] and
    [40, oo) [severe]: each threshold belongs to the tier it opens.  The
    same holds for cost anomalies with 20, 35 and 50. *)
Theorem severity_tiers (b : BillData) :
  (forall l a, detectUsageAnomalies b = Ok l -> In a l ->
     emitted_tier thresholds_usage a) /\
  (forall l a, detectCostAnomalies b = Ok l -> In a l ->
     emitted_tier thresholds_cost a) /\
  (forall v w, (v <=? w) = true ->
     (severityRank (getSeverity v thresholds_usage)
      <= severityRank (getSeverity w thresholds_usage))%nat /\
     (severityRank (getSeverity v thresholds_cost)
      <= severityRank (getSeverity w thresholds_cost))%nat).
Proof.
  split; [|split].
  - intros l a Hl Ha.
    destruct (detectUsageAnomalies_inv _ _ _ Hl Ha)
      as (u & c & _ & _ & E & _ & S & I).
    unfold emitted_tier. rewrite S, I. split; [exact E|].
    apply getSeverity_tiers; [reflexivity|].
    now destruct (ltb_numeric _ _ E).
  - intros l a Hl Ha.
    destruct (detectCostAnomalies_inv _ _ _ Hl Ha)
      as (ch & c & _ & _ & E & _ & S & I).
    unfold emitted_tier. rewrite S, I. split; [exact E|].
    apply getSeverity_tiers; [reflexivity|].
    now destruct (ltb_numeric _ _ E).
  - intros v w H. split; apply getSeverity_monotone; trivial; reflexivity.
Qed.

Lemma severity_tiers_witness :
  emitted_tier thresholds_usage
    {| Anomaly.type := usage_anomaly;
       Anomaly.severity := moderate;
       Anomaly.title := "Increased Usage Pattern";
       Anomaly.description :=
         Cat (Str "Energy usage increased by ") (Cat (ToFixed1 25) (Str "%"));
       Anomaly.impact := 25;
       Anomaly.recommendations := getUsageRecommendations 25 |}.
Proof.
  destruct (severity_tiers bill_change_25) as [H _].
  eapply H; [vm_compute; reflexivity|left; reflexivity].
Defined.

(** C2 as stated fails: a change of exactly 25 percent (125 kWh after 100)
    is emitted as [moderate], where the stated interval (15, 25] makes it
    [mild]. *)
Lemma severity_at_threshold_is_next_tier :
  exists a,
    detectUsageAnomalies bill_change_25 = Ok [ a ] /\
    Anomaly.impact a = 25 /\ Anomaly.severity a = moderate /\
    ~ tiers_as_stated thresholds_usage (Anomaly.impact a) (Anomaly.severity a).
Proof.
  eexists. split; [vm_compute; reflexivity|].
  split; [reflexivity|]. split; [reflexivity|].
  intros (H & _). cbn in H. discriminate H. split; reflexivity.
Qed.

(** *** Bills without a usable previous month *)

(** Without a truthy previous value the change is that of the current
    value against itself. *)
Lemma or_falsy (a b : value) : ToBoolean a = false -> or a b = b.
Proof. unfold or. now intros ->. Qed.

Lemma ToBoolean_zero (z : float) : (z =? 0) = true -> ToBoolean (number z) = false.
Proof. simpl. now intros ->. Qed.

Lemma self_change_no_anomaly (t : float) (current : value) :
  (0 <=? t) = true ->
  (t <? abs (percentChange current current)) = false.
Proof. intros Ht. unfold percentChange. now apply self_change_not_above. Qed.

Lemma usage_check_silent b u c :
  usage b = defined u -> comparisons b = defined c ->
  usagePrevious u c = totalKwh u ->
  detectUsageAnomalies b = Ok [].
Proof.
  intros Hu Hc Hp. unfold detectUsageAnomalies. rewrite Hu, Hc. cbn [get bind].
  unfold usageChange, Math_abs. rewrite Hp.
  now rewrite self_change_no_anomaly.
Qed.

Lemma cost_check_silent b ch c :
  charges b = defined ch -> comparisons b = defined c ->
  costPrevious ch c = totalAmount ch ->
  detectCostAnomalies b = Ok [].
Proof.
  intros Hch Hc Hp. unfold detectCostAnomalies. rewrite Hch, Hc. cbn [get bind].
  unfold costChange, Math_abs. rewrite Hp.
  now rewrite self_change_no_anomaly.
Qed.

(** The change of a value against itself: 0 for a non-zero finite number,
    [NaN] (a division of zero by zero, or a difference of infinities)
    for every other value. *)
Lemma self_change_cases (current : value) :
  let x := ToNumber current in
  if isFinite x && negb (x =? 0)
  then (percentChange current current =? 0) = true
  else is_nan (percentChange current current) = true.
Proof.
  cbv zeta. unfold percentChange.
  destruct (isFinite (ToNumber current) && negb (ToNumber current =? 0))%bool
    eqn:E.
  - apply andb_prop in E as [F N]. apply negb_true_iff in N.
    now apply self_change_zero.
  - unfold is_nan. rewrite FloatAxioms.eqb_spec, self_change_sf.
    revert E. unfold isFinite.
    rewrite ltb_spec, abs_spec, FloatAxioms.eqb_spec.
    destruct (Prim2SF (ToNumber current)) as [s|s| |s m e]; try reflexivity.
    intros E. exfalso. revert E. destruct s; discriminate.
Qed.

(** Without a previous month [detectAnomalies] returns no usage anomaly
    and no cost anomaly; it returns for every bill with a [usage] object,
    and for no other. *)
Lemma first_bill_checks_silent (b : BillData) :
  present (opt_obj (comparisons b) previousMonth) = false ->
  match detectAnomalies b with
  | Ok l =>
      present (usage b) = true /\
      forall a, In a l ->
        Anomaly.type a <> usage_anomaly /\ Anomaly.type a <> cost_anomaly
  | Throw _ => present (usage b) = false
  end.
Proof.
  intros Hpm.
  destruct (usage b) as [| |u] eqn:Hu.
  1,2: destruct (detectAnomalies_Throw b) as [e ->]; now rewrite ?Hu.
  destruct (detectAnomalies_Ok b u Hu) as (lu & lc & lp & _ & _ & _ & H).
  rewrite H. split; [reflexivity|]. intros a Ha.
  destruct (detectAnomalies_In b _ a H Ha)
    as [(l' & Hl & Hin)|[(l' & Hl & Hin)|(l' & Hl & Hin)]].
  - exfalso.
    destruct (detectUsageAnomalies_inv _ _ _ Hl Hin) as (u' & c & Hu' & Hc & _).
    rewrite Hc in Hpm. cbn [opt_obj] in Hpm.
    rewrite (usage_check_silent b u' c Hu' Hc) in Hl.
    + injection Hl as <-. destruct Hin.
    + unfold usagePrevious. apply or_falsy.
      destruct (previousMonth c); try discriminate; reflexivity.
  - exfalso.
    destruct (detectCostAnomalies_inv _ _ _ Hl Hin) as (ch & c & Hch & Hc & _).
    rewrite Hc in Hpm. cbn [opt_obj] in Hpm.
    rewrite (cost_check_silent b ch c Hch Hc) in Hl.
    + injection Hl as <-. destruct Hin.
    + unfold costPrevious. apply or_falsy.
      destruct (previousMonth c); try discriminate; reflexivity.
  - destruct (detectPatternAnomalies_inv _ _ _ Hl Hin) as (? & _ & _ & T & _).
    rewrite T. split; discriminate.
Qed.

(** C3, as the code has it.  When [comparisons.previousMonth] is absent
    (or [comparisons] itself is), [detectAnomalies] returns no usage
    anomaly and no cost anomaly; it returns for every bill with a [usage]
    object, and for no other.  In both checks the previous value falls
    back to the current one and the check reports nothing; the change is
    0 when the current value is a non-zero finite number and [NaN] when
    it is 0, missing or not finite. *)
Theorem first_bill_has_no_usage_or_cost_anomaly (b : BillData) :
  present (opt_obj (comparisons b) previousMonth) = false ->
  match detectAnomalies b with
  | Ok l =>
      present (usage b) = true /\
      forall a, In a l ->
        Anomaly.type a <> usage_anomaly /\ Anomaly.type a <> cost_anomaly
  | Throw _ => present (usage b) = false
  end /\
  (forall u c, usage b = defined u -> comparisons b = defined c ->
     usagePrevious u c = totalKwh u /\
     detectUsageAnomalies b = Ok [] /\
     let x := ToNumber (totalKwh u) in
     if isFinite x && negb (x =? 0)
     then (usageChange u c =? 0) = true
     else is_nan (usageChange u c) = true) /\
  (forall ch c, charges b = defined ch -> comparisons b = defined c ->
     costPrevious ch c = totalAmount ch /\
     detectCostAnomalies b = Ok [] /\
     let x := ToNumber (totalAmount ch) in
     if isFinite x && negb (x =? 0)
     then (costChange ch c =? 0) = true
     else is_nan (costChange ch c) = true).
Proof.
  intros Hpm. split; [now apply first_bill_checks_silent|]. split.
  - intros u c Hu Hc.
    assert (P : usagePrevious u c = totalKwh u).
    { rewrite Hc in Hpm. cbn [opt_obj] in Hpm.
      unfold usagePrevious. apply or_falsy.
      destruct (previousMonth c); try discriminate; reflexivity. }
    split; [exact P|]. split; [now apply (usage_check_silent b u c)|].
    unfold usageChange. rewrite P. apply self_change_cases.
  - intros ch c Hch Hc.
    assert (P : costPrevious ch c = totalAmount ch).
    { rewrite Hc in Hpm. cbn [opt_obj] in Hpm.
      unfold costPrevious. apply or_falsy.
      destruct (previousMonth c); try discriminate; reflexivity. }
    split; [exact P|]. split; [now apply (cost_check_silent b ch c)|].
    unfold costChange. rewrite P. apply self_change_cases.
Qed.

Lemma first_bill_has_no_usage_or_cost_anomaly_witness :
  let u := {| totalKwh := number 847; peakKwh := number 296;
              offPeakKwh := undefined; demandKw := undefined |} in
  let ch := {| totalAmount := number 190; baseCharge := undefined;
               energyCharges := undefined; deliveryCharges := undefined;
               taxes := undefined; fees := undefined;
               adjustments := undefined |} in
  let c := {| previousMonth := undefined; yearAgo := undefined |} in
  detectAnomalies bill_first = Ok [] /\
  detectUsageAnomalies bill_first = Ok [] /\
  (usageChange u c =? 0) = true /\
  detectCostAnomalies bill_first = Ok [] /\
  (costChange ch c =? 0) = true.
Proof.
  intros u ch c.
  destruct (first_bill_has_no_usage_or_cost_anomaly bill_first eq_refl)
    as (_ & U & C).
  destruct (U u c eq_refl eq_refl) as (_ & Du & Cu).
  destruct (C ch c eq_refl eq_refl) as (_ & Dc & Cc).
  split; [reflexivity|]. split; [exact Du|]. split; [exact Cu|].
  split; [exact Dc|exact Cc].
Defined.

(** C3 as stated fails: on a first bill with no usage the previous value
    falls back to 0, the division is of zero by zero and the change is
    [NaN], not 0. *)
Lemma first_bill_change_is_not_zero :
  ~ first_bill_as_stated bill_first_zero.
Proof.
  intros H. destruct (H eq_refl) as (_ & U & _).
  specialize (U {| totalKwh := number 0; peakKwh := number 0;
                   offPeakKwh := undefined; demandKw := undefined |}
                {| previousMonth := undefined; yearAgo := undefined |}
                eq_refl eq_refl).
  vm_compute in U. discriminate U.
Qed.

(** C10, as the code has it.  When [previousMonth.usage] (or [.amount]) is
    zero, the fallback substitutes the current value and no usage (or
    cost) anomaly is emitted.  When the current value is a non-zero finite
    number the change is 0 and the divisor is not zero. *)
Theorem zero_baseline_falls_back_to_current (b : BillData) (c : Comparisons)
  (pm : Snapshot.t) :
  comparisons b = defined c -> previousMonth c = defined pm ->
  (forall u z,
     usage b = defined u ->
     Snapshot.usage pm = number z -> (z =? 0) = true ->
     usagePrevious u c = totalKwh u /\
     detectUsageAnomalies b = Ok [] /\
     forall x, totalKwh u = number x -> isFinite x = true -> (x =? 0) = false ->
       (usageChange u c =? 0) = true /\
       (ToNumber (usagePrevious u c) =? 0) = false) /\
  (forall ch z,
     charges b = defined ch ->
     Snapshot.amount pm = number z -> (z =? 0) = true ->
     costPrevious ch c = totalAmount ch /\
     detectCostAnomalies b = Ok [] /\
     forall x, totalAmount ch = number x -> isFinite x = true -> (x =? 0) = false ->
       (costChange ch c =? 0) = true /\
       (ToNumber (costPrevious ch c) =? 0) = false).
Proof.
  intros Hc Hpm. split.
  - intros u z Hu Hz Z.
    assert (P : usagePrevious u c = totalKwh u).
    { unfold usagePrevious. rewrite Hpm. cbn [opt]. rewrite Hz.
      apply or_falsy, ToBoolean_zero, Z. }
    split; [exact P|]. split; [now apply (usage_check_silent b u c)|].
    intros x Hx Fx Nx. unfold usageChange. rewrite P, Hx.
    unfold percentChange. cbn [ToNumber number]. split; trivial.
    now apply self_change_zero.
  - intros ch z Hch Hz Z.
    assert (P : costPrevious ch c = totalAmount ch).
    { unfold costPrevious. rewrite Hpm. cbn [opt]. rewrite Hz.
      apply or_falsy, ToBoolean_zero, Z. }
    split; [exact P|]. split; [now apply (cost_check_silent b ch c)|].
    intros x Hx Fx Nx. unfold costChange. rewrite P, Hx.
    unfold percentChange. cbn [ToNumber number]. split; trivial.
    now apply self_change_zero.
Qed.

Lemma zero_baseline_falls_back_to_current_witness :
  let u := {| totalKwh := number 1200; peakKwh := undefined;
              offPeakKwh := undefined; demandKw := undefined |} in
  let c := {| previousMonth :=
                defined {| Snapshot.usage := number 0;
                           Snapshot.amount := number 0 |};
              yearAgo := undefined |} in
  detectUsageAnomalies bill_after_zero = Ok [] /\
  usagePrevious u c = number 1200 /\
  (usageChange u c =? 0) = true /\
  detectCostAnomalies bill_after_zero = Ok [].
Proof.
  intros u c.
  destruct (zero_baseline_falls_back_to_current bill_after_zero c
              {| Snapshot.usage := number 0; Snapshot.amount := number 0 |}
              eq_refl eq_refl) as [U C].
  destruct (U u 0%float eq_refl eq_refl eq_refl) as (P & D & X).
  destruct (X 1200%float eq_refl eq_refl eq_refl) as [Ch _].
  split; [exact D|]. split; [exact P|]. split; [exact Ch|].
  apply (C {| totalAmount := number 190; baseCharge := undefined;
              energyCharges := undefined; deliveryCharges := undefined;
              taxes := undefined; fees := undefined;
              adjustments := undefined |} 0%float);
    reflexivity.
Defined.

(** C10 as stated fails: when the current usage is 0 as well, the value
    substituted for the previous one is 0, the division is by zero and the
    change is [NaN], not 0. *)
Lemma zero_baseline_zero_current :
  ~ zero_baseline_as_stated bill_zero_usage.
Proof.
  intros H.
  destruct (H {| totalKwh := number 0; peakKwh := number 0;
                 offPeakKwh := undefined; demandKw := undefined |}
              {| previousMonth :=
                   defined {| Snapshot.usage := number 0;
                              Snapshot.amount := number 0 |};
                 yearAgo := undefined |}
              {| Snapshot.usage := number 0; Snapshot.amount := number 0 |}
              eq_refl eq_refl eq_refl eq_refl) as (_ & Hchange & _ & Hdiv).
  vm_compute in Hdiv. discriminate Hdiv.
Qed.

End Detector.

Example both_zero_values :
  let u := {| totalKwh := number 0; peakKwh := number 0;
              offPeakKwh := undefined; demandKw := undefined |} in
  let c := {| previousMonth :=
                defined {| Snapshot.usage := number 0;
                           Snapshot.amount := number 0 |};
              yearAgo := undefined |} in
  AnomalyDetector.usagePrevious u c = number 0 /\
  is_nan (AnomalyDetector.usageChange u c) = true /\
  AnomalyDetector.detectUsageAnomalies Spec.bill_zero_usage = Ok [].
Proof. repeat split. Qed.

(* ================================================================= *)
(** ** The predictive analyzer *)

Section Predictive.
Import PredictiveAnalyzer Spec.
Local Open Scope float_scope.

(** C4.  The trend is the fixed [0.02] when there is no previous month,
    and [(current - previous) / previous] of the amounts when there is one;
    for a bill of 200 after 100 the trend is 1 and [predictNextMonth]
    returns the amount 400 with confidence 0.85. *)
Theorem trend_and_next_month (b : BillData) :
  (present (opt_obj (comparisons b) previousMonth) = false ->
   calculateTrend b = Ok 0.02) /\
  (forall ch c pm,
     charges b = defined ch -> comparisons b = defined c ->
     previousMonth c = defined pm ->
     calculateTrend b
     = Ok ((ToNumber (totalAmount ch) - ToNumber (Snapshot.amount pm))
           / ToNumber (Snapshot.amount pm))) /\
  (forall u ch c pm,
     usage b = defined u -> charges b = defined ch ->
     comparisons b = defined c -> previousMonth c = defined pm ->
     totalAmount ch = number 200 -> Snapshot.amount pm = number 100 ->
     calculateTrend b = Ok 1 /\
     exists nm,
       predictNextMonth b = Ok nm /\
       NextMonth.amount nm = number 400 /\
       NextMonth.confidence nm = number 0.85).
Proof.
  assert (T : forall ch c pm,
            charges b = defined ch -> comparisons b = defined c ->
            previousMonth c = defined pm ->
            calculateTrend b
            = Ok ((ToNumber (totalAmount ch) - ToNumber (Snapshot.amount pm))
                  / ToNumber (Snapshot.amount pm))).
  { intros ch c pm Hch Hc Hpm. unfold calculateTrend.
    rewrite Hch, Hc. cbn [present opt_obj negb orb get bind].
    rewrite Hpm. reflexivity. }
  split; [|split; [exact T|]].
  - intros H. unfold calculateTrend.
    destruct (comparisons b) as [| |c]; try reflexivity.
    cbn [opt_obj] in *. rewrite H. reflexivity.
  - intros u ch c pm Hu Hch Hc Hpm Ht Ha.
    pose proof (T ch c pm Hch Hc Hpm) as E. rewrite Ht, Ha in E.
    split; [exact E|].
    unfold predictNextMonth. rewrite Hu, Hch, E. cbn [get bind]. rewrite Ht.
    eexists. split; [reflexivity|]. split; reflexivity.
Qed.

Lemma trend_and_next_month_witness :
  calculateTrend bill_first = Ok 0.02 /\
  calculateTrend bill_200_after_100 = Ok 1 /\
  exists nm,
    predictNextMonth bill_200_after_100 = Ok nm /\
    NextMonth.amount nm = number 400 /\
    NextMonth.confidence nm = number 0.85.
Proof.
  split.
  - apply (trend_and_next_month bill_first). reflexivity.
  - destruct (trend_and_next_month bill_200_after_100) as (_ & _ & H).
    apply (H {| totalKwh := number 847; peakKwh := undefined;
                offPeakKwh := undefined; demandKw := undefined |}
             {| totalAmount := number 200; baseCharge := undefined;
                energyCharges := undefined; deliveryCharges := undefined;
                taxes := undefined; fees := undefined;
                adjustments := undefined |}
             {| previousMonth :=
                  defined {| Snapshot.usage := number 654;
                             Snapshot.amount := number 100 |};
                yearAgo := undefined |}
             {| Snapshot.usage := number 654; Snapshot.amount := number 100 |});
      reflexivity.
Defined.

End Predictive.

(* ================================================================= *)
(** ** The pattern analyzer *)

Section Patterns.
Import PatternAnalyzer Spec.
Local Open Scope float_scope.

(** C5, as the code has it.  With [usage.totalKwh] zero, and the [usage]
    and [charges] objects present, the usage-pattern analysis and the
    efficiency computation do not throw and the daily average is 0; the
    peak ratio, the off-peak ratio and the efficiency are divisions by
    zero, so each is [NaN] or an infinity, never 0. *)
Theorem zero_usage_divides_by_zero (b : BillData) (u : Usage) (ch : Charges)
  (z : float) :
  usage b = defined u -> charges b = defined ch ->
  totalKwh u = number z -> (z =? 0) = true ->
  exists p x,
    analyzeUsagePatterns b = Ok p /\
    calculateEfficiency b = Ok (EfficiencyNumber x) /\
    UsagePatterns.efficiency p = EfficiencyNumber x /\
    (UsagePatterns.dailyAverage p =? 0) = true /\
    isFinite (UsagePatterns.peakRatio p) = false /\
    isFinite (UsagePatterns.offPeakRatio p) = false /\
    isFinite x = false.
Proof.
  intros Hu Hch Ht Z.
  assert (E : calculateEfficiency b
              = Ok (EfficiencyNumber (ToNumber (totalAmount ch) / z))).
  { unfold calculateEfficiency. rewrite Hu, Hch. cbn [present get bind].
    now rewrite Ht. }
  assert (T : exists t, calculateUsageTrend b = Ok t).
  { unfold calculateUsageTrend. rewrite Hu.
    destruct (comparisons b) as [| |c]; cbn [present opt_obj negb orb]; eauto.
    destruct (previousMonth c) eqn:Hpm; cbn [present negb get bind];
      rewrite ?Hpm; cbn [get bind]; eauto. }
  destruct T as [t T].
  unfold analyzeUsagePatterns. rewrite Hu, E, T. cbn [get bind]. rewrite Ht.
  do 2 eexists. split; [reflexivity|]. split; [reflexivity|].
  cbn [UsagePatterns.efficiency UsagePatterns.dailyAverage
       UsagePatterns.peakRatio UsagePatterns.offPeakRatio ToNumber number].
  split; [reflexivity|]. split; [now apply zero_div_30|].
  split; [now apply div_zero_percent_not_finite|].
  split; [now apply div_zero_percent_not_finite|].
  now apply div_zero_not_finite.
Qed.

Lemma zero_usage_divides_by_zero_witness :
  exists p x,
    analyzeUsagePatterns bill_zero_usage = Ok p /\
    calculateEfficiency bill_zero_usage = Ok (EfficiencyNumber x) /\
    UsagePatterns.efficiency p = EfficiencyNumber x /\
    (UsagePatterns.dailyAverage p =? 0) = true /\
    isFinite (UsagePatterns.peakRatio p) = false /\
    isFinite (UsagePatterns.offPeakRatio p) = false /\
    isFinite x = false.
Proof.
  apply (zero_usage_divides_by_zero bill_zero_usage
           {| totalKwh := number 0; peakKwh := number 0;
              offPeakKwh := undefined; demandKw := undefined |}
           {| totalAmount := number 25; baseCharge := undefined;
              energyCharges := undefined; deliveryCharges := undefined;
              taxes := undefined; fees := undefined;
              adjustments := undefined |}
           0%float);
    reflexivity.
Defined.

(** C5 as stated fails: for a bill with no usage at all the ratios are
    [NaN] and the efficiency is infinite. *)
Lemma zero_usage_ratios_are_not_numbers :
  ~ zero_usage_as_stated bill_zero_usage.
Proof.
  intros (p & x & Hp & _ & Hpeak & _).
  vm_compute in Hp. injection Hp as <-.
  vm_compute in Hpeak. discriminate Hpeak.
Qed.

Example zero_usage_values :
  exists p,
    analyzeUsagePatterns bill_zero_usage = Ok p /\
    is_nan (UsagePatterns.peakRatio p) = true /\
    is_nan (UsagePatterns.offPeakRatio p) = true /\
    UsagePatterns.dailyAverage p = 0 /\
    UsagePatterns.efficiency p = EfficiencyNumber infinity.
Proof. eexists. repeat split. Qed.

End Patterns.

(* ================================================================= *)
(** ** The recommendation engine *)

Section Engine.
Import RecommendationEngine Spec.
Local Open Scope float_scope.

(** C9.  For a forecast whose next-month amount is a finite non-negative
    number, [generatePredictiveRecommendations] never emits the budgeting
    recommendation 'Prepare for Higher Bills': its gate compares the
    amount with 1.1 times itself. *)
Theorem budgeting_gate_never_opens (predictions : Predictions)
  (nm : NextMonth.t) (x : float) :
  nextMonth predictions = defined nm -> NextMonth.amount nm = number x ->
  isFinite x = true -> (0 <=? x) = true ->
  forall r, In r (generatePredictiveRecommendations predictions) ->
            is_budgeting r = false.
Proof.
  intros Hnm Hx Fx Px r. unfold generatePredictiveRecommendations.
  rewrite Hnm. cbn [present opt andb]. rewrite Hx. cbn [ToNumber number].
  rewrite (mul_11_not_less x Px Fx). cbn [app].
  destruct (seasonal predictions) as [| |entries]; try (intros []).
  destruct (0 <? List.length _)%nat; [|intros []].
  intros [<-|[]]. reflexivity.
Qed.

Lemma budgeting_gate_never_opens_witness :
  Forall (fun r => is_budgeting r = false)
         (generatePredictiveRecommendations (forecast 400)).
Proof.
  apply Forall_forall.
  apply (budgeting_gate_never_opens (forecast 400)
           {| NextMonth.usage := number 900; NextMonth.amount := number 400;
              NextMonth.confidence := number 0.85; NextMonth.factors := [] |}
           400);
    reflexivity.
Defined.

(** The gate is not dead code for every number: a negative amount opens it. *)
Example budgeting_gate_opens_below_zero :
  exists r, In r (generatePredictiveRecommendations (forecast (-100))) /\
            is_budgeting r = true.
Proof. eexists. split; [left; reflexivity|reflexivity]. Qed.

(** A comparator that never puts one element strictly after another
    leaves the array as it is. *)
Lemma Array_sort_unordered {A} (cmp : A -> A -> float) (l : list A) :
  (forall x y, In x l -> In y l -> (0 <? cmp x y) = false) ->
  Array_sort cmp l = l.
Proof.
  induction l as [|x l IH]; intros H; simpl; trivial.
  rewrite IH by (intros; apply H; simpl; auto).
  destruct l as [|y l]; simpl; trivial.
  now rewrite H by (simpl; auto).
Qed.

(** The comparator on a recommendation that inherited a severity: the
    priority difference is [NaN], and that is what it returns. *)
Lemma compare_inherited (a b : Recommendation.t) (s : Severity) :
  Recommendation.priority a = inherited s \/
  Recommendation.priority b = inherited s ->
  (0 <? compareRecommendations a b) = false.
Proof.
  unfold compareRecommendations.
  intros [H|H]; rewrite H; cbn [priorityOrder ToNumber].
  - destruct (sub_nan_r_unordered
                (ToNumber (priorityOrder (Recommendation.priority b))))
      as [L E].
    now rewrite E.
  - destruct (sub_nan_l_unordered
                (ToNumber (priorityOrder (Recommendation.priority a))))
      as [L E].
    now rewrite E.
Qed.

(** Whatever the anomalies, the [immediate] bucket is the list of their
    recommendations in the order the anomalies came in. *)
Lemma immediate_bucket_keeps_input_order (b : BillData)
  (anomalies : list Anomaly.t) (predictions : Field Predictions)
  (recs : Recommendations) :
  generateRecommendations b (defined anomalies) predictions = Ok recs ->
  immediate recs = generateAnomalyRecommendations anomalies.
Proof.
  unfold generateRecommendations.
  destruct (if present (usage b) then _ else _) as [st|]; [|discriminate].
  destruct (if present (charges b) then _ else _) as [lt|]; [|discriminate].
  cbn [bind]. intros [= <-]. cbn [immediate prioritizeRecommendations].
  assert (E : (if (0 <? List.length anomalies)%nat
               then generateAnomalyRecommendations anomalies else [])
              = generateAnomalyRecommendations anomalies)
    by now destruct anomalies.
  rewrite E. apply Array_sort_unordered.
  intros x y Hx _. unfold generateAnomalyRecommendations in Hx.
  apply in_map_iff in Hx as (an & <- & _).
  apply (compare_inherited _ _ (Anomaly.severity an)). now left.
Qed.

(** C6 fails on the [immediate] bucket.  For a bill of 1500 kWh after 1000
    and 350 after 200 the detector returns two [severe] anomalies, and the
    bucket keeps them in detection order, savings 12.5 before 18.75:
    [priorityOrder] has no entry for a severity, so the comparator is [NaN]
    for every pair and never reaches the savings. *)
Theorem immediate_bucket_is_left_unsorted (predictions : Field Predictions) :
  exists anomalies recs,
    AnomalyDetector.detectAnomalies bill_two_severe = Ok anomalies /\
    generateRecommendations bill_two_severe (defined anomalies) predictions
    = Ok recs /\
    map Recommendation.priority (immediate recs)
    = [ inherited severe; inherited severe ] /\
    map Recommendation.savings (immediate recs) = [ 12.5; 18.75 ] /\
    forall rank, ~ sorted_bucket rank (immediate recs).
Proof.
  destruct predictions as [| |p];
    (do 2 eexists; split; [vm_compute; reflexivity|];
     split; [reflexivity|]; split; [reflexivity|]; split; [reflexivity|];
     intros rank S;
     edestruct (S 0%nat) as [H|[_ H]];
     [reflexivity|reflexivity|cbn in H; lia|vm_compute in H; discriminate H]).
Qed.

(** On the same bill the [longTerm] bucket, whose priorities are keys of
    [priorityOrder], is sorted: the insulation assessment (low, 52.5) moves
    ahead of the appliance review (low, 28). *)
Example long_term_bucket_is_sorted :
  exists recs,
    generateRecommendations bill_two_severe undefined undefined = Ok recs /\
    map Recommendation.title (longTerm recs)
    = [ "Rate Plan Analysis"%string; "Home Insulation Assessment"%string;
        "Appliance Efficiency Review"%string ] /\
    map Recommendation.priority (longTerm recs) = [ medium; low; low ] /\
    map Recommendation.savings (longTerm recs) = [ 35; 52.5; 28 ].
Proof. eexists. repeat split. Qed.

End Engine.

(* ================================================================= *)
(** ** The model on the specification's scenarios *)

Section Scenarios.
Import Spec.
Local Open Scope float_scope.

Example Math_round_ties_up :
  Math_round 2.5 = 3 /\ Math_round (-1.5) = -1 /\ Math_round (-0.5) = neg_zero /\
  Math_round 0.49999999999999994 = 0 /\ Math_round 40000 = 40000 /\
  Math_round 123456.7 = 123457 /\ is_nan (Math_round nan) = true.
Proof. repeat split. Qed.

Example Array_sort_is_stable :
  Array_sort (fun a b => fst b - fst a)
             [ (1, "a"); (3, "b"); (1, "c"); (3, "d"); (2, "e") ]%string
  = [ (3, "b"); (3, "d"); (2, "e"); (1, "a"); (1, "c") ]%string.
Proof. reflexivity. Qed.

(** 1200 kWh after 847 kWh: a severe usage anomaly titled as an increase,
    and the efficiency audit in the short-term bucket. *)
Example usage_1200_after_847 :
  let b := bill (usageOf (number 1200) undefined) (chargesOf (number 190))
                (previousMonthOf (number 847) undefined) in
  exists a recs,
    AnomalyDetector.detectAnomalies b = Ok [ a ] /\
    Anomaly.type a = usage_anomaly /\ Anomaly.severity a = severe /\
    Anomaly.title a = "Increased Usage Pattern"%string /\
    RecommendationEngine.generateRecommendations b (defined [ a ]) undefined
    = Ok recs /\
    map Recommendation.title (shortTerm recs)
    = [ "Energy Efficiency Audit"%string;
        "Smart Thermostat Installation"%string ].
Proof. do 2 eexists. repeat split. Qed.

(** Sub-charges that sum to the total raise no warning; the default
    record, whose five summed sub-charges come to 154.33 of 190, does. *)
Example validation_warning :
  let summing :=
    bill undefined
         (defined {| totalAmount := number 190; baseCharge := number 25;
                     energyCharges := number 125; deliveryCharges := number 20;
                     taxes := number 12; fees := number 8;
                     adjustments := number 0 |})
         undefined in
  validationWarnings (DocumentProcessor.validateAndEnhanceData summing)
  = undefined /\
  validationWarnings
    (DocumentProcessor.validateAndEnhanceData
       DocumentProcessor.generateMockStructuredData)
  = defined [ "Total amount calculation discrepancy detected"%string ].
Proof. split; reflexivity. Qed.

End Scenarios.

(* ================================================================= *)
(** ** More binary64 order facts *)

Section FloatOrder.
Import Binary64.
Local Open Scope float_scope.

Lemma lt3_trans a b c : lt3 a b -> lt3 b c -> lt3 a c.
Proof.
  unfold lt3. intros H1 H2.
  pose proof (lex3_spec a b) as Sab. pose proof (lex3_spec b c) as Sbc.
  pose proof (lex3_spec a c) as Sac.
  destruct a as [[a1 a2] a3], b as [[b1 b2] b3], c as [[c1 c2] c3].
  rewrite H1 in Sab. rewrite H2 in Sbc.
  destruct (lex3 (a1, a2, a3) (c1, c2, c3)); trivial;
    try (inversion Sac; subst); lia.
Qed.

Lemma ltb_trans x y z :
  (x <? y) = true -> (y <? z) = true -> (x <? z) = true.
Proof.
  intros H1 H2.
  destruct (ltb_numeric _ _ H1) as [Nx Ny], (ltb_numeric _ _ H2) as [_ Nz].
  rewrite ltb_key in * by assumption. eapply lt3_trans; eassumption.
Qed.

(** An operand that is [NaN] makes the result [NaN]. *)
Lemma is_nan_sf x : Prim2SF x = S754_nan -> x = nan.
Proof.
  intros H. rewrite <- (SF2Prim_Prim2SF x), H. reflexivity.
Qed.

Lemma sub_nan_r x : x - nan = nan.
Proof.
  apply is_nan_sf. rewrite sub_spec. change (Prim2SF nan) with S754_nan.
  apply sub_nan_sf.
Qed.

Lemma add_nan_r x : x + nan = nan.
Proof.
  apply is_nan_sf. rewrite add_spec. change (Prim2SF nan) with S754_nan.
  destruct (Prim2SF x); reflexivity.
Qed.

Lemma mul_nan_l x : nan * x = nan.
Proof.
  apply is_nan_sf. rewrite mul_spec. change (Prim2SF nan) with S754_nan.
  destruct (Prim2SF x); reflexivity.
Qed.

Lemma div_nan_l x : nan / x = nan.
Proof.
  apply is_nan_sf. rewrite div_spec. change (Prim2SF nan) with S754_nan.
  destruct (Prim2SF x); reflexivity.
Qed.

Lemma div_nan_r x : x / nan = nan.
Proof.
  apply is_nan_sf. rewrite div_spec. change (Prim2SF nan) with S754_nan.
  destruct (Prim2SF x); reflexivity.
Qed.

(** A number that is falsy is [NaN], [+0] or [-0]. *)
Lemma SFeqb_refl s : is_number s = true -> SFeqb s s = true.
Proof.
  destruct s as [b|b| |b m e]; try discriminate; intros _;
    try (destruct b; reflexivity).
  unfold SFeqb, SFcompare. rewrite Z.compare_refl.
  destruct b; [rewrite Pos.compare_cont_refl|rewrite Pos.compare_refl];
    reflexivity.
Qed.

Lemma is_nan_eq z : is_nan z = true -> z = nan.
Proof.
  unfold is_nan. intros H. apply negb_true_iff in H.
  rewrite FloatAxioms.eqb_spec in H. apply is_nan_sf.
  destruct (Prim2SF z) as [s|s| |s m e] eqn:E; trivial;
    rewrite SFeqb_refl in H by reflexivity; discriminate.
Qed.

Lemma falsy_cases z :
  ToBoolean (number z) = false -> z = nan \/ z = 0 \/ z = -0.
Proof.
  unfold ToBoolean, number. intros H.
  destruct (z =? 0) eqn:Z0.
  - destruct (eqb_zero_sf z Z0) as [s E]. right.
    rewrite <- (SF2Prim_Prim2SF z), E. destruct s; auto.
  - left. cbn in H. apply negb_false_iff in H. now apply is_nan_eq.
Qed.

End FloatOrder.

(* ================================================================= *)
(** ** The anomaly detector: what it returns *)

Section DetectorOutput.
Import AnomalyDetector Spec Props.
Local Open Scope float_scope.

Lemma insert_Permutation {A} (cmp : A -> A -> float) (x : A) (l : list A) :
  Permutation (insert cmp x l) (x :: l).
Proof.
  induction l as [|y l IH]; simpl; [reflexivity|].
  destruct (0 <? cmp x y); [|reflexivity].
  rewrite IH. apply perm_swap.
Qed.

Lemma Array_sort_Permutation {A} (cmp : A -> A -> float) (l : list A) :
  Permutation (Array_sort cmp l) l.
Proof.
  induction l as [|x l IH]; simpl; [reflexivity|].
  rewrite insert_Permutation. now constructor.
Qed.

(** The three checks each report at most one anomaly, of their own type. *)
Lemma detectUsageAnomalies_shape b l :
  detectUsageAnomalies b = Ok l ->
  l = [] \/ exists a, l = [a] /\ Anomaly.type a = usage_anomaly.
Proof.
  unfold detectUsageAnomalies.
  destruct (usage b) as [| |u]; try discriminate.
  destruct (comparisons b) as [| |c]; try discriminate.
  cbn [get bind]. intros [= <-].
  destruct (_ <? _); [right; eexists; split; reflexivity | now left].
Qed.

Lemma detectCostAnomalies_shape b l :
  detectCostAnomalies b = Ok l ->
  l = [] \/ exists a, l = [a] /\ Anomaly.type a = cost_anomaly.
Proof.
  unfold detectCostAnomalies.
  destruct (charges b) as [| |ch]; try discriminate.
  destruct (comparisons b) as [| |c]; try discriminate.
  cbn [get bind]. intros [= <-].
  destruct (_ <? _); [right; eexists; split; reflexivity | now left].
Qed.

Lemma detectPatternAnomalies_shape b l :
  detectPatternAnomalies b = Ok l ->
  l = [] \/ exists a, l = [a] /\ Anomaly.type a = peak_usage_anomaly.
Proof.
  unfold detectPatternAnomalies.
  destruct (usage b) as [| |u]; try discriminate.
  cbn [get bind]. intros [= <-].
  destruct (_ && _)%bool; [|now left].
  destruct (40 <? _); [right; eexists; split; reflexivity | now left].
Qed.

(** Without a [usage] object the error [detectAnomalies] throws is the
    [TypeError] of reading a property of the missing object. *)
Lemma detectAnomalies_TypeError b :
  present (usage b) = false ->
  exists m, detectAnomalies b = Throw (TypeError m).
Proof.
  intros Hu. unfold detectAnomalies, detectCostAnomalies, detectPatternAnomalies.
  destruct (usage b) as [| |u]; try discriminate; cbn [present get bind andb];
    destruct (present (charges b) && present (comparisons b))%bool eqn:E;
    cbn [bind]; eauto;
    apply andb_prop in E as [E1 E2];
    destruct (charges b); try discriminate; destruct (comparisons b);
    try discriminate; cbn [get bind]; eauto.
Qed.

(** [detectAnomalies] returns for exactly the bills that have a [usage]
    object; for every other bill it throws a [TypeError], also when there
    is nothing else to look at. *)
Theorem detectAnomalies_returns_iff_usage (b : BillData) :
  ((exists l, detectAnomalies b = Ok l) <-> present (usage b) = true) /\
  (present (usage b) = false ->
   exists m, detectAnomalies b = Throw (TypeError m)).
Proof.
  split; [split|apply detectAnomalies_TypeError].
  - intros [l H]. destruct (present (usage b)) eqn:E; trivial.
    destruct (detectAnomalies_TypeError b E) as [m He]. congruence.
  - destruct (usage b) as [| |u] eqn:E; try discriminate. intros _.
    destruct (detectAnomalies_Ok b u E) as (lu & lc & lp & _ & _ & _ & H).
    eauto.
Qed.

(** What [detectAnomalies] returns is in descending severity, and holds at
    most one anomaly of each type, so at most three. *)
Theorem detectAnomalies_sorted_one_per_type (b : BillData) (l : list Anomaly.t) :
  detectAnomalies b = Ok l ->
  StronglySorted
    (fun x y => (severityRank (Anomaly.severity y)
                 <= severityRank (Anomaly.severity x))%nat) l /\
  NoDup (map Anomaly.type l) /\
  (List.length l <= 3)%nat.
Proof.
  intros H.
  destruct (usage b) as [| |u] eqn:Hu.
  1,2: destruct (detectAnomalies_Throw b) as [e He];
       [now rewrite Hu | congruence].
  destruct (detectAnomalies_Ok b u Hu) as (lu & lc & lp & H1 & H2 & H3 & H4).
  rewrite H4 in H. injection H as <-.
  split; [apply prioritizeAnomalies_sorted|].
  assert (Su : lu = [] \/ exists a, lu = [a] /\ Anomaly.type a = usage_anomaly).
  { destruct (present (comparisons b)); [|now left].
    now apply (detectUsageAnomalies_shape b). }
  assert (Sc : lc = [] \/ exists a, lc = [a] /\ Anomaly.type a = cost_anomaly).
  { destruct (present (charges b) && present (comparisons b))%bool; [|now left].
    now apply (detectCostAnomalies_shape b). }
  pose proof (detectPatternAnomalies_shape b lp H3) as Sp.
  pose proof (Array_sort_Permutation
                (fun x y => severityOrder (Anomaly.severity y)
                            - severityOrder (Anomaly.severity x))
                (lu ++ lc ++ lp)) as P.
  fold (prioritizeAnomalies (lu ++ lc ++ lp)) in P.
  split.
  - apply (Permutation_NoDup (l := map Anomaly.type (lu ++ lc ++ lp))).
    + symmetry. now apply Permutation_map.
    + destruct Su as [->|(au & -> & Tu)], Sc as [->|(ac & -> & Tc)],
        Sp as [->|(ap & -> & Tp)]; cbn [app map]; rewrite ?Tu, ?Tc, ?Tp;
        repeat constructor; cbn [In]; intuition discriminate.
  - rewrite (Permutation_length P).
    destruct Su as [->|(au & -> & Tu)], Sc as [->|(ac & -> & Tc)],
      Sp as [->|(ap & -> & Tp)]; cbn; lia.
Qed.

Lemma detectAnomalies_sorted_one_per_type_witness :
  exists l,
    detectAnomalies bill_two_severe = Ok l /\
    StronglySorted
      (fun x y => (severityRank (Anomaly.severity y)
                   <= severityRank (Anomaly.severity x))%nat) l /\
    NoDup (map Anomaly.type l) /\
    (List.length l <= 3)%nat.
Proof.
  eexists. split.
  - vm_compute. reflexivity.
  - apply (detectAnomalies_sorted_one_per_type bill_two_severe).
    vm_compute. reflexivity.
Defined.

(** Inserting an anomaly moves it behind strictly more severe ones only, so
    it leaves the anomalies of each severity in their order. *)
Lemma filter_insert_severity (s : Severity) (x : Anomaly.t) (l : list Anomaly.t) :
  let p := fun a => Severity_eqb (Anomaly.severity a) s in
  filter p
    (insert (fun a b => severityOrder (Anomaly.severity b)
                        - severityOrder (Anomaly.severity a)) x l)
  = filter p (x :: l).
Proof.
  intros p. induction l as [|y l IH]; [reflexivity|].
  cbn [insert]. rewrite severity_comparator.
  destruct (Nat.ltb_spec (severityRank (Anomaly.severity x))
                         (severityRank (Anomaly.severity y))) as [Lt|Ge];
    [|reflexivity].
  cbn [filter] in *. rewrite IH. unfold p.
  destruct (Anomaly.severity x), (Anomaly.severity y), s; cbn in *;
    try reflexivity; lia.
Qed.

(** [prioritizeAnomalies] is stable: the anomalies of one severity keep
    the order in which the checks reported them. *)
Theorem prioritizeAnomalies_stable (s : Severity) (l : list Anomaly.t) :
  filter (fun a => Severity_eqb (Anomaly.severity a) s) (prioritizeAnomalies l)
  = filter (fun a => Severity_eqb (Anomaly.severity a) s) l.
Proof.
  unfold prioritizeAnomalies. induction l as [|x l IH]; [reflexivity|].
  cbn [Array_sort fold_right].
  pose proof (filter_insert_severity s x
                (fold_right
                   (insert (fun a b => severityOrder (Anomaly.severity b)
                                       - severityOrder (Anomaly.severity a)))
                   [] l)) as F.
  cbv zeta in F. rewrite F. cbn [filter].
  unfold Array_sort in IH. now rewrite IH.
Qed.

End DetectorOutput.

(* ================================================================= *)
(** ** The analyzers: when they return and how they fit together *)

Section Analyzers.
Import AnomalyDetector PredictiveAnalyzer RecommendationEngine DocumentProcessor.
Import Spec Props.
Local Open Scope string_scope.
Local Open Scope float_scope.

(** Where the detector reports a peak-usage anomaly (peak ratio above 40)
    the recommendation engine, whose own threshold is 35, advises
    ["Peak Usage Optimization"] for the same bill. *)
Theorem peak_anomaly_brings_peak_recommendation
  (b : BillData) (l : list Anomaly.t) (a : Anomaly.t) (ch : Charges) :
  detectAnomalies b = Ok l -> In a l ->
  Anomaly.type a = peak_usage_anomaly ->
  charges b = defined ch ->
  exists rs r,
    generateUsageRecommendations b = Ok rs /\ In r rs /\
    Recommendation.title r = "Peak Usage Optimization" /\
    Recommendation.priority r = medium /\
    Recommendation.savings r = ToNumber (totalAmount ch) * 0.15.
Proof.
  intros H Ha Ta Hch.
  destruct (detectAnomalies_In b l a H Ha) as [(lu & Hu & Iu)|[(lc & Hc & Ic)|(lp & Hp & Ip)]].
  - destruct (detectUsageAnomalies_inv b lu a Hu Iu) as (? & ? & _ & _ & _ & T & _).
    congruence.
  - destruct (detectCostAnomalies_inv b lc a Hc Ic) as (? & ? & _ & _ & _ & T & _).
    congruence.
  - revert Hp. unfold detectPatternAnomalies, generateUsageRecommendations.
    destruct (usage b) as [| |u]; try discriminate.
    rewrite Hch. cbn [get bind]. intros [= <-].
    destruct (ToBoolean (peakKwh u) && ToBoolean (totalKwh u))%bool;
      [|destruct Ip].
    cbv zeta in Ip.
    destruct (40 <? ToNumber (peakKwh u) / ToNumber (totalKwh u) * 100) eqn:E;
      [|destruct Ip].
    assert (E35 : (35 <? ToNumber (peakKwh u) / ToNumber (totalKwh u) * 100) = true).
    { apply (ltb_trans _ 40); [reflexivity|exact E]. }
    rewrite E35.
    destruct (1000 <? ToNumber (totalKwh u)); cbn [bind app];
      do 2 eexists; (split; [reflexivity|]).
    + split; [right; left; reflexivity|]. repeat split.
    + split; [left; reflexivity|]. repeat split.
Qed.

Lemma peak_anomaly_brings_peak_recommendation_witness :
  let ch := {| totalAmount := number 200; baseCharge := undefined;
               energyCharges := undefined; deliveryCharges := undefined;
               taxes := undefined; fees := undefined;
               adjustments := undefined |} in
  let b := bill (usageOf (number 1000) (number 500)) (defined ch) undefined in
  exists rs r,
    generateUsageRecommendations b = Ok rs /\ In r rs /\
    Recommendation.title r = "Peak Usage Optimization" /\
    Recommendation.priority r = medium /\
    Recommendation.savings r = ToNumber (totalAmount ch) * 0.15.
Proof.
  intros ch b.
  eapply (peak_anomaly_brings_peak_recommendation b _ _ ch).
  - vm_compute. reflexivity.
  - left. reflexivity.
  - reflexivity.
  - reflexivity.
Defined.

(** [generatePredictions] returns for exactly the bills with a [usage] and
    a [charges] object, whatever the month; for every other bill it throws
    a [TypeError]. *)
Theorem generatePredictions_returns_iff (currentMonth : Z) (b : BillData) :
  ((exists p, generatePredictions currentMonth b = Ok p)
   <-> (present (usage b) && present (charges b))%bool = true) /\
  ((present (usage b) && present (charges b))%bool = false ->
   exists m, generatePredictions currentMonth b = Throw (TypeError m)).
Proof.
  unfold generatePredictions, predictNextMonth, predictQuarterly, predictAnnual,
    predictSeasonal, calculateTrend.
  destruct (usage b) as [| |u]; cbn [present get bind andb];
    try (split; [split; [intros [p H]; discriminate H | discriminate]
                |intros _; eexists; reflexivity]).
  destruct (charges b) as [| |ch]; cbn [present get bind andb];
    try (split; [split; [intros [p H]; discriminate H | discriminate]
                |intros _; eexists; reflexivity]).
  split; [|discriminate]. split; [reflexivity|intros _].
  destruct (comparisons b) as [| |c]; cbn [present opt_obj negb orb get bind];
    eauto.
  destruct (previousMonth c) as [| |pm]; cbn [present negb get bind]; eauto.
Qed.

(** [generateRecommendations] throws for exactly the bills with a [usage]
    object and no [charges] object, whatever the anomalies and the
    predictions. *)
Theorem generateRecommendations_returns_iff
  (b : BillData) (anomalies : Field (list Anomaly.t))
  (predictions : Field Predictions) :
  (exists r, generateRecommendations b anomalies predictions = Ok r)
  <-> (negb (present (usage b)) || present (charges b))%bool = true.
Proof.
  unfold generateRecommendations, generateUsageRecommendations,
    generateCostOptimizationRecommendations.
  destruct (usage b) as [| |u], (charges b) as [| |ch];
    cbn [present get bind negb orb];
    try (split; [reflexivity|intros _; eauto]).
  1,2: destruct (1000 <? ToNumber (totalKwh u)); cbn [get bind];
       (split; [intros [r H]; try discriminate H|discriminate]).
  1,2: revert H;
       destruct (ToBoolean (peakKwh u) && ToBoolean (totalKwh u))%bool;
       try destruct (35 <? _); discriminate.
  destruct (1000 <? ToNumber (totalKwh u)); cbn [get bind];
    destruct (ToBoolean (peakKwh u) && ToBoolean (totalKwh u))%bool;
    try destruct (35 <? _); cbn [get bind]; eauto.
Qed.

(** Whatever the bill and the month, the advice drawn from the generated
    predictions ends with the seasonal preparation for winter and
    summer: the two seasons whose factor is above 1.2. *)
Theorem predictions_bring_seasonal_preparation
  (currentMonth : Z) (b : BillData) (p : Predictions) :
  generatePredictions currentMonth b = Ok p ->
  exists before r,
    generatePredictiveRecommendations p = (before ++ [ r ])%list /\
    Recommendation.title r = "Seasonal Usage Preparation" /\
    Recommendation.description r
    = Str "Prepare for higher usage during winter, summer" /\
    Recommendation.priority r = low.
Proof.
  unfold generatePredictions, predictNextMonth, predictQuarterly, predictAnnual,
    predictSeasonal.
  destruct (usage b) as [| |u]; try discriminate.
  destruct (charges b) as [| |ch]; try discriminate.
  cbn [get bind].
  destruct (calculateTrend _) as [t|e]; try discriminate.
  cbn [get bind]. intros [= <-].
  unfold generatePredictiveRecommendations. cbn [seasonal nextMonth].
  do 2 eexists. split; [reflexivity|]. repeat split.
Qed.

Lemma predictions_bring_seasonal_preparation_witness :
  exists p before r,
    generatePredictions 0 bill_first = Ok p /\
    generatePredictiveRecommendations p = (before ++ [ r ])%list /\
    Recommendation.title r = "Seasonal Usage Preparation" /\
    Recommendation.description r
    = Str "Prepare for higher usage during winter, summer" /\
    Recommendation.priority r = low.
Proof.
  eexists.
  destruct (predictions_bring_seasonal_preparation 0 bill_first _ eq_refl)
    as (before & r & H).
  exists before, r. split; [reflexivity|exact H].
Defined.

(** A record that went through [validateAndEnhanceData] has a [usage]
    and a [charges] object, which is all the detector, the predictor and
    the recommendation engine need. *)
Lemma validated_detect_Ok (data : BillData) :
  exists l, detectAnomalies (validateAndEnhanceData data) = Ok l.
Proof.
  destruct (detectAnomalies_Ok (validateAndEnhanceData data) _ eq_refl)
    as (lu & lc & lp & _ & _ & _ & H).
  eauto.
Qed.

Lemma validated_predict_Ok (currentMonth : Z) (data : BillData) :
  exists p, generatePredictions currentMonth (validateAndEnhanceData data) = Ok p.
Proof.
  unfold generatePredictions, predictNextMonth, predictQuarterly,
    predictAnnual, predictSeasonal, calculateTrend.
  cbn [validateAndEnhanceData usage charges get bind comparisons].
  destruct (comparisons data) as [| |c]; cbn [present opt_obj negb orb get bind];
    eauto.
  destruct (previousMonth c) as [| |pm]; cbn [present negb get bind]; eauto.
Qed.

Lemma validated_recommend_Ok (data : BillData)
  (anomalies : Field (list Anomaly.t)) (predictions : Field Predictions) :
  exists r,
    generateRecommendations (validateAndEnhanceData data) anomalies predictions
    = Ok r.
Proof.
  unfold generateRecommendations, generateUsageRecommendations,
    generateCostOptimizationRecommendations.
  cbn [validateAndEnhanceData usage charges present get bind].
  destruct (1000 <? _); cbn [get bind];
    destruct (ToBoolean _ && ToBoolean _)%bool;
    try destruct (35 <? _); cbn [get bind]; eauto.
Qed.

(** So none of the three throws on a validated record, whatever record
    went in. *)
Theorem validated_record_is_analysed (currentMonth : Z) (data : BillData)
  (anomalies : Field (list Anomaly.t)) (predictions : Field Predictions) :
  let b := validateAndEnhanceData data in
  (exists l, detectAnomalies b = Ok l) /\
  (exists p, generatePredictions currentMonth b = Ok p) /\
  (exists r, generateRecommendations b anomalies predictions = Ok r).
Proof.
  intros b. split; [|split].
  - apply validated_detect_Ok.
  - apply validated_predict_Ok.
  - apply validated_recommend_Ok.
Qed.

(** The detector and the pattern analyzer agree on the month-over-month
    change whenever the previous month's figure is truthy: the detector's
    fallback to the current figure is the only difference. *)
Theorem detector_and_analyzer_agree_on_change
  (b : BillData) (u : Usage) (ch : Charges) (c : Comparisons) (pm : Snapshot.t) :
  usage b = defined u -> charges b = defined ch ->
  comparisons b = defined c -> previousMonth c = defined pm ->
  ToBoolean (Snapshot.usage pm) = true ->
  ToBoolean (Snapshot.amount pm) = true ->
  PatternAnalyzer.calculateUsageTrend b = Ok (usageChange u c) /\
  PatternAnalysis.calculateCostTrend b = Ok (costChange ch c).
Proof.
  intros Hu Hch Hc Hpm Tu Ta.
  unfold PatternAnalyzer.calculateUsageTrend, PatternAnalysis.calculateCostTrend,
    usageChange, costChange, usagePrevious, costPrevious, percentChange.
  rewrite Hu, Hch, Hc. cbn [present opt_obj negb orb get bind].
  rewrite Hpm. cbn [present opt negb get bind].
  unfold or. rewrite Tu, Ta. split; reflexivity.
Qed.

Lemma detector_and_analyzer_agree_on_change_witness :
  let u := {| totalKwh := number 1500; peakKwh := undefined;
              offPeakKwh := undefined; demandKw := undefined |} in
  let ch := {| totalAmount := number 350; baseCharge := undefined;
               energyCharges := undefined; deliveryCharges := undefined;
               taxes := undefined; fees := undefined;
               adjustments := undefined |} in
  let pm := {| Snapshot.usage := number 1000; Snapshot.amount := number 200 |} in
  let c := {| previousMonth := defined pm; yearAgo := undefined |} in
  PatternAnalyzer.calculateUsageTrend bill_two_severe = Ok (usageChange u c) /\
  PatternAnalysis.calculateCostTrend bill_two_severe = Ok (costChange ch c).
Proof.
  intros u ch pm c.
  apply (detector_and_analyzer_agree_on_change bill_two_severe u ch c pm);
    reflexivity.
Defined.

(** The predictor and the pattern analyzer use the same seasons: the
    factor the predictor applies to a month ahead is the factor the
    pattern analyzer gives that month's season. *)
Theorem season_tables_agree (currentMonth monthsAhead : Z) :
  ToNumber (PredictiveAnalyzer.getSeasonalFactor currentMonth monthsAhead)
  = PatternAnalysis.getSeasonalFactor
      (PatternAnalysis.getSeason ((currentMonth + monthsAhead) mod 12)).
Proof.
  unfold PredictiveAnalyzer.getSeasonalFactor, PatternAnalysis.getSeasonalFactor,
    PatternAnalysis.getSeason.
  destruct (_ || _)%bool; [reflexivity|].
  destruct (_ && _)%bool; [reflexivity|].
  destruct (_ && _)%bool; reflexivity.
Qed.

End Analyzers.

(* ================================================================= *)
(** ** The pattern analyzer: the other analyses *)

Section PatternAnalyses.
Import PatternAnalyzer PatternAnalysis DocumentProcessor Spec Props.
Local Open Scope string_scope.
Local Open Scope float_scope.

(** The analyses that only read the bill's own figures return as soon as
    the bill has a [usage] and a [charges] object. *)
Lemma calculateUsageTrend_Ok b u :
  usage b = defined u -> exists t, calculateUsageTrend b = Ok t.
Proof.
  intros Hu. unfold calculateUsageTrend. rewrite Hu.
  destruct (comparisons b) as [| |c]; cbn [present opt_obj negb orb get bind];
    eauto.
  destruct (previousMonth c) as [| |pm]; cbn [present negb get bind]; eauto.
Qed.

Lemma calculateCostTrend_Ok b ch :
  charges b = defined ch -> exists t, calculateCostTrend b = Ok t.
Proof.
  intros Hch. unfold calculateCostTrend. rewrite Hch.
  destruct (comparisons b) as [| |c]; cbn [present opt_obj negb orb get bind];
    eauto.
  destruct (previousMonth c) as [| |pm]; cbn [present negb get bind]; eauto.
Qed.

Lemma analyzeUsagePatterns_Ok b u ch :
  usage b = defined u -> charges b = defined ch ->
  exists p, analyzeUsagePatterns b = Ok p.
Proof.
  intros Hu Hch. unfold analyzeUsagePatterns, calculateEfficiency.
  destruct (calculateUsageTrend_Ok b u Hu) as [t Ht].
  rewrite Hu, Hch, Ht. cbn [present get bind]. eauto.
Qed.

Lemma analyzeCostPatterns_Ok b u ch :
  usage b = defined u -> charges b = defined ch ->
  exists p, analyzeCostPatterns b = Ok p.
Proof.
  intros Hu Hch. unfold analyzeCostPatterns, calculateCostEfficiency.
  destruct (calculateCostTrend_Ok b ch Hch) as [t Ht].
  rewrite Hu, Hch, Ht. cbn [present get bind]. eauto.
Qed.

Lemma analyzeSeasonalPatterns_Ok m b u :
  usage b = defined u -> exists p, analyzeSeasonalPatterns m b = Ok p.
Proof.
  intros Hu. unfold analyzeSeasonalPatterns, getExpectedSeasonalUsage.
  rewrite Hu. cbn [get bind]. eauto.
Qed.

Lemma analyzeCorrelations_Ok m r1 r2 b u ch :
  usage b = defined u -> charges b = defined ch ->
  exists p, analyzeCorrelations m r1 r2 b = Ok p.
Proof.
  intros Hu Hch. unfold analyzeCorrelations, calculateTimeCorrelation.
  rewrite Hu, Hch. cbn [get bind]. eauto.
Qed.

(** With a truthy previous usage the efficiency analysis reads
    [previousMonth.charges.totalAmount] and throws. *)
Lemma analyzeEfficiencyPatterns_Throw b u ch :
  usage b = defined u -> charges b = defined ch ->
  ToBoolean (previousUsage b) = true ->
  analyzeEfficiencyPatterns b = Throw (TypeError snapshotError).
Proof.
  intros Hu Hch. unfold previousUsage, analyzeEfficiencyPatterns,
    calculateEfficiency, calculateEfficiencyOfSnapshot.
  rewrite Hu, Hch. cbn [present get bind].
  destruct (opt_obj (comparisons b) previousMonth) as [| |pm]; try discriminate.
  cbn [opt]. intros ->. reflexivity.
Qed.

Lemma analyzeEfficiencyPatterns_Ok b u ch :
  usage b = defined u -> charges b = defined ch ->
  ToBoolean (previousUsage b) = false ->
  exists p, analyzeEfficiencyPatterns b = Ok p /\
    (EfficiencyPatterns.trend p = 0 \/ EfficiencyPatterns.trend p = nan).
Proof.
  intros Hu Hch. unfold previousUsage, analyzeEfficiencyPatterns,
    calculateEfficiency, calculateEfficiencyOfSnapshot, calculateEfficiencyScore,
    identifyEfficiencyFactors, calculateEfficiency.
  rewrite Hu, Hch. cbn [present get bind].
  destruct (opt_obj (comparisons b) previousMonth) as [| |pm]; cbn [opt].
  1,2: intros _; eexists; split; [reflexivity|left; reflexivity].
  intros ->. cbn [bind]. eexists. split; [reflexivity|].
  right. cbn [EfficiencyPatterns.trend]. unfold SnapshotToNumber.
  apply sub_nan_r.
Qed.

(** The average of the three trends is [0] or [NaN] whenever
    [analyzeTrends] returns. *)
Lemma analyzeTrends_cases pow b u ch :
  usage b = defined u -> charges b = defined ch ->
  (ToBoolean (previousUsage b) = true ->
   analyzeTrends pow b = Throw (TypeError snapshotError)) /\
  (ToBoolean (previousUsage b) = false ->
   exists t, analyzeTrends pow b = Ok t /\
     Trends.direction t = "stable" /\ Trends.strength t = "weak").
Proof.
  intros Hu Hch. unfold previousUsage, analyzeTrends, calculateUsageTrend,
    calculateCostTrend, calculateEfficiencyTrend, projectTrend,
    calculateUsageTrend, calculateEfficiency, calculateEfficiencyOfSnapshot.
  rewrite Hu, Hch.
  destruct (comparisons b) as [| |c]; cbn [present opt_obj negb orb get bind opt].
  1,2: split; [discriminate|intros _; eexists; repeat split].
  destruct (previousMonth c) as [| |pm]; cbn [present opt negb get bind].
  1,2: split; [discriminate|intros _; eexists; repeat split].
  split; intros ->; cbn [bind]; [reflexivity|].
  eexists. split; [reflexivity|].
  cbn [Trends.direction Trends.strength EfficiencyToNumber].
  unfold SnapshotToNumber, Math_abs.
  rewrite div_nan_r, mul_nan_l, add_nan_r, div_nan_l. split; reflexivity.
Qed.

(** The two outcomes of [analyzePatterns] on a bill with a [usage] and a
    [charges] object. *)
Lemma analyzePatterns_Throw m r1 r2 pow b u ch :
  usage b = defined u -> charges b = defined ch ->
  ToBoolean (previousUsage b) = true ->
  analyzePatterns m r1 r2 pow b = Throw (TypeError snapshotError).
Proof.
  intros Hu Hch T. unfold analyzePatterns.
  destruct (analyzeUsagePatterns_Ok b u ch Hu Hch) as [pu ->].
  destruct (analyzeCostPatterns_Ok b u ch Hu Hch) as [pc ->].
  cbn [bind]. rewrite (analyzeEfficiencyPatterns_Throw b u ch Hu Hch T).
  reflexivity.
Qed.

Lemma analyzePatterns_Ok m r1 r2 pow b u ch :
  usage b = defined u -> charges b = defined ch ->
  ToBoolean (previousUsage b) = false ->
  exists p, analyzePatterns m r1 r2 pow b = Ok p.
Proof.
  intros Hu Hch T. unfold analyzePatterns.
  destruct (analyzeUsagePatterns_Ok b u ch Hu Hch) as [pu ->].
  destruct (analyzeCostPatterns_Ok b u ch Hu Hch) as [pc ->].
  destruct (analyzeSeasonalPatterns_Ok m b u Hu) as [ps ->].
  destruct (analyzeCorrelations_Ok m r1 r2 b u ch Hu Hch) as [pr ->].
  destruct (analyzeEfficiencyPatterns_Ok b u ch Hu Hch T) as [pe [-> _]].
  destruct (proj2 (analyzeTrends_cases pow b u ch Hu Hch) T) as [pt [-> _]].
  cbn [bind]. eauto.
Qed.

(** [analyzePatterns] returns for exactly the bills that have a [usage]
    and a [charges] object and no truthy [previousMonth.usage]: a bill
    that comes with last month's usage makes it throw. *)
Theorem analyzePatterns_returns_iff (currentMonth : Z) (random1 random2 : float)
  (Math_pow : float -> float -> float) (b : BillData) :
  (exists p, analyzePatterns currentMonth random1 random2 Math_pow b = Ok p)
  <-> (present (usage b) && present (charges b)
       && negb (ToBoolean (previousUsage b)))%bool = true.
Proof.
  destruct (usage b) as [| |u] eqn:Hu.
  1,2: unfold analyzePatterns, analyzeUsagePatterns; rewrite Hu;
       cbn [get bind present andb];
       split; [intros [p H]; discriminate H|discriminate].
  destruct (charges b) as [| |ch] eqn:Hch.
  1,2: unfold analyzePatterns, analyzeUsagePatterns, calculateEfficiency;
       rewrite Hu, Hch; cbn [get bind present andb];
       split; [intros [p H]; discriminate H|discriminate].
  cbn [present andb].
  destruct (ToBoolean (previousUsage b)) eqn:T; cbn [negb].
  - rewrite (analyzePatterns_Throw _ _ _ _ b u ch Hu Hch T).
    split; [intros [p H]; discriminate H|discriminate].
  - split; [reflexivity|intros _].
    exact (analyzePatterns_Ok _ _ _ _ b u ch Hu Hch T).
Qed.

(** On a bill with a [usage] and a [charges] object and a truthy
    [previousMonth.usage], [analyzePatterns] throws the [TypeError] of
    reading [totalAmount] of the snapshot's missing [charges]. *)
Theorem analyzePatterns_throws_on_previous_usage (currentMonth : Z)
  (random1 random2 : float) (Math_pow : float -> float -> float) (b : BillData) :
  present (usage b) = true -> present (charges b) = true ->
  ToBoolean (previousUsage b) = true ->
  analyzePatterns currentMonth random1 random2 Math_pow b
  = Throw (TypeError snapshotError).
Proof.
  destruct (usage b) as [| |u] eqn:Hu; try discriminate.
  destruct (charges b) as [| |ch] eqn:Hch; try discriminate.
  intros _ _ T. exact (analyzePatterns_Throw _ _ _ _ b u ch Hu Hch T).
Qed.

Lemma analyzePatterns_throws_on_previous_usage_witness :
  analyzePatterns 0 0.5 0.5 (fun x _ => x) generateMockStructuredData
  = Throw (TypeError snapshotError).
Proof.
  apply (analyzePatterns_throws_on_previous_usage 0 0.5 0.5 (fun x _ => x)
           generateMockStructuredData); reflexivity.
Defined.

(** [analyzeTrends] never reports a trend: whenever it returns, the
    direction is ["stable"] and the strength ["weak"], since the average
    of the three changes is then [0] (no previous month) or [NaN] (the
    efficiency change against a snapshot). *)
Theorem analyzeTrends_always_stable (Math_pow : float -> float -> float)
  (b : BillData) (t : Trends.t) :
  analyzeTrends Math_pow b = Ok t ->
  Trends.direction t = "stable" /\ Trends.strength t = "weak".
Proof.
  unfold analyzeTrends, calculateUsageTrend, calculateCostTrend,
    calculateEfficiencyTrend, projectTrend, calculateUsageTrend,
    calculateEfficiency, calculateEfficiencyOfSnapshot.
  destruct (usage b) as [| |u], (charges b) as [| |ch],
    (comparisons b) as [| |c];
    cbn [present opt_obj negb orb get bind];
    try discriminate; try (intros [= <-]; split; reflexivity).
  all: destruct (previousMonth c) as [| |pm]; cbn [present negb get bind];
    try discriminate; try (intros [= <-]; split; reflexivity).
  destruct (ToBoolean (Snapshot.usage pm)); cbn [bind]; try discriminate.
  intros [= <-]. cbn [Trends.direction Trends.strength EfficiencyToNumber].
  unfold SnapshotToNumber, Math_abs.
  rewrite div_nan_r, mul_nan_l, add_nan_r, div_nan_l. split; reflexivity.
Qed.

Lemma analyzeTrends_always_stable_witness :
  exists t,
    analyzeTrends (fun x _ => x) bill_after_zero = Ok t /\
    Trends.direction t = "stable" /\ Trends.strength t = "weak".
Proof.
  eexists. split.
  - vm_compute. reflexivity.
  - apply (analyzeTrends_always_stable (fun x _ => x) bill_after_zero).
    vm_compute. reflexivity.
Defined.

(** The efficiency trend [analyzeEfficiencyPatterns] reports is never a
    usable number: [0] without a previous month, [NaN] with one (a number
    minus a snapshot object). *)
Theorem efficiency_trend_is_zero_or_nan (b : BillData) (e : EfficiencyPatterns.t) :
  analyzeEfficiencyPatterns b = Ok e ->
  EfficiencyPatterns.trend e
  = if present (opt_obj (comparisons b) previousMonth) then nan else 0.
Proof.
  unfold analyzeEfficiencyPatterns, calculateEfficiency,
    calculateEfficiencyOfSnapshot, calculateEfficiencyScore,
    identifyEfficiencyFactors, calculateEfficiency.
  destruct (usage b) as [| |u], (charges b) as [| |ch];
    cbn [present get bind];
    destruct (opt_obj (comparisons b) previousMonth) as [| |pm];
    cbn [present get bind]; try discriminate;
    try (intros [= <-]; reflexivity);
    destruct (ToBoolean (Snapshot.usage pm)); cbn [bind]; try discriminate.
  intros [= <-]. cbn [EfficiencyPatterns.trend]. unfold SnapshotToNumber.
  apply sub_nan_r.
Qed.

Lemma efficiency_trend_is_zero_or_nan_witness :
  exists e,
    analyzeEfficiencyPatterns bill_after_zero = Ok e /\
    EfficiencyPatterns.trend e = nan.
Proof.
  eexists. split.
  - vm_compute. reflexivity.
  - apply (efficiency_trend_is_zero_or_nan bill_after_zero).
    vm_compute. reflexivity.
Defined.

End PatternAnalyses.

(* ================================================================= *)
(** ** The efficiency score *)

Section EfficiencyScore.
Import Binary64 Builtins PatternAnalyzer PatternAnalysis.
Local Open Scope float_scope.

Lemma ltb_leb x y : (x <? y) = true -> (x <=? y) = true.
Proof.
  rewrite ltb_spec, leb_spec. unfold SFltb, SFleb.
  now destruct (SFcompare _ _) as [[]|].
Qed.

Lemma not_nan_numeric x : is_nan x = false -> numeric x = true.
Proof.
  intros H. unfold numeric.
  destruct (Prim2SF x) eqn:E; trivial.
  rewrite (is_nan_sf x E) in H. discriminate H.
Qed.

(** The clamp [Math.max(0, Math.min(100, x))] lets [NaN] through and
    otherwise lands in [0, 100]. *)
Lemma clamp_cases x :
  Math_max 0 (Math_min 100 x) = nan \/
  Math_max 0 (Math_min 100 x) = 0 \/
  ((0 <? Math_max 0 (Math_min 100 x)) = true /\
   (Math_max 0 (Math_min 100 x) <=? 100) = true).
Proof.
  assert (M : Math_min 100 x = nan \/
              (is_nan (Math_min 100 x) = false /\
               (Math_min 100 x <=? 100) = true)).
  { unfold Math_min. change (is_nan 100) with false. cbn [orb].
    destruct (is_nan x) eqn:N; [left; reflexivity|right].
    destruct (100 <? x) eqn:G; [split; reflexivity|].
    assert (L : (x <=? 100) = true).
    { destruct (x <=? 100) eqn:L; trivial.
      rewrite (not_leb_ltb 100 x eq_refl (not_nan_numeric x N) L) in G.
      discriminate G. }
    destruct (x <? 100); [split; assumption|].
    change (get_sign 100) with false. split; assumption. }
  destruct M as [->|[N L]]; [left; reflexivity|].
  unfold Math_max. change (is_nan 0) with false. rewrite N. cbn [orb].
  destruct (0 <? Math_min 100 x) eqn:P; [right; right; split; assumption|].
  destruct (Math_min 100 x <? 0); [right; left; reflexivity|].
  change (get_sign 0) with false. right. left. reflexivity.
Qed.

Local Open Scope Z_scope.

(** The integers from 1 to 100 are binary64 numbers between 0 and 100. *)
Lemma small_integers (q : Z) :
  1 <= q <= 100 ->
  let s := SF2Prim (binary_normalize prec emax q 0 false) in
  (0 <=? s)%float = true /\ (s <=? 100)%float = true.
Proof.
  intros H.
  assert (F : forallb
                (fun q =>
                   let s := SF2Prim (binary_normalize prec emax q 0 false) in
                   ((0 <=? s)%float && (s <=? 100)%float)%bool)
                (map Z.of_nat (seq 1 100)) = true)
    by (vm_compute; reflexivity).
  rewrite forallb_forall in F.
  specialize (F q). cbv zeta in *. apply andb_prop. apply F.
  apply in_map_iff. exists (Z.to_nat q). split; [lia|].
  apply in_seq. lia.
Qed.

(** The integer [Math.round] computes for a positive number of at most
    100, written [m * 2^e] with [e < 0]. *)
Lemma round_quotient_range (m : positive) (e : Z) :
  e < 0 -> Z.pos m < 2 ^ 53 ->
  e < -46 \/ (e = -46 /\ Z.pos m <= 7036874417766400) ->
  0 <= (2 * Z.pos m + 2 ^ (- e)) / 2 ^ (1 - e) < 101.
Proof.
  intros E M53 O.
  assert (P2 : 0 < 2 ^ (- e)) by (apply Z.pow_pos_nonneg; lia).
  assert (P1 : 2 ^ (1 - e) = 2 ^ (- e) * 2).
  { replace (1 - e) with (- e + 1) by lia. now rewrite Z.pow_add_r by lia. }
  assert (B : 2 * Z.pos m + 2 ^ (- e) < 2 ^ (- e) * 2 * 101).
  { destruct O as [O|[O1 O2]].
    - assert (H54 : 2 ^ 54 <= 2 ^ (- e + 7)) by (apply Z.pow_le_mono_r; lia).
      rewrite Z.pow_add_r in H54 by lia.
      change (2 ^ 7) with 128 in H54.
      change (2 ^ 53) with 9007199254740992 in M53.
      change (2 ^ 54) with 18014398509481984 in H54.
      clear P1. set (p := 2 ^ (- e)) in *. clearbody p. lia.
    - clear P1 P2 M53. subst e. change (2 ^ (- -46)) with 70368744177664. lia. }
  rewrite P1. clear P1 M53 O. set (p := 2 ^ (- e)) in *. clearbody p.
  split.
  - apply Z.div_pos; lia.
  - apply Z.div_lt_upper_bound; lia.
Qed.

(** A number of [(0, 100]] is [m * 2^e] with [m] below [2^53], and its
    order against [100 = 7036874417766400 * 2^-46] is that of the pairs
    [(e, m)]. *)
Lemma positive_up_to_100 (sf : spec_float) :
  valid_binary sf = true ->
  SFltb (S754_zero false) sf = true ->
  SFleb sf (S754_finite false 7036874417766400 (-46)) = true ->
  exists m e,
    sf = S754_finite false m e /\ Z.pos m < 2 ^ 53 /\
    (e < -46 \/ (e = -46 /\ Z.pos m <= 7036874417766400)).
Proof.
  destruct sf as [s|s| |s m e]; try discriminate.
  { destruct s; discriminate. }
  destruct s; try discriminate. intros B _ L.
  exists m, e. split; [reflexivity|].
  unfold valid_binary, bounded, canonical_mantissa in B.
  apply andb_prop in B as [C _]. apply Z.eqb_eq in C.
  unfold fexp, emin, prec, emax in C.
  assert (D53 : Z.pos (digits2_pos m) <= 53) by lia.
  split.
  - eapply Z.lt_le_trans; [apply (Zdigits2_bounds m)|].
    apply Z.pow_le_mono_r; [reflexivity|exact D53].
  - clear C D53. revert L. unfold SFleb, SFcompare.
    destruct (Z.compare_spec e (-46)) as [He|He|He];
      [|intros _; left; exact He|discriminate].
    rewrite Pos.compare_cont_spec. cbn [Pos.switch_Eq].
    destruct (Pos.compare_spec m 7036874417766400) as [Hm|Hm|Hm];
      [| |discriminate]; intros _; right; (split; [exact He|]).
    + rewrite Hm. apply Z.le_refl.
    + apply Z.lt_le_incl. apply Pos2Z.pos_lt_pos. exact Hm.
Qed.

(** Rounding a number of [(0, 100]] gives a number of [[0, 100]]. *)
Lemma Math_round_range y :
  (0 <? y)%float = true -> (y <=? 100)%float = true ->
  (0 <=? Math_round y)%float = true /\ (Math_round y <=? 100)%float = true.
Proof.
  intros P L.
  destruct (positive_up_to_100 (Prim2SF y)) as (m & e & Ey & M53 & O).
  - apply Prim2SF_valid.
  - change (S754_zero false) with (Prim2SF 0). rewrite <- ltb_spec. exact P.
  - change (S754_finite false 7036874417766400 (-46)) with (Prim2SF 100).
    rewrite <- leb_spec. exact L.
  - unfold Math_round. rewrite Ey.
    destruct (0 <=? e) eqn:E; [split; [now apply ltb_leb|exact L]|].
    apply Z.leb_gt in E.
    pose proof (round_quotient_range m e E M53 O) as Q.
    revert Q. generalize ((2 * Z.pos m + 2 ^ (- e)) / 2 ^ (1 - e)).
    intros q Q.
    destruct (q =? 0) eqn:Q0; [split; reflexivity|].
    apply Z.eqb_neq in Q0.
    pose proof (small_integers q ltac:(lia)) as S. cbv zeta in S. exact S.
Qed.

Local Open Scope float_scope.

(** The efficiency score is [NaN] or a number between 0 and 100: the
    clamp does not remove a [NaN], which is what a bill with no usage and
    no amount gets. *)
Theorem efficiency_score_range (b : BillData) (score : float) :
  calculateEfficiencyScore b = Ok score ->
  score = nan \/ ((0 <=? score) = true /\ (score <=? 100) = true).
Proof.
  unfold calculateEfficiencyScore.
  destruct (calculateEfficiency b) as [efficiency|]; try discriminate.
  cbn [bind]. cbv zeta. intros [= <-].
  match goal with
  | |- Math_round (Math_max 0 (Math_min 100 ?x)) = nan \/ _ =>
      destruct (clamp_cases x) as [->|[->|[P L]]]
  end.
  - left. reflexivity.
  - right. split; reflexivity.
  - right. now apply Math_round_range.
Qed.

Lemma efficiency_score_range_witness :
  exists score,
    calculateEfficiencyScore Spec.bill_zero_usage = Ok score /\
    (score = nan \/ ((0 <=? score) = true /\ (score <=? 100) = true)).
Proof.
  eexists. split.
  - vm_compute. reflexivity.
  - apply (efficiency_score_range Spec.bill_zero_usage).
    vm_compute. reflexivity.
Defined.

End EfficiencyScore.

(* ================================================================= *)
(** ** The document processor and the upload route over the real services *)

Section Processor.
Import DocumentProcessor Processing Builtins Props.
Local Open Scope string_scope.
Local Open Scope float_scope.

(** Whatever the six signals of [calculateConfidence] are, the score is at
    least 0.2, below 1 and truthy. *)
Lemma calculateConfidence_range (data : BillData) (rawText : string) :
  (0.2 <=? calculateConfidence data rawText) = true /\
  (calculateConfidence data rawText <? 1) = true /\
  ToBoolean (number (calculateConfidence data rawText)) = true.
Proof.
  unfold calculateConfidence.
  destruct (ToBooleanText (opt_obj (accountInfo data) accountNumber)),
    (ToBoolean (opt (charges data) totalAmount)),
    (ToBoolean (opt (usage data) totalKwh)),
    (ToBooleanText (opt_obj (billingPeriod data) startDate)),
    (includes rawText "Mock Bill Data"),
    (negb (present (validationWarnings data))
     || match validationWarnings data with
        | defined [] => true
        | _ => false
        end)%bool;
    vm_compute; repeat split.
Qed.

(** The six signals of [calculateConfidence] move the score between 0.2
    and 0.9999999999999999: the clamp to [0.1, 1.0] never changes it,
    and the score is never 1. *)
Theorem confidence_is_never_clamped (data : BillData) (rawText : string) :
  (0.2 <=? calculateConfidence data rawText) = true /\
  (calculateConfidence data rawText <=? 0.9999999999999999) = true.
Proof.
  unfold calculateConfidence.
  destruct (ToBooleanText (opt_obj (accountInfo data) accountNumber)),
    (ToBoolean (opt (charges data) totalAmount)),
    (ToBoolean (opt (usage data) totalKwh)),
    (ToBooleanText (opt_obj (billingPeriod data) startDate)),
    (includes rawText "Mock Bill Data"),
    (negb (present (validationWarnings data))
     || match validationWarnings data with
        | defined [] => true
        | _ => false
        end)%bool;
    vm_compute; split; reflexivity.
Qed.

(** What the patterns of [parseWithRegex] leave unset, [fillMissingData]
    takes from the mock record: so a regex-parsed record always carries
    the mock's previous month. *)
Lemma regex_record_has_previous_usage (matched : BillData) :
  regexOutput matched = true ->
  ToBoolean (previousUsage (fillMissingData matched)) = true.
Proof.
  unfold regexOutput, previousUsage, fillMissingData.
  destruct (comparisons matched); [reflexivity|reflexivity|].
  rewrite andb_false_r. discriminate.
Qed.

End Processor.

Section RealPipeline.
Import DocumentProcessor Processing Props AdvancedUpload.
Local Open Scope string_scope.
Local Open Scope float_scope.

Context {File : Type}.
Variable originalname : File -> string.
Variable extractText : File -> string.
Variable parseStructuredData : string -> string -> BillData.
Variable currentMonth : Processed.t -> Z.
Variable random1 random2 : Processed.t -> float.
Variable Math_pow : float -> float -> float.

Let parsed (file : File) : BillData :=
  parseStructuredData (extractText file) (originalname file).

Let upload :=
  Pipeline.upload originalname extractText parseStructuredData currentMonth
    random1 random2 Math_pow.

Let entry (file : File) :=
  attempt originalname
    (processDocument originalname extractText parseStructuredData)
    (fun e => AnomalyDetector.detectAnomalies (Processed.data e))
    (fun e => PredictiveAnalyzer.generatePredictions (currentMonth e)
                (Processed.data e))
    (fun e anomalies predictions =>
       RecommendationEngine.generateRecommendations (Processed.data e)
         (defined anomalies) (defined predictions))
    (fun e => PatternAnalysis.analyzePatterns (currentMonth e) (random1 e)
                (random2 e) Math_pow (Processed.data e))
    (fun e => number (Processed.confidence e))
    file.

(** The outcome of one document: the first three analyzers return on
    every validated record, so the entry is decided by the pattern
    analyzer alone. *)
Lemma entry_outcome (file : File) :
  if ToBoolean (previousUsage (parsed file))
  then entry file = Failed (originalname file) snapshotError
  else exists a,
      entry file = Succeeded (originalname file) a /\
      Processed.data (data a) = validateAndEnhanceData (parsed file) /\
      confidence a
      = number (calculateConfidence (validateAndEnhanceData (parsed file))
                  (extractText file)).
Proof.
  unfold entry, attempt, analyse, processDocument. fold (parsed file).
  cbn [bind Processed.data Processed.confidence].
  set (b := validateAndEnhanceData (parsed file)).
  set (e := {| Processed.data := b |}).
  destruct (validated_detect_Ok (parsed file)) as [l Hl].
  destruct (validated_predict_Ok (currentMonth e) (parsed file)) as [p Hp].
  destruct (validated_recommend_Ok (parsed file) (defined l) (defined p))
    as [r Hr].
  fold b in Hl, Hp, Hr. rewrite Hl, Hp. cbn [bind]. rewrite Hr. cbn [bind].
  assert (P : previousUsage b = previousUsage (parsed file)) by reflexivity.
  destruct (ToBoolean (previousUsage (parsed file))) eqn:T.
  - rewrite (analyzePatterns_Throw _ _ _ _ b _ _ eq_refl eq_refl);
      [reflexivity|now rewrite P].
  - destruct (analyzePatterns_Ok (currentMonth e) (random1 e) (random2 e)
                Math_pow b _ _ eq_refl eq_refl) as [pt ->].
    { now rewrite P. }
    eexists. split; [reflexivity|]. split; [reflexivity|].
    cbn [confidence]. unfold or.
    destruct (calculateConfidence_range b (extractText file)) as (_ & _ & ->).
    reflexivity.
Qed.

Lemma upload_results (file : File) (files : list File) :
  upload (defined (file :: files))
  = Json {| body_success := true;
            results := map entry (file :: files);
            totalFiles := List.length (file :: files);
            successfulFiles :=
              List.length (filter success (map entry (file :: files))) |}.
Proof.
  unfold upload, Pipeline.upload, advancedUpload.
  rewrite upload_loop. reflexivity.
Qed.

Lemma success_entry (file : File) :
  success (entry file) = negb (ToBoolean (previousUsage (parsed file))).
Proof.
  pose proof (entry_outcome file) as O.
  destruct (ToBoolean (previousUsage (parsed file))).
  - now rewrite O.
  - destruct O as (a & -> & _). reflexivity.
Qed.

(** Over the services of this repository a document of a batch succeeds
    exactly when the parsed record has no truthy [previousMonth.usage]:
    the detector, the predictor and the recommendation engine return on
    every processed document, and the pattern analyzer decides. *)
Theorem upload_succeeds_iff_no_previous_usage (file : File) (files : list File) :
  exists body,
    upload (defined (file :: files)) = Json body /\
    map success (results body)
    = map (fun f => negb (ToBoolean (previousUsage (parsed f)))) (file :: files) /\
    map filename (results body) = map originalname (file :: files) /\
    successfulFiles body
    = List.length
        (filter (fun f => negb (ToBoolean (previousUsage (parsed f))))
                (file :: files)).
Proof.
  eexists. split; [apply upload_results|].
  cbn [results successfulFiles].
  generalize (file :: files) as l. intros l. repeat split.
  - rewrite map_map. apply map_ext. intros f. apply success_entry.
  - rewrite map_map. apply map_ext. intros f. unfold entry, attempt.
    now destruct (analyse _ _ _ _ _ _ f).
  - induction l as [|f l IH]; [reflexivity|].
    cbn [map filter]. rewrite success_entry.
    destruct (negb _); cbn [List.length]; now rewrite IH.
Qed.

(** When the structured data come from [parseWithRegex] or from the mock
    fallback, as they do whenever no OpenAI client is configured, every
    document of every batch is reported as failed, with the [TypeError]
    of the pattern analyzer as its error. *)
Theorem regex_parsed_uploads_all_fail (file : File) (files : list File) :
  (forall text name,
      parseStructuredData text name = generateMockStructuredData \/
      exists matched,
        regexOutput matched = true /\
        parseStructuredData text name = fillMissingData matched) ->
  upload (defined (file :: files))
  = Json {| body_success := true;
            results :=
              map (fun f => Failed (originalname f) snapshotError)
                  (file :: files);
            totalFiles := List.length (file :: files);
            successfulFiles := 0 |}.
Proof.
  intros Hparse. rewrite upload_results.
  assert (E : forall l,
             map entry l = map (fun f => Failed (originalname f) snapshotError) l).
  { intros l. apply map_ext. intros f.
    pose proof (entry_outcome f) as O.
    replace (ToBoolean (previousUsage (parsed f))) with true in O; [exact O|].
    unfold parsed.
    destruct (Hparse (extractText f) (originalname f)) as [->|(m & R & ->)];
      [reflexivity|].
    symmetry. now apply regex_record_has_previous_usage. }
  rewrite E. f_equal. f_equal.
  generalize (file :: files) as l. intros l.
  induction l as [|f l IH]; [reflexivity|exact IH].
Qed.

(** The confidence the route reports for a successful document is the
    processor's own: its fallback to 0.85 is never taken. *)
Theorem upload_confidence_is_the_processors (file : File) (files : list File) :
  exists body,
    upload (defined (file :: files)) = Json body /\
    Forall (fun r =>
              match r with
              | Succeeded _ a =>
                  confidence a = number (Processed.confidence (data a))
              | Failed _ _ => True
              end)
           (results body).
Proof.
  eexists. split; [apply upload_results|].
  cbn [results]. apply Forall_forall. intros r Hr.
  apply in_map_iff in Hr as (f & <- & _).
  unfold entry, attempt, analyse, processDocument.
  cbn [bind].
  destruct (AnomalyDetector.detectAnomalies _); cbn [bind]; trivial.
  destruct (PredictiveAnalyzer.generatePredictions _ _); cbn [bind]; trivial.
  destruct (RecommendationEngine.generateRecommendations _ _ _); cbn [bind];
    trivial.
  destruct (PatternAnalysis.analyzePatterns _ _ _ _ _); cbn [bind]; trivial.
  cbn [confidence data Processed.confidence]. unfold or.
  destruct (calculateConfidence_range
              (validateAndEnhanceData
                 (parseStructuredData (extractText f) (originalname f)))
              (extractText f)) as (_ & _ & ->).
  reflexivity.
Qed.

End RealPipeline.

Lemma regex_parsed_uploads_all_fail_witness :
  Pipeline.upload (fun _ : unit => "bill.pdf"%string)
    (fun _ => "Account: 12-34"%string)
    (fun _ _ => DocumentProcessor.fillMissingData Props.emptyBill)
    (fun _ => 0%Z) (fun _ => 0.5%float) (fun _ => 0.5%float) (fun x _ => x)
    (defined [ tt; tt ])
  = AdvancedUpload.Json
      {| AdvancedUpload.body_success := true;
         AdvancedUpload.results :=
           map (fun _ => AdvancedUpload.Failed "bill.pdf"%string
                           Props.snapshotError)
               [ tt; tt ];
         AdvancedUpload.totalFiles := 2;
         AdvancedUpload.successfulFiles := 0 |}.
Proof.
  apply (regex_parsed_uploads_all_fail (fun _ : unit => "bill.pdf"%string)
           (fun _ => "Account: 12-34"%string)
           (fun _ _ => DocumentProcessor.fillMissingData Props.emptyBill)
           (fun _ => 0%Z) (fun _ => 0.5%float) (fun _ => 0.5%float)
           (fun x _ => x) tt [ tt ]).
  intros text name. right. exists Props.emptyBill. split; reflexivity.
Defined.

(* ================================================================= *)
(** ** The optimization plan *)

Section OptimizationPlan.
Import RecommendationEngine Optimization Builtins Props.
Local Open Scope string_scope.
Local Open Scope float_scope.

(** With a budget, every long-term action of the plan costs less than the
    budget. *)
Theorem long_term_actions_fit_budget (b : BillData) (c : Constraints) :
  ToBoolean (budget c) = true ->
  Forall (fun a => (ToNumber (Action.cost a) <? ToNumber (budget c)) = true)
         (generateLongTermStrategy b c).
Proof.
  intros T. unfold generateLongTermStrategy. rewrite T. cbn [negb orb].
  destruct (500 <? ToNumber (budget c)) eqn:E1,
    (2000 <? ToNumber (budget c)) eqn:E2; cbn [app];
    repeat constructor; cbn [Action.cost ToNumber number]; trivial.
  all: apply (ltb_trans _ 500); [reflexivity|exact E1].
Qed.

Lemma long_term_actions_fit_budget_witness :
  Forall (fun a => (ToNumber (Action.cost a) <? 1000) = true)
         (generateLongTermStrategy DocumentProcessor.generateMockStructuredData
            {| budget := number 1000 |}).
Proof.
  apply (long_term_actions_fit_budget DocumentProcessor.generateMockStructuredData
           {| budget := number 1000 |}).
  reflexivity.
Defined.

(** A budget of zero, like no budget at all, lifts the constraint: the
    plan then holds both long-term actions, the 2000 one included. *)
Theorem falsy_budget_is_no_budget (b : BillData) (c : Constraints) :
  ToBoolean (budget c) = false ->
  map Action.title (generateLongTermStrategy b c)
  = [ "LED Lighting Conversion"; "Energy-Efficient Appliances" ] /\
  map Action.cost (generateLongTermStrategy b c) = [ number 200; number 2000 ].
Proof.
  intros T. unfold generateLongTermStrategy. rewrite T. split; reflexivity.
Qed.

Lemma falsy_budget_is_no_budget_witness :
  map Action.title
    (generateLongTermStrategy emptyBill {| budget := number 0 |})
  = [ "LED Lighting Conversion"; "Energy-Efficient Appliances" ] /\
  map Action.cost (generateLongTermStrategy emptyBill {| budget := number 0 |})
  = [ number 200; number 2000 ].
Proof.
  apply (falsy_budget_is_no_budget emptyBill {| budget := number 0 |}).
  reflexivity.
Defined.

(** The loop of [prioritizeActions], from any accumulator: each list grows
    by the actions of its class, in order. *)
Lemma prioritizeActions_loop (actions : list Action.t) : forall acc,
  fold_left
    (fun prioritization action =>
       if (0.5 <? roi action) || costIsZero action then
         {| Prioritization.high := Prioritization.high prioritization ++ [ action ];
            Prioritization.medium := Prioritization.medium prioritization;
            Prioritization.low := Prioritization.low prioritization |}
       else if 0.2 <? roi action then
         {| Prioritization.high := Prioritization.high prioritization;
            Prioritization.medium := Prioritization.medium prioritization ++ [ action ];
            Prioritization.low := Prioritization.low prioritization |}
       else
         {| Prioritization.high := Prioritization.high prioritization;
            Prioritization.medium := Prioritization.medium prioritization;
            Prioritization.low := Prioritization.low prioritization ++ [ action ] |})
    actions acc
  = {| Prioritization.high := Prioritization.high acc ++ filter isHigh actions;
       Prioritization.medium := Prioritization.medium acc ++ filter isMedium actions;
       Prioritization.low := Prioritization.low acc ++ filter isLow actions |}.
Proof.
  induction actions as [|a l IH]; intros acc; cbn [fold_left filter].
  - rewrite !app_nil_r. now destruct acc.
  - rewrite IH. unfold isMedium, isLow, isHigh.
    destruct ((0.5 <? roi a) || costIsZero a)%bool; cbn [negb andb];
      [|destruct (0.2 <? roi a)];
      cbn [Prioritization.high Prioritization.medium Prioritization.low];
      now rewrite <- ?app_assoc.
Qed.

Lemma prioritizeActions_filters (actions : list Action.t) :
  prioritizeActions actions
  = {| Prioritization.high := filter isHigh actions;
       Prioritization.medium := filter isMedium actions;
       Prioritization.low := filter isLow actions |}.
Proof. unfold prioritizeActions. now rewrite prioritizeActions_loop. Qed.

(** [prioritizeActions] files every action under exactly one priority and
    keeps the order of the actions within each: the three lists are the
    three classes of the input, and together a permutation of it. *)
Theorem prioritizeActions_partitions (actions : list Action.t) :
  let p := prioritizeActions actions in
  Prioritization.high p = filter isHigh actions /\
  Prioritization.medium p = filter isMedium actions /\
  Prioritization.low p = filter isLow actions /\
  Permutation
    (Prioritization.high p ++ Prioritization.medium p ++ Prioritization.low p)
    actions.
Proof.
  cbv zeta. rewrite prioritizeActions_filters.
  cbn [Prioritization.high Prioritization.medium Prioritization.low].
  repeat split.
  induction actions as [|a l IH]; [constructor|].
  cbn [filter]. unfold isMedium, isLow.
  destruct (isHigh a); cbn [negb andb app].
  - now constructor.
  - destruct (0.2 <? roi a); cbn [negb app].
    + rewrite <- Permutation_middle. now constructor.
    + rewrite app_assoc, <- Permutation_middle, <- app_assoc. now constructor.
Qed.

(** In every generated plan the two no-cost immediate actions are filed
    under high priority, whatever the bill and the budget. *)
Theorem immediate_actions_are_high_priority {P} (b : BillData) (preferences : P)
  (c : Constraints) :
  let plan := generateOptimizationPlan b preferences c in
  incl (Plan.immediate plan) (Prioritization.high (Plan.prioritization plan)).
Proof.
  cbv zeta. unfold generateOptimizationPlan.
  cbn [Plan.immediate Plan.prioritization]. rewrite prioritizeActions_filters.
  cbn [Prioritization.high]. intros a Ha. apply filter_In. split.
  - apply in_or_app. now left.
  - unfold isHigh. destruct Ha as [<-|[<-|[]]]; apply orb_true_r.
Qed.

(** The three phases of the implementation plan hold every action of the
    generated plan once, the immediate ones first. *)
Theorem plan_phases_cover_every_action {P} (b : BillData) (preferences : P)
  (c : Constraints) :
  let plan := generateOptimizationPlan b preferences c in
  List.concat (map Phase.actions
              (Implementation.phases (Plan.implementation plan)))
  = (Plan.immediate plan ++ Plan.longTerm plan)%list /\
  Implementation.totalActions (Plan.implementation plan)
  = List.length (Plan.immediate plan ++ Plan.longTerm plan).
Proof.
  cbv zeta. unfold generateOptimizationPlan, createImplementationPlan,
    generateLongTermStrategy.
  cbn [Plan.immediate Plan.longTerm Plan.implementation Implementation.phases
       Implementation.totalActions map concat Phase.actions].
  destruct (negb (ToBoolean (budget c)) || (500 <? ToNumber (budget c)))%bool,
    (negb (ToBoolean (budget c)) || (2000 <? ToNumber (budget c)))%bool;
    split; reflexivity.
Qed.

(** The generated plan carries the budget risk exactly when it holds the
    2000 appliance upgrade, and never a technology risk. *)
Theorem plan_risks_by_budget {P} (b : BillData) (preferences : P)
  (c : Constraints) :
  map Risk.type (Plan.risks (generateOptimizationPlan b preferences c))
  = if (negb (ToBoolean (budget c)) || (2000 <? ToNumber (budget c)))%bool
    then [ "budget" ] else [].
Proof.
  unfold generateOptimizationPlan, assessImplementationRisks,
    generateLongTermStrategy, generateImmediateActions.
  cbn [Plan.risks].
  destruct (negb (ToBoolean (budget c)) || (500 <? ToNumber (budget c)))%bool,
    (negb (ToBoolean (budget c)) || (2000 <? ToNumber (budget c)))%bool;
    reflexivity.
Qed.

(** Without a truthy [charges.totalAmount] the share of the amount an
    action saves is 0, whatever the factor. *)
Lemma share_falsy (b : BillData) (k : float) :
  ToBoolean (opt (charges b) totalAmount) = false -> share b k = 0.
Proof.
  unfold share. intros T.
  assert (E : ToNumber (opt (charges b) totalAmount) = nan
              \/ ToNumber (opt (charges b) totalAmount) = 0
              \/ ToNumber (opt (charges b) totalAmount) = -0).
  { destruct (opt (charges b) totalAmount) as [| |z]; cbn [ToNumber]; auto.
    now apply falsy_cases. }
  unfold or_number, or, ToBoolean, number.
  destruct E as [->|[->| ->]].
  - rewrite mul_nan_l. reflexivity.
  - destruct (0 * k =? 0) eqn:Z; [reflexivity|]. cbn [negb andb].
    destruct (is_nan (0 * k)) eqn:N; [reflexivity|]. exfalso.
    revert Z N. unfold is_nan. rewrite !FloatAxioms.eqb_spec, mul_spec.
    change (Prim2SF 0) with (S754_zero false).
    destruct (Prim2SF k) as [s|s| |s m e]; try destruct s; discriminate.
  - destruct (-0 * k =? 0) eqn:Z; [reflexivity|]. cbn [negb andb].
    destruct (is_nan (-0 * k)) eqn:N; [reflexivity|]. exfalso.
    revert Z N. unfold is_nan. rewrite !FloatAxioms.eqb_spec, mul_spec.
    change (Prim2SF (-0)) with (S754_zero true).
    change (Prim2SF 0) with (S754_zero false).
    destruct (Prim2SF k) as [s|s| |s m e]; try destruct s; discriminate.
Qed.

(** Without a truthy [charges.totalAmount] every action saves nothing:
    the total is 0 and the percentage, 0 divided by 0, is [NaN]. *)
Theorem plan_without_amount_saves_nothing {P} (b : BillData) (preferences : P)
  (c : Constraints) :
  ToBoolean (opt (charges b) totalAmount) = false ->
  let s := Plan.savings (generateOptimizationPlan b preferences c) in
  Savings.total s = 0 /\ Savings.breakdown_percentage s = nan.
Proof.
  intros T. cbv zeta.
  unfold generateOptimizationPlan, calculateTotalSavings, generateLongTermStrategy,
    generateImmediateActions.
  cbn [Plan.savings Savings.total Savings.breakdown_percentage].
  rewrite !(share_falsy b _ T). unfold or. rewrite T.
  destruct (negb (ToBoolean (budget c)) || (500 <? ToNumber (budget c)))%bool,
    (negb (ToBoolean (budget c)) || (2000 <? ToNumber (budget c)))%bool;
    split; reflexivity.
Qed.

Lemma plan_without_amount_saves_nothing_witness :
  let s := Plan.savings
             (generateOptimizationPlan emptyBill tt {| budget := undefined |}) in
  Savings.total s = 0 /\ Savings.breakdown_percentage s = nan.
Proof.
  apply (plan_without_amount_saves_nothing emptyBill tt {| budget := undefined |}).
  reflexivity.
Defined.

End OptimizationPlan.

(* ================================================================= *)
(** ** The comparative analysis *)

Section ComparativeAnalysis.
Import Comparative Props.
Local Open Scope string_scope.
Local Open Scope float_scope.

(** [generateComparativeAnalysis] returns for exactly the bills with a
    [usage] and a [charges] object; for every other bill
    [calculateComparisonMetrics] throws a [TypeError]. *)
Theorem generateComparativeAnalysis_returns_iff (b : BillData)
  (region homeType occupancy : string) :
  ((exists c, generateComparativeAnalysis b region homeType occupancy = Ok c)
   <-> (present (usage b) && present (charges b))%bool = true) /\
  ((present (usage b) && present (charges b))%bool = false ->
   exists m,
     calculateComparisonMetrics b
       (getBenchmarksForComparison region homeType occupancy)
     = Throw (TypeError m) /\
     generateComparativeAnalysis b region homeType occupancy
     = Throw (TypeError m)).
Proof.
  unfold generateComparativeAnalysis, calculateComparisonMetrics.
  destruct (usage b) as [| |u], (charges b) as [| |ch];
    cbn [present andb get bind];
    (split;
     [split; [intros [c H]; try discriminate H; reflexivity
             |try discriminate; eauto]
     |try discriminate; intros _; eexists; split; reflexivity]).
Qed.

(** A ratio to the benchmark that is not a number, as for a bill without
    a usage figure, gets the 90th percentile and ranks
    ["needs_improvement"]. *)
Theorem non_numeric_ratio_needs_improvement (v benchmark : float) :
  is_nan (v / benchmark) = true ->
  calculatePercentile v benchmark = 90 /\
  getPercentileRank (calculatePercentile v benchmark) = "needs_improvement".
Proof.
  intros H. unfold calculatePercentile. rewrite (is_nan_eq _ H).
  split; reflexivity.
Qed.

Lemma non_numeric_ratio_needs_improvement_witness :
  calculatePercentile (ToNumber undefined) 877 = 90 /\
  getPercentileRank (calculatePercentile (ToNumber undefined) 877)
  = "needs_improvement".
Proof.
  apply (non_numeric_ratio_needs_improvement (ToNumber undefined) 877).
  reflexivity.
Defined.

(** The insight on the overall efficiency is given exactly for the three
    worst pairs of ranks. *)
Theorem overall_insight_by_ranks (metrics : Metrics.t) (benchmarks : Benchmarks.t) :
  let ranking := calculateRanking metrics benchmarks in
  (75 <? Ranking.overall_percentile ranking)
  = poorRanks (Ranked.rank (Ranking.usage ranking))
              (Ranked.rank (Ranking.cost ranking)).
Proof.
  cbv zeta. unfold calculateRanking, calculatePercentile, getPercentileRank.
  cbn [Ranking.overall_percentile Ranking.usage Ranking.cost Ranked.rank].
  destruct (_ / _ <? 0.8); [|destruct (_ / _ <? 1.0); [|destruct (_ / _ <? 1.3)]];
    (destruct (_ / _ <? 0.8);
     [|destruct (_ / _ <? 1.0); [|destruct (_ / _ <? 1.3)]]);
    reflexivity.
Qed.

(** Whoever is told that the usage or the rate is high is also offered the
    matching improvement: the insights' thresholds (20 and 15) lie above
    the opportunities' (15 and 10). *)
Theorem insights_come_with_opportunities (metrics : Metrics.t)
  (ranking : Ranking.t) (benchmarks : Benchmarks.t) :
  let insights := generateComparisonInsights metrics ranking in
  let opportunities := identifyImprovementOpportunities metrics benchmarks in
  (In "Your usage is significantly higher than national average" insights ->
   In "usage_reduction" (map Opportunity.type opportunities)) /\
  (In "Your cost per kWh is higher than similar homes" insights ->
   In "rate_optimization" (map Opportunity.type opportunities)).
Proof.
  cbv zeta. unfold generateComparisonInsights, identifyImprovementOpportunities.
  split.
  - destruct (20 <? UsageMetrics.vs_national (Metrics.usage metrics)) eqn:E.
    + intros _. rewrite (ltb_trans 15 20 _ eq_refl E). left. reflexivity.
    + cbn [app]. intros H. exfalso.
      destruct (15 <? _), (75 <? _); cbn in H; intuition discriminate.
  - destruct (15 <? CostMetrics.vs_similar (Metrics.cost metrics)) eqn:E.
    + intros _. rewrite (ltb_trans 10 15 _ eq_refl E).
      rewrite map_app. apply in_or_app. right. left. reflexivity.
    + intros H. exfalso.
      destruct (20 <? _), (75 <? _); cbn in H; intuition discriminate.
Qed.

End ComparativeAnalysis.
